(** * KrishiRaksha: the claim-evaluation core, embedded and verified

    A shallow embedding of the inference code under [ml/api] and
    [ml/inference]: the unit and feature normalizer ([api/utils.py]), the
    fraud and yield feature builders ([inference/fraud_detection.py],
    [inference/yield_prediction.py]), the perceptual-hash duplicate engine
    ([inference/image_verification.py]) and the decision fusion engine
    ([inference/claim_evaluator.py]); with them the satellite verifier
    ([inference/satellite_verification.py]) and the land-size readers of
    the two training pipelines ([training/yield_model],
    [training/fraud_model]).

    Conventions of the embedding.
    - A Python [float] is an exact rational ([Q]): the non-finite values
      are outside the model, and so is rounding error, except in the
      decision cascade, where a comparison with a threshold turns on it:
      there the operations round to the nearest float
      ([Py.round_float]).  Equality of computed floats is [Qeq] ([==]).
    - A Python [int] is [Z]; a [str] is a [string] whose characters are
      read as the code points U+0000..U+00FF.
    - A [dict] is a [gmap], a [set] is a [gset].
    - A function that can raise returns a [Py.result]; [try]/[except] is
      [Py.try_except].
    - The trained models, the image library and the clock are external
      collaborators: they are Section variables of the code that calls
      them. *)

From Stdlib Require Import ZArith QArith Qround Qabs String Ascii List Lia Lqa.
From stdpp Require Import gmap strings list pretty.
Import ListNotations.

Open Scope string_scope.

(** ** The Python primitives the code relies on *)

Module Py.

(** *** Exceptions *)

Inductive exn : Type :=
| ValueError (msg : string)
| IndexError
| KeyError (key : string)
| ZeroDivisionError
| FileNotFoundError (msg : string)
| RuntimeError (msg : string)
| TypeError (msg : string)
| OverflowError (msg : string).

Inductive result (A : Type) : Type :=
| Ok (a : A)
| Raise (e : exn).

Arguments Ok {A} a.
Arguments Raise {A} e.

Definition bind {A B : Type} (m : result A) (k : A -> result B) : result B :=
  match m with
  | Ok a => k a
  | Raise e => Raise e
  end.

(** [try: body except: handler]; the handler re-raises what it does not
    catch. *)
Definition try_except {A : Type} (body : result A) (handler : exn -> result A)
  : result A :=
  match body with
  | Ok a => Ok a
  | Raise e => handler e
  end.

Definition is_ok {A : Type} (m : result A) : bool :=
  match m with Ok _ => true | Raise _ => false end.

(** *** Numbers *)

Definition Qlt_bool (a b : Q) : bool :=
  (Qnum a * QDen b <? Qnum b * QDen a)%Z.

(** [max(a, b)] and [min(a, b)] return their first argument on a tie. *)
Definition max (a b : Q) : Q := if Qlt_bool a b then b else a.
Definition min (a b : Q) : Q := if Qlt_bool b a then b else a.

Definition abs (a : Q) : Q := Qabs a.

(** [a / b] on floats raises [ZeroDivisionError] for a zero divisor. *)
Definition truediv (a b : Q) : result Q :=
  if Qeq_bool b 0 then Raise ZeroDivisionError else Ok (a / b)%Q.

(** Round to the nearest integer, ties to even. *)
Definition round_half_even (q : Q) : Z :=
  let f := Qfloor q in
  let r := (q - inject_Z f)%Q in
  if Qlt_bool r (1 # 2) then f
  else if Qlt_bool (1 # 2) r then (f + 1)%Z
  else if Z.even f then f else (f + 1)%Z.

(** The exponent of the last place of a positive number in binary64:
    the significand has 53 bits, and no exponent is below -1074. *)
Definition float_exponent (a : Q) : Z :=
  let k := (Z.log2 (Qnum a) - Z.log2 (Zpos (Qden a)))%Z in
  let floor_log2 := if Qlt_bool a (Qpower 2 k) then (k - 1)%Z else k in
  Z.max (floor_log2 - 52) (-1074).

(** The float nearest to a number, ties to even: what an operation on
    floats returns for its exact result, while that is in range. *)
Definition round_float (q : Q) : Q :=
  if Qeq_bool q 0 then 0%Q
  else
    let a := Qabs q in
    let ulp := Qpower 2 (float_exponent a) in
    let nearest := (inject_Z (round_half_even (a / ulp)) * ulp)%Q in
    if Qlt_bool q 0 then (- nearest)%Q else nearest.

(** [a - b] and, for a divisor that is not zero, [a / b] on floats: the
    operands are floats, a number that is none standing for the float
    nearest to it, as a literal does. *)
Definition fsub (a b : Q) : Q :=
  round_float (round_float a - round_float b).
Definition fdiv (a b : Q) : Q :=
  round_float (round_float a / round_float b).

(** [round(q, 2)]. *)
Definition round2 (q : Q) : Q :=
  (inject_Z (round_half_even (q * 100)) / 100)%Q.

(** The format specification [:.1f] of an f-string. *)
Definition format_1f (q : Q) : string :=
  let n := round_half_even (Qabs q * 10) in
  (if Qlt_bool q 0 then "-" else "")
    ++ pretty (n / 10)%Z ++ "." ++ pretty (n mod 10)%Z.

(** *** Strings *)

(** [str.isspace] on one character: TAB..CR, FS..US, SPACE, NEL, NBSP. *)
Definition isspace (c : ascii) : bool :=
  let n := nat_of_ascii c in
  ((9 <=? n)%nat && (n <=? 13)%nat) || ((28 <=? n)%nat && (n <=? 32)%nat)
  || (n =? 133)%nat || (n =? 160)%nat.

(** [str.lower] on one character: A..Z and the Latin-1 capitals
    U+00C0..U+00DE (U+00D7, the multiplication sign, is not a letter). *)
Definition lower_char (c : ascii) : ascii :=
  let n := nat_of_ascii c in
  if ((65 <=? n)%nat && (n <=? 90)%nat)
     || ((192 <=? n)%nat && (n <=? 222)%nat && negb (n =? 215)%nat)
  then ascii_of_nat (n + 32) else c.

Fixpoint lower (s : string) : string :=
  match s with
  | EmptyString => EmptyString
  | String c r => String (lower_char c) (lower r)
  end.

Fixpoint lstrip (s : string) : string :=
  match s with
  | EmptyString => EmptyString
  | String c r => if isspace c then lstrip r else s
  end.

(** What is left of [String c r] is empty when [c] and all of [r] are
    whitespace. *)
Fixpoint rstrip (s : string) : string :=
  match s with
  | EmptyString => EmptyString
  | String c r =>
      match rstrip r with
      | EmptyString => if isspace c then EmptyString else String c EmptyString
      | r' => String c r'
      end
  end.

Definition strip (s : string) : string := rstrip (lstrip s).

(** [s.split()]: the maximal runs of non-whitespace characters.  [cur] is
    the run being read, if any. *)
Fixpoint split_from (cur : option string) (s : string) : list string :=
  match s with
  | EmptyString => match cur with Some w => [w] | None => [] end
  | String c r =>
      if isspace c
      then match cur with
           | Some w => w :: split_from None r
           | None => split_from None r
           end
      else split_from
             (Some (match cur with
                    | Some w => w ++ String c EmptyString
                    | None => String c EmptyString
                    end)) r
  end.

Definition split (s : string) : list string := split_from None s.

(** [sep.join(parts)]. *)
Fixpoint join (sep : string) (parts : list string) : string :=
  match parts with
  | [] => ""
  | [p] => p
  | p :: rest => p ++ sep ++ join sep rest
  end.

(** [l.append(x)]. *)
Definition append {A : Type} (l : list A) (x : A) : list A := (l ++ [x])%list.

(** [parts[i]] on a list. *)
Definition getitem {A : Type} (l : list A) (i : nat) : result A :=
  match l !! i with
  | Some x => Ok x
  | None => Raise IndexError
  end.

(** [d[key]] on a dict. *)
Definition dict_getitem {A : Type} (d : gmap string A) (key : string)
  : result A :=
  match d !! key with
  | Some x => Ok x
  | None => Raise (KeyError key)
  end.

(** [d.get(key, default)]. *)
Definition dict_get {A : Type} (d : gmap string A) (key : string) (dflt : A)
  : A :=
  default dflt (d !! key).

(** *** Values

    What a request of the API can hold under a key of a
    [Dict[str, Any]]: the values of JSON.  Of a list and of a dict only
    the kind matters here. *)
Inductive value : Type :=
| VNone
| VBool (b : bool)
| VInt (n : Z)
| VFloat (q : Q)
| VStr (s : string)
| VList
| VDict.

(** A dict of floats as a dict of values. *)
Definition float_values (d : option (gmap string Q))
  : option (gmap string value) :=
  match d with
  | Some floats => Some (VFloat <$> floats)
  | None => None
  end.

(** *** Hexadecimal and binary numerals *)

Definition hex_digit_of (c : ascii) : option Z :=
  let n := nat_of_ascii c in
  if (48 <=? n)%nat && (n <=? 57)%nat then Some (Z.of_nat (n - 48))
  else if (97 <=? n)%nat && (n <=? 102)%nat then Some (Z.of_nat (n - 87))
  else if (65 <=? n)%nat && (n <=? 70)%nat then Some (Z.of_nat (n - 55))
  else None.

Fixpoint int16_from (acc : Z) (s : string) : option Z :=
  match s with
  | EmptyString => Some acc
  | String c r =>
      match hex_digit_of c with
      | Some d => int16_from (16 * acc + d)%Z r
      | None => None
      end
  end.

(** The blanks that [int] skips around a numeral: TAB..CR, SPACE, NEL,
    NBSP (FS..US, which [str.isspace] accepts, are not among them). *)
Definition int_isspace (c : ascii) : bool :=
  let n := nat_of_ascii c in
  ((9 <=? n)%nat && (n <=? 13)%nat) || (n =? 32)%nat
  || (n =? 133)%nat || (n =? 160)%nat.

Fixpoint int_lstrip (s : string) : string :=
  match s with
  | EmptyString => EmptyString
  | String c r => if int_isspace c then int_lstrip r else s
  end.

Fixpoint int_rstrip (s : string) : string :=
  match s with
  | EmptyString => EmptyString
  | String c r =>
      match int_rstrip r with
      | EmptyString =>
          if int_isspace c then EmptyString else String c EmptyString
      | r' => String c r'
      end
  end.

(** Hexadecimal digits after a digit: single underscores may stand
    between digits. *)
Fixpoint int16_digits (acc : Z) (s : string) : option Z :=
  match s with
  | EmptyString => Some acc
  | String c r =>
      if Ascii.eqb c "_"
      then match r with
           | String c2 r2 =>
               match hex_digit_of c2 with
               | Some d => int16_digits (16 * acc + d)%Z r2
               | None => None
               end
           | EmptyString => None
           end
      else match hex_digit_of c with
           | Some d => int16_digits (16 * acc + d)%Z r
           | None => None
           end
  end.

(** The numeral without its sign: an optional prefix [0x] or [0X], after
    which one underscore may stand, then digits. *)
Definition int16_unsigned (s : string) : option Z :=
  let digits :=
    match s with
    | String c (String x r) =>
        if Ascii.eqb c "0" && (Ascii.eqb x "x" || Ascii.eqb x "X")
        then match r with
             | String u r' => if Ascii.eqb u "_" then r' else r
             | EmptyString => r
             end
        else s
    | _ => s
    end in
  match digits with
  | String c r =>
      match hex_digit_of c with
      | Some d => int16_digits d r
      | None => None
      end
  | EmptyString => None
  end.

(** [int(s, 16)]: blanks around the numeral, an optional sign, an
    optional prefix, and hexadecimal digits with single underscores
    between them; [ValueError] for any other text. *)
Definition int16 (s : string) : result Z :=
  let body := int_rstrip (int_lstrip s) in
  let value :=
    match body with
    | String c r =>
        if Ascii.eqb c "+" then int16_unsigned r
        else if Ascii.eqb c "-" then option_map Z.opp (int16_unsigned r)
        else int16_unsigned body
    | EmptyString => int16_unsigned body
    end in
  match value with
  | Some n => Ok n
  | None => Raise (ValueError "invalid literal for int() with base 16")
  end.

(** The binary digits of [p], most significant first, before [acc]. *)
Fixpoint bin_pos (p : positive) (acc : string) : string :=
  match p with
  | xH => String "1" acc
  | xO p' => bin_pos p' (String "0" acc)
  | xI p' => bin_pos p' (String "1" acc)
  end.

(** [bin(n)]. *)
Definition bin (n : Z) : string :=
  match n with
  | Z0 => "0b0"
  | Zpos p => "0b" ++ bin_pos p ""
  | Zneg p => "-0b" ++ bin_pos p ""
  end.

(** [s[k:]]. *)
Fixpoint slice_from (k : nat) (s : string) : string :=
  match k, s with
  | O, _ => s
  | S k', String _ r => slice_from k' r
  | S _, EmptyString => EmptyString
  end.

Fixpoint zeros (k : nat) : string :=
  match k with
  | O => EmptyString
  | S k' => String "0" (zeros k')
  end.

(** [s.zfill(width)]: zeros on the left, after a leading sign. *)
Definition zfill (width : nat) (s : string) : string :=
  let fill := zeros (width - String.length s) in
  match s with
  | String c r =>
      if Ascii.eqb c "+" || Ascii.eqb c "-" then String c (fill ++ r)
      else fill ++ s
  | EmptyString => fill
  end.

(** *** Decimal digits and dates *)

Definition digit_of (c : ascii) : option Z :=
  let n := nat_of_ascii c in
  if (48 <=? n)%nat && (n <=? 57)%nat then Some (Z.of_nat (n - 48)) else None.

Record date : Type := Date { year : Z; month : Z; day : Z }.

Definition is_leap (y : Z) : bool :=
  (y mod 4 =? 0)%Z && (negb (y mod 100 =? 0)%Z || (y mod 400 =? 0)%Z).

Definition days_in_month (y m : Z) : Z :=
  if (m =? 2)%Z then (if is_leap y then 29 else 28)%Z
  else if (m =? 4)%Z || (m =? 6)%Z || (m =? 9)%Z || (m =? 11)%Z then 30%Z
  else 31%Z.

Definition days_before_year (y : Z) : Z :=
  let y1 := (y - 1)%Z in
  (y1 * 365 + y1 / 4 - y1 / 100 + y1 / 400)%Z.

Definition days_before_month (y m : Z) : Z :=
  fold_right Z.add 0%Z
    (map (days_in_month y) (map Z.of_nat (seq 1 (Z.to_nat (m - 1))))).

(** [date.toordinal()]: 1 for 0001-01-01. *)
Definition toordinal (d : date) : Z :=
  (days_before_year (year d) + days_before_month (year d) (month d) + day d)%Z.

(** The constructor check of [datetime]: [ValueError] outside the
    calendar. *)
Definition valid_date (d : date) : bool :=
  (1 <=? year d)%Z && (year d <=? 9999)%Z
  && (1 <=? month d)%Z && (month d <=? 12)%Z
  && (1 <=? day d)%Z && (day d <=? days_in_month (year d) (month d))%Z.

(** The directive [%m]: the regular expression [1[0-2]|0[1-9]|[1-9]]
    at the head of [s]; the month and what follows it. *)
Definition read_month (s : string) : option (Z * string) :=
  match s with
  | String c1 r1 =>
      match digit_of c1 with
      | Some 1%Z =>
          match r1 with
          | String c2 r2 =>
              match digit_of c2 with
              | Some d2 => if (d2 <=? 2)%Z then Some (10 + d2, r2)%Z
                           else Some (1%Z, r1)
              | None => Some (1%Z, r1)
              end
          | EmptyString => Some (1%Z, r1)
          end
      | Some 0%Z =>
          match r1 with
          | String c2 r2 =>
              match digit_of c2 with
              | Some d2 => if (1 <=? d2)%Z then Some (d2, r2) else None
              | None => None
              end
          | EmptyString => None
          end
      | Some d1 => Some (d1, r1)
      | None => None
      end
  | EmptyString => None
  end.

(** The directive [%d]: [3[0-1]|[1-2]\d|0[1-9]|[1-9]| [1-9]]. *)
Definition read_day (s : string) : option (Z * string) :=
  match s with
  | String c1 r1 =>
      match digit_of c1, r1 with
      | Some 0%Z, String c2 r2 =>
          match digit_of c2 with
          | Some d2 => if (1 <=? d2)%Z then Some (d2, r2) else None
          | None => None
          end
      | Some 0%Z, EmptyString => None
      | Some d1, String c2 r2 =>
          match digit_of c2 with
          | Some d2 =>
              if (d1 =? 3)%Z && (d2 <=? 1)%Z then Some (30 + d2, r2)%Z
              else if (d1 <=? 2)%Z then Some (10 * d1 + d2, r2)%Z
              else Some (d1, r1)
          | None => Some (d1, r1)
          end
      | Some d1, EmptyString => Some (d1, r1)
      | None, String c2 r2 =>
          if Ascii.eqb c1 " "
          then match digit_of c2 with
               | Some d2 => if (1 <=? d2)%Z then Some (d2, r2) else None
               | None => None
               end
          else None
      | None, EmptyString => None
      end
  | EmptyString => None
  end.

(** [datetime.strptime(s, '%Y-%m-%d')], date part; [None] when it raises
    [ValueError]: four digits, a hyphen, a month, a hyphen, a day,
    nothing after it, and a date of the calendar. *)
Definition strptime_Ymd (s : string) : option date :=
  match s with
  | String y1 (String y2 (String y3 (String y4 (String h1 r)))) =>
      match digit_of y1, digit_of y2, digit_of y3, digit_of y4 with
      | Some a, Some b, Some c, Some d =>
          if Ascii.eqb h1 "-" then
            match read_month r with
            | Some (m, String h2 r') =>
                if Ascii.eqb h2 "-" then
                  match read_day r' with
                  | Some (dd, EmptyString) =>
                      let dt := Date (1000 * a + 100 * b + 10 * c + d) m dd in
                      if valid_date dt then Some dt else None
                  | _ => None
                  end
                else None
            | _ => None
            end
          else None
      | _, _, _, _ => None
      end
  | _ => None
  end.

(** *** More numerals: [int(s, 2)], [hex] and [numpy.argmax] *)

Definition bin_digit_of (c : ascii) : option Z :=
  if Ascii.eqb c "0" then Some 0%Z
  else if Ascii.eqb c "1" then Some 1%Z
  else None.

Fixpoint int2_from (acc : Z) (s : string) : option Z :=
  match s with
  | EmptyString => Some acc
  | String c r =>
      match bin_digit_of c with
      | Some d => int2_from (2 * acc + d)%Z r
      | None => None
      end
  end.

(** [int(s, 2)] on a string of binary digits; as for [int16], the other
    spellings that [int] reads are not modelled. *)
Definition int2 (s : string) : result Z :=
  match s with
  | EmptyString => Raise (ValueError "invalid literal for int() with base 2")
  | _ =>
      match int2_from 0%Z s with
      | Some n => Ok n
      | None => Raise (ValueError "invalid literal for int() with base 2")
      end
  end.

Definition hex_char (d : Z) : ascii :=
  if (d <? 10)%Z then ascii_of_nat (48 + Z.to_nat d)
  else ascii_of_nat (87 + Z.to_nat d).

(** The hexadecimal digits of [n], most significant first, before [acc];
    [fuel] bounds the number of digits. *)
Fixpoint hex_from (fuel : nat) (n : Z) (acc : string) : string :=
  match fuel with
  | O => acc
  | S fuel' =>
      if (n <? 16)%Z then String (hex_char n) acc
      else hex_from fuel' (n / 16)%Z (String (hex_char (n mod 16)) acc)
  end.

(** [hex(n)]; a number has no more hexadecimal digits than bits. *)
Definition hex (n : Z) : string :=
  match n with
  | Z0 => "0x0"
  | Zpos p => "0x" ++ hex_from (Pos.size_nat p) n ""
  | Zneg p => "-0x" ++ hex_from (Pos.size_nat p) (Zpos p) ""
  end.

(** The index of the first greatest element after [best], which stands
    at [best_i]; [i] is the index of the head of [l]. *)
Fixpoint argmax_from (best_i : nat) (best : Q) (i : nat) (l : list Q) : nat :=
  match l with
  | [] => best_i
  | x :: r =>
      if Qlt_bool best x then argmax_from i x (S i) r
      else argmax_from best_i best (S i) r
  end.

(** [numpy.argmax] on a vector: the first index of a greatest element,
    [ValueError] on the empty vector. *)
Definition argmax (l : list Q) : result nat :=
  match l with
  | [] => Raise (ValueError "attempt to get argmax of an empty sequence")
  | x :: r => Ok (argmax_from 0 x 1 r)
  end.

(** *** A reader of plain decimal literals

    An instance of the builtin [float] for examples: an optional sign,
    digits, and an optional fraction. *)

Fixpoint read_digits (s : string) (acc : Z) (cnt : nat) : Z * nat * string :=
  match s with
  | String c r =>
      match digit_of c with
      | Some d => read_digits r (10 * acc + d)%Z (S cnt)
      | None => (acc, cnt, s)
      end
  | EmptyString => (acc, cnt, s)
  end.

Definition float_of_unsigned (s : string) : option Q :=
  let '(i, ni, r) := read_digits s 0%Z 0%nat in
  match r with
  | EmptyString => if (0 <? ni)%nat then Some (inject_Z i) else None
  | String c r' =>
      if Ascii.eqb c "." then
        let '(f, nf, r'') := read_digits r' 0%Z 0%nat in
        match r'' with
        | EmptyString =>
            if (0 <? ni + nf)%nat
            then Some (inject_Z i + inject_Z f / inject_Z (10 ^ Z.of_nat nf))%Q
            else None
        | _ => None
        end
      else None
  end.

Definition float_of_decimal (s : string) : option Q :=
  match s with
  | String c r =>
      if Ascii.eqb c "-" then option_map Qopp (float_of_unsigned r)
      else if Ascii.eqb c "+" then float_of_unsigned r
      else float_of_unsigned s
  | EmptyString => None
  end.

End Py.

Notation "'do' x <- m ; k" := (Py.bind m (fun x => k))
  (at level 10, x name, m at level 100, k at level 200).

(** ** api/utils.py *)

Module Utils.

Section ParseLandSize.

(** The builtin [float] on a string: [None] when it raises
    [ValueError]. *)
Variable py_float : string -> option Q.

Definition float (s : string) : Py.result Q :=
  match py_float s with
  | Some v => Py.Ok v
  | None => Py.Raise (Py.ValueError ("could not convert string to float: " ++ s))
  end.

Definition invalid_land_size (land_size : string) : Py.exn :=
  Py.ValueError
    ("Invalid land size format: " ++ land_size
       ++ ". Expected format: '5 acre'").

Definition parse_land_size (land_size : string) : Py.result (Q * string) :=
  Py.try_except
    (let parts := Py.split (Py.strip land_size) in
     if (length parts <? 2)%nat
     then Py.Raise (Py.ValueError "Land size must include value and unit")
     else
       do p0 <- Py.getitem parts 0;
       do value <- float p0;
       do p1 <- Py.getitem parts 1;
       let unit := Py.lower p1 in
       Py.Ok (value, unit))
    (fun e =>
       match e with
       | Py.ValueError _ | Py.IndexError =>
           Py.Raise (invalid_land_size land_size)
       | _ => Py.Raise e
       end).

End ParseLandSize.

Definition conversion_factors : gmap string Q :=
  list_to_map
    [ ("acre", 0.404686%Q);
      ("hectare", 1.0%Q);
      ("hectares", 1.0%Q);
      ("bigha", 0.1338%Q);
      ("katha", 0.0067%Q);
      ("kanal", 0.0506%Q);
      ("marla", 0.0025%Q);
      ("guntha", 0.0101%Q);
      ("cent", 0.0040%Q);
      ("cents", 0.0040%Q) ].

(** The unknown unit is logged and taken as hectares. *)
Definition convert_to_hectares (value : Q) (unit : string) : Q :=
  let unit_lower := Py.lower unit in
  match conversion_factors !! unit_lower with
  | None => value
  | Some factor => (value * factor)%Q
  end.

(** The entries of [default_features], in the order of the dict. *)
Definition default_items : list (string * Q) :=
  [ ("temperature", 25.0%Q);
    ("rainfall", 0.0%Q);
    ("humidity", 60.0%Q);
    ("wind_speed", 5.0%Q);
    ("sunshine_hours", 8.0%Q) ].

Definition default_features : gmap string Q := list_to_map default_items.

Section ExtractWeatherFeatures.

Variable py_float : string -> option Q.

(** The builtin [float] on a value: a float is itself, an [int] is its
    nearest float, or [OverflowError] beyond the range of floats, a
    [bool] is 1.0 or 0.0, a string is read; [TypeError] for any other
    value. *)
Definition float_of_value (v : Py.value) : Py.result Q :=
  match v with
  | Py.VFloat q => Py.Ok q
  | Py.VInt n =>
      let q := Py.round_float (inject_Z n) in
      if Qle_bool (Qpower 2 1024) (Qabs q)
      then Py.Raise (Py.OverflowError "int too large to convert to float")
      else Py.Ok q
  | Py.VBool b => Py.Ok (if b then 1.0%Q else 0.0%Q)
  | Py.VStr s => float py_float s
  | Py.VNone | Py.VList | Py.VDict =>
      Py.Raise
        (Py.TypeError "float() argument must be a string or a real number")
  end.

(** The loop over [default_features.items()], in the order of the dict:
    [features[key] = float(weather_data.get(key, default_value))]. *)
Fixpoint extract_items (weather_data : gmap string Py.value)
    (items : list (string * Q)) (features : gmap string Q)
  : Py.result (gmap string Q) :=
  match items with
  | [] => Py.Ok features
  | (key, default_value) :: rest =>
      do x <- float_of_value
                (Py.dict_get weather_data key (Py.VFloat default_value));
      extract_items weather_data rest (<[ key := x ]> features)
  end.

(** [None] and the empty dict are falsy and give the defaults. *)
Definition extract_weather_features
    (weather_data : option (gmap string Py.value))
  : Py.result (gmap string Q) :=
  match weather_data with
  | None => Py.Ok default_features
  | Some wd =>
      if bool_decide (wd = ∅) then Py.Ok default_features
      else extract_items wd default_items ∅
  end.

End ExtractWeatherFeatures.

Section YieldPerAcre.

Variable py_float : string -> option Q.

(** Any failure is logged and answered by 0.0. *)
Definition calculate_yield_per_acre (predicted_yield : Q) (land_size : string)
  : Q :=
  let body :=
    do parsed <- parse_land_size py_float land_size;
    let '(value, unit) := parsed in
    let area_hectares := convert_to_hectares value unit in
    let area_acres := (area_hectares / 0.404686)%Q in
    if Qle_bool area_acres 0 then Py.Ok 0.0%Q
    else Py.truediv predicted_yield area_acres in
  match body with
  | Py.Ok r => r
  | Py.Raise _ => 0.0%Q
  end.

End YieldPerAcre.

End Utils.

(** ** inference/fraud_detection.py *)

Module FraudDetector.

Definition crop_encoding : gmap string Z :=
  list_to_map
    [ ("rice", 0%Z); ("wheat", 1%Z); ("cotton", 2%Z);
      ("sugarcane", 3%Z); ("maize", 4%Z) ].

Definition _encode_crop_type (crop_type : string) : Z :=
  let crop_lower := Py.strip (Py.lower crop_type) in
  Py.dict_get crop_encoding crop_lower 0%Z.

(** Penalty points for weather outside the normal ranges. *)
Definition _calculate_weather_anomaly_score (weather_features : gmap string Q)
  : Q :=
  let anomaly_score := 0.0%Q in
  let temp := Py.dict_get weather_features "temperature" 25%Q in
  let anomaly_score :=
    if Py.Qlt_bool temp 20 || Py.Qlt_bool 35 temp
    then (anomaly_score + 30)%Q else anomaly_score in
  let rainfall := Py.dict_get weather_features "rainfall" 0%Q in
  let anomaly_score :=
    if Py.Qlt_bool rainfall 50 || Py.Qlt_bool 150 rainfall
    then (anomaly_score + 40)%Q else anomaly_score in
  let humidity := Py.dict_get weather_features "humidity" 60%Q in
  let anomaly_score :=
    if Py.Qlt_bool humidity 40 || Py.Qlt_bool 80 humidity
    then (anomaly_score + 30)%Q else anomaly_score in
  Py.min 100.0%Q anomaly_score.

Section WithFloat.

Variable py_float : string -> option Q.

(** Any failure of the parser is logged and replaced by one hectare. *)
Definition _parse_land_size (land_size : string) : Q :=
  match Utils.parse_land_size py_float land_size with
  | Py.Ok (value, unit) => Utils.convert_to_hectares value unit
  | Py.Raise _ => 1.0%Q
  end.

Definition _prepare_features
    (crop_type land_size : string) (expected_yield claim_amount : Q)
    (weather_features : option (gmap string Q)) (historical_claims : Z)
  : Py.result (list Q) :=
  let crop_encoded := _encode_crop_type crop_type in
  let land_size_hectares := _parse_land_size land_size in
  do weather <-
    Utils.extract_weather_features py_float
      (Py.float_values weather_features);
  do yield_per_hectare <-
    (if Py.Qlt_bool 0 land_size_hectares
     then Py.truediv expected_yield land_size_hectares else Py.Ok 0%Q);
  do claim_per_hectare <-
    (if Py.Qlt_bool 0 land_size_hectares
     then Py.truediv claim_amount land_size_hectares else Py.Ok 0%Q);
  do claim_to_yield_ratio <-
    (if Py.Qlt_bool 0 expected_yield
     then Py.truediv claim_amount expected_yield else Py.Ok 0%Q);
  let weather_anomaly_score := _calculate_weather_anomaly_score weather in
  do temperature <- Py.dict_getitem weather "temperature";
  do rainfall <- Py.dict_getitem weather "rainfall";
  do humidity <- Py.dict_getitem weather "humidity";
  Py.Ok [ inject_Z crop_encoded;
          land_size_hectares;
          expected_yield;
          claim_amount;
          yield_per_hectare;
          claim_per_hectare;
          claim_to_yield_ratio;
          inject_Z historical_claims;
          temperature;
          rainfall;
          humidity;
          weather_anomaly_score ].

(** The rule list that names what made a claim anomalous. *)
Definition _identify_anomaly_features
    (features : list Q) (fraud_detected : bool) (crop_type : string)
    (expected_yield claim_amount : Q)
  : Py.result (list string) :=
  let anomaly_features : list string := [] in
  if negb fraud_detected then Py.Ok anomaly_features
  else
    do claim_to_yield_ratio <- Py.getitem features 6;
    let anomaly_features :=
      if Py.Qlt_bool 1000 claim_to_yield_ratio
      then Py.append anomaly_features
             "Unusually high claim amount relative to expected yield"
      else anomaly_features in
    do yield_per_hectare <- Py.getitem features 4;
    let anomaly_features :=
      if Py.Qlt_bool yield_per_hectare 10
      then Py.append anomaly_features "Suspiciously low yield per hectare"
      else if Py.Qlt_bool 100 yield_per_hectare
      then Py.append anomaly_features "Unusually high yield per hectare"
      else anomaly_features in
    do claim_per_hectare <- Py.getitem features 5;
    let anomaly_features :=
      if Py.Qlt_bool 50000 claim_per_hectare
      then Py.append anomaly_features "Extremely high claim amount per hectare"
      else anomaly_features in
    do historical_claims <- Py.getitem features 7;
    let anomaly_features :=
      if Py.Qlt_bool 5 historical_claims
      then Py.append anomaly_features "High number of historical claims"
      else anomaly_features in
    do weather_anomaly <- Py.getitem features 11;
    let anomaly_features :=
      if Py.Qlt_bool 50 weather_anomaly
      then Py.append anomaly_features "Unusual weather conditions reported"
      else anomaly_features in
    match anomaly_features with
    | [] => Py.Ok ["Multiple factors indicate potential fraud"]
    | _ => Py.Ok anomaly_features
    end.

Record detection : Type := Detection {
  fraud_detected : bool;
  fraud_score : Q;
  anomaly_features : list string;
  confidence : Q
}.

(** The fitted scaler, if there is one, and the anomaly model. *)
Variable scaler_transform : option (list Q -> Py.result (list Q)).
Variable model_predict : list Q -> Py.result Z.
Variable model_score_samples : list Q -> Py.result Q.

Definition detect
    (crop_type land_size : string) (expected_yield claim_amount : Q)
    (weather_features : option (gmap string Q)) (historical_claims : Z)
    (user_id : option string)
  : Py.result detection :=
  do features <-
    _prepare_features crop_type land_size expected_yield claim_amount
                      weather_features historical_claims;
  do features_scaled <-
    match scaler_transform with
    | Some transform => transform features
    | None => Py.Ok features
    end;
  (* the model answers -1 for an anomaly and 1 for a normal claim *)
  do prediction <- model_predict features_scaled;
  do anomaly_score <- model_score_samples features_scaled;
  let fraud_detected := (prediction =? -1)%Z in
  let fraud_score :=
    Py.max 0.0%Q
      (Py.min 100.0%Q ((1.0 - (anomaly_score + 1) / 2) * 100)%Q) in
  do anomaly_features <-
    _identify_anomaly_features features fraud_detected crop_type
                               expected_yield claim_amount;
  let confidence := (Py.abs anomaly_score * 50)%Q in
  let confidence := Py.max 50.0%Q (Py.min 100.0%Q confidence) in
  Py.Ok {| fraud_detected := fraud_detected;
           fraud_score := Py.round2 fraud_score;
           anomaly_features := anomaly_features;
           confidence := Py.round2 confidence |}.

End WithFloat.

End FraudDetector.

(** ** inference/yield_prediction.py *)

Module YieldPredictor.

Definition crop_encoding : gmap string Z :=
  list_to_map
    [ ("rice", 0%Z); ("wheat", 1%Z); ("cotton", 2%Z);
      ("sugarcane", 3%Z); ("maize", 4%Z) ].

Definition _encode_crop_type (crop_type : string) : Z :=
  let crop_lower := Py.strip (Py.lower crop_type) in
  Py.dict_get crop_encoding crop_lower 0%Z.

Definition soil_encoding : gmap string Z :=
  list_to_map
    [ ("alluvial", 0%Z); ("black", 1%Z); ("red", 2%Z);
      ("laterite", 3%Z); ("desert", 4%Z) ].

Definition _encode_soil_type (soil_type : string) : Z :=
  let soil_lower := Py.strip (Py.lower soil_type) in
  Py.dict_get soil_encoding soil_lower 0%Z.

Definition irrigation_encoding : gmap string Z :=
  list_to_map
    [ ("drip", 0%Z); ("sprinkler", 1%Z); ("flood", 2%Z); ("rainfed", 3%Z) ].

Definition _encode_irrigation_type (irrigation_type : string) : Z :=
  let irrigation_lower := Py.strip (Py.lower irrigation_type) in
  Py.dict_get irrigation_encoding irrigation_lower 0%Z.

(** Kharif: June to October.  Rabi: November to April.  A date that
    does not parse gives no season. *)
Definition _determine_season (sowing_date : string) : Z * Z :=
  match Py.strptime_Ymd sowing_date with
  | Some sowing =>
      let month := Py.month sowing in
      let is_kharif := (6 <=? month)%Z && (month <=? 10)%Z in
      let is_rabi := (11 <=? month)%Z || (month <=? 4)%Z in
      ((if is_kharif then 1 else 0)%Z, (if is_rabi then 1 else 0)%Z)
  | None => (0%Z, 0%Z)
  end.

Section WithClock.

(** The date of [datetime.now()]. *)
Variable today : Py.date.

(** [(today - sowing).days], not below zero; 90 for a date that does
    not parse. *)
Definition _calculate_days_since_sowing (sowing_date : string) : Z :=
  match Py.strptime_Ymd sowing_date with
  | Some sowing =>
      let days := (Py.toordinal today - Py.toordinal sowing)%Z in
      Z.max 0 days
  | None => 90%Z
  end.

Variable py_float : string -> option Q.

Definition _parse_land_size (land_size : string) : Q :=
  match Utils.parse_land_size py_float land_size with
  | Py.Ok (value, unit) => Utils.convert_to_hectares value unit
  | Py.Raise _ => 1.0%Q
  end.

Definition _prepare_features
    (crop_type land_size sowing_date soil_type irrigation_type : string)
    (fertilizer_usage : Q) (weather_features : option (gmap string Q))
  : Py.result (list Q) :=
  let crop_encoded := _encode_crop_type crop_type in
  let soil_encoded := _encode_soil_type soil_type in
  let irrigation_encoded := _encode_irrigation_type irrigation_type in
  let land_size_hectares := _parse_land_size land_size in
  let days_since_sowing := _calculate_days_since_sowing sowing_date in
  let '(is_kharif, is_rabi) := _determine_season sowing_date in
  do weather <-
    Utils.extract_weather_features py_float
      (Py.float_values weather_features);
  (* kg/acre to kg/hectare (1 acre is about 0.4047 hectares) *)
  let fertilizer_kg_per_hectare := (fertilizer_usage / 0.4047)%Q in
  do temperature <- Py.dict_getitem weather "temperature";
  do rainfall <- Py.dict_getitem weather "rainfall";
  do humidity <- Py.dict_getitem weather "humidity";
  do wind_speed <- Py.dict_getitem weather "wind_speed";
  do sunshine_hours <- Py.dict_getitem weather "sunshine_hours";
  Py.Ok [ inject_Z crop_encoded;
          land_size_hectares;
          inject_Z days_since_sowing;
          inject_Z soil_encoded;
          inject_Z irrigation_encoded;
          fertilizer_kg_per_hectare;
          temperature;
          rainfall;
          humidity;
          wind_speed;
          sunshine_hours;
          inject_Z is_kharif;
          inject_Z is_rabi ].

End WithClock.

(** The risk heuristic reads the weather as it was given, not the record
    with defaults. *)
Definition _determine_risk_level
    (predicted_yield fertilizer_usage : Q)
    (weather_features : option (gmap string Q)) : string :=
  let rain_risk :=
    match weather_features with
    | Some wd =>
        if bool_decide (wd = ∅) then false
        else
          let rainfall := Py.dict_get wd "rainfall" 0%Q in
          (* excessive rainfall, or drought *)
          Py.Qlt_bool 200 rainfall || Py.Qlt_bool rainfall 50
    | None => false
    end in
  if rain_risk then "high"
  else if Py.Qlt_bool fertilizer_usage 30 then "medium"
  else if Py.Qlt_bool predicted_yield 20 then "high"
  else "low".

Definition _generate_recommendations
    (crop_type : string) (predicted_yield fertilizer_usage : Q)
    (weather_features : option (gmap string Q)) (risk_level : string)
  : list string :=
  let recommendations : list string := [] in
  let recommendations :=
    if Py.Qlt_bool fertilizer_usage 50
    then Py.append recommendations
           "Consider increasing organic fertilizer usage by 15-20% for better soil health"
    else recommendations in
  let recommendations :=
    match weather_features with
    | Some wd =>
        if bool_decide (wd = ∅) then recommendations
        else
          let rainfall := Py.dict_get wd "rainfall" 0%Q in
          if Py.Qlt_bool rainfall 50
          then Py.append recommendations
                 "Irrigation levels should be monitored closely due to low rainfall"
          else if Py.Qlt_bool 200 rainfall
          then Py.append recommendations
                 "Take measures to prevent waterlogging due to excessive rainfall"
          else recommendations
    | None => recommendations
    end in
  let recommendations :=
    if String.eqb risk_level "high"
    then Py.append recommendations
           "High risk detected - consider consulting agricultural experts"
    else recommendations in
  let recommendations :=
    if Py.Qlt_bool predicted_yield 30
    then Py.append recommendations
           "Yield prediction is below average - review farming practices and consider crop rotation"
    else recommendations in
  (* crop-specific recommendations *)
  let recommendations :=
    if String.eqb (Py.lower crop_type) "rice"
    then Py.append recommendations
           "Monitor water levels closely during flowering stage for optimal rice yield"
    else if String.eqb (Py.lower crop_type) "wheat"
    then Py.append recommendations
           "Ensure proper irrigation during grain filling stage"
    else recommendations in
  match recommendations with
  | [] => ["Conditions look favorable - maintain current farming practices"]
  | _ => recommendations
  end.

Record prediction : Type := Prediction {
  predicted_yield : Q;
  confidence : Q;
  risk_level : string;
  recommendations : list string
}.

Section Predict.

Variable today : Py.date.
Variable py_float : string -> option Q.

(** The fitted scaler, if there is one, and the regression model. *)
Variable scaler_transform : option (list Q -> Py.result (list Q)).
Variable model_predict : list Q -> Py.result Q.

Definition predict
    (crop_type land_size sowing_date soil_type irrigation_type : string)
    (fertilizer_usage : Q) (weather_features : option (gmap string Q))
  : Py.result prediction :=
  do features <-
    _prepare_features today py_float crop_type land_size sowing_date
                      soil_type irrigation_type fertilizer_usage
                      weather_features;
  do features_scaled <-
    match scaler_transform with
    | Some transform => transform features
    | None => Py.Ok features
    end;
  do predicted_yield <- model_predict features_scaled;
  (* ensure non-negative *)
  let predicted_yield := Py.max 0.0%Q predicted_yield in
  let confidence := 85.0%Q in
  let risk_level :=
    _determine_risk_level predicted_yield fertilizer_usage weather_features in
  let recommendations :=
    _generate_recommendations crop_type predicted_yield fertilizer_usage
                              weather_features risk_level in
  Py.Ok {| predicted_yield := Py.round2 predicted_yield;
           confidence := Py.round2 confidence;
           risk_level := risk_level;
           recommendations := recommendations |}.

End Predict.

End YieldPredictor.

(** ** inference/image_verification.py *)

Module ImageVerifier.

(** [sum(c1 != c2 for c1, c2 in zip(bin1, bin2))]. *)
Fixpoint hamming_zip (bin1 bin2 : string) : Z :=
  match bin1, bin2 with
  | String c1 r1, String c2 r2 =>
      ((if Ascii.eqb c1 c2 then 0 else 1) + hamming_zip r1 r2)%Z
  | _, _ => 0%Z
  end.

(** One minus the Hamming distance over the length of the first
    numeral; zero when a hash is not a hexadecimal numeral. *)
Definition _hash_similarity (hash1 hash2 : string) : Q :=
  let body :=
    do n1 <- Py.int16 hash1;
    let bin1 := Py.zfill 64 (Py.slice_from 2 (Py.bin n1)) in
    do n2 <- Py.int16 hash2;
    let bin2 := Py.zfill 64 (Py.slice_from 2 (Py.bin n2)) in
    let hamming_distance := hamming_zip bin1 bin2 in
    do ratio <- Py.truediv (inject_Z hamming_distance)
                           (inject_Z (Z.of_nat (String.length bin1)));
    let similarity := (1.0 - ratio)%Q in
    Py.Ok similarity in
  match body with
  | Py.Ok similarity => similarity
  | Py.Raise _ => 0.0%Q
  end.

Definition default_threshold : Q := 0.95%Q.

Definition _check_duplicate
    (image_hashes : gset string) (image_hash : string) (threshold : Q)
  : bool * Q :=
  if bool_decide (image_hashes = ∅) then (false, 0.0%Q)
  else if bool_decide (image_hash ∈ image_hashes) then (true, 100.0%Q)
  else
    let max_similarity :=
      foldl (fun max_similarity stored_hash =>
               let similarity := _hash_similarity image_hash stored_hash in
               Py.max max_similarity similarity)
            0.0%Q (elements image_hashes) in
    let is_duplicate := Qle_bool threshold max_similarity in
    let confidence := (max_similarity * 100.0)%Q in
    (is_duplicate, confidence).

Record verify_result : Type := VerifyResult {
  damage_confidence : Q;
  is_duplicate : bool;
  duplicate_confidence : Q;
  image_hash : string
}.

Section Verify.

(** The file system, the image library and the classifier. *)
Variable image : Type.
Variable path_exists : string -> bool.
Variable _preprocess_image : string -> Py.result image.
Variable damage_classifier_predict : image -> Py.result Q.
Variable _compute_image_hash : string -> Py.result string.

(** [verify] on the hash set [image_hashes]: the outcome and the hash
    set it leaves. *)
Definition verify (image_hashes : gset string) (image_path : string)
  : Py.result verify_result * gset string :=
  if negb (path_exists image_path)
  then (Py.Raise (Py.FileNotFoundError ("Image not found: " ++ image_path)),
        image_hashes)
  else
    match
      (do img_array <- _preprocess_image image_path;
       do damage_prediction <- damage_classifier_predict img_array;
       let damage_confidence := (damage_prediction * 100.0)%Q in
       do image_hash <- _compute_image_hash image_path;
       Py.Ok (damage_confidence, image_hash))
    with
    | Py.Raise e => (Py.Raise e, image_hashes)
    | Py.Ok (damage_confidence, image_hash) =>
        let '(is_duplicate, duplicate_confidence) :=
          _check_duplicate image_hashes image_hash default_threshold in
        let image_hashes :=
          if negb is_duplicate then {[ image_hash ]} ∪ image_hashes
          else image_hashes in
        (Py.Ok {| damage_confidence := Py.round2 damage_confidence;
                  is_duplicate := is_duplicate;
                  duplicate_confidence := Py.round2 duplicate_confidence;
                  image_hash := image_hash |},
         image_hashes)
    end.

End Verify.

Section ComputeImageHash.

(** The image library: the picture at a path, resized to 8 by 8 and
    turned to gray, as the row of its 64 pixel values; and the MD5 digest
    of the file. *)
Variable load_gray_8x8 : string -> Py.result (list Z).
Variable md5_hexdigest : string -> Py.result string.

(** [pixels.mean()]; the mean of no pixel plays no part, since no bit
    is made of it. *)
Definition mean (pixels : list Z) : Q :=
  (inject_Z (fold_right Z.add 0%Z pixels)
   / inject_Z (Z.of_nat (length pixels)))%Q.

(** The average hash of a row of pixels: one bit per pixel, set when the
    pixel is above the mean, read as a binary numeral and written in
    hexadecimal. *)
Definition average_hash (pixels : list Z) : Py.result string :=
  let avg := mean pixels in
  let hash_bits := map (fun pixel => Py.Qlt_bool avg (inject_Z pixel)) pixels in
  let hash_string :=
    Py.join "" (map (fun bit : bool => if bit then "1" else "0") hash_bits) in
  do n <- Py.int2 hash_string;
  let hash_hex := Py.slice_from 2 (Py.hex n) in
  Py.Ok hash_hex.

(** Any failure falls back to the digest of the file. *)
Definition _compute_image_hash (image_path : string) : Py.result string :=
  Py.try_except
    (do pixels <- load_gray_8x8 image_path;
     average_hash pixels)
    (fun _ => md5_hexdigest image_path).

End ComputeImageHash.

End ImageVerifier.

(** ** inference/claim_evaluator.py *)

Module ClaimEvaluator.

(** *** The decision cascade *)

Definition _make_decision
    (damage_confidence : Q) (is_duplicate : bool)
    (predicted_yield expected_yield : Q)
    (fraud_detected : bool) (fraud_score : Q) (claim_amount : Q)
  : bool * string :=
  let reasons : list string := [] in
  (* Rule 1: duplicate image *)
  if is_duplicate then
    (false, "Claim rejected: Duplicate image detected. This image has been used in a previous claim.")
  (* Rule 2: fraud detected with high confidence *)
  else if fraud_detected && Py.Qlt_bool 70 fraud_score then
    (false, "Claim rejected: High fraud risk detected (score: "
              ++ Py.format_1f fraud_score
              ++ "). Multiple anomalies identified in claim data.")
  (* Rule 3: damage confidence too low *)
  else if Py.Qlt_bool damage_confidence 30 then
    (false, "Claim rejected: Insufficient evidence of crop damage (confidence: "
              ++ Py.format_1f damage_confidence
              ++ "%). Please provide clearer images of the damage.")
  else
    (* Rule 4: yield discrepancy *)
    let yield_discrepancy :=
      if Py.Qlt_bool 0 expected_yield
      then Py.fdiv (Py.abs (Py.fsub predicted_yield expected_yield))
                   expected_yield
      else 0%Q in
    let reasons :=
      if Py.Qlt_bool 0.5 yield_discrepancy
      then Py.append reasons
             ("Significant discrepancy between predicted yield ("
                ++ Py.format_1f predicted_yield
                ++ ") and expected yield ("
                ++ Py.format_1f expected_yield ++ ")")
      else reasons in
    (* Rule 5: moderate fraud risk *)
    let reasons :=
      if fraud_detected && Py.Qlt_bool 50 fraud_score
      then Py.append reasons
             ("Moderate fraud risk detected (score: "
                ++ Py.format_1f fraud_score ++ ")")
      else reasons in
    (* Rule 6: low damage confidence *)
    let reasons :=
      if Py.Qlt_bool damage_confidence 50
      then Py.append reasons
             ("Low damage confidence ("
                ++ Py.format_1f damage_confidence ++ "%)")
      else reasons in
    (* Decision logic *)
    if (2 <=? length reasons)%nat then
      (false, "Claim rejected: " ++ Py.join ", " reasons)
    else if fraud_detected && Py.Qlt_bool 60 fraud_score then
      (false, "Claim rejected: Fraud detected with score "
                ++ Py.format_1f fraud_score ++ ". "
                ++ (match reasons with
                    | [] => "Anomalies found in claim data."
                    | _ => Py.join ", " reasons
                    end))
    else if Py.Qlt_bool damage_confidence 40 then
      (false, "Claim rejected: Low damage confidence ("
                ++ Py.format_1f damage_confidence
                ++ "%). Please provide better quality images showing clear crop damage.")
    else
      match reasons with
      | _ :: _ =>
          (true, "Claim approved with conditions: " ++ Py.join ", " reasons
                   ++ ". Further review recommended.")
      | [] =>
          (true, "Claim approved: All checks passed. Damage verified, no fraud detected, yield predictions align.")
      end.

Definition _generate_recommendations
    (approved : bool) (damage_confidence : Q) (is_duplicate fraud_detected : bool)
    (predicted_yield expected_yield : Q)
  : list string :=
  let recommendations : list string := [] in
  let recommendations :=
    if negb approved then
      let recommendations :=
        if is_duplicate
        then Py.append recommendations "Please submit original images of the crop damage"
        else recommendations in
      let recommendations :=
        if fraud_detected
        then Py.append recommendations "Review claim details and ensure all information is accurate"
        else recommendations in
      if Py.Qlt_bool damage_confidence 50
      then Py.append recommendations "Submit clearer, higher resolution images showing crop damage"
      else recommendations
    else
      let recommendations :=
        if Py.Qlt_bool damage_confidence 70
        then Py.append recommendations "For future claims, provide clearer images to expedite processing"
        else recommendations in
      let yield_diff := Py.abs (Py.fsub predicted_yield expected_yield) in
      if Py.Qlt_bool 5 yield_diff
      then Py.append recommendations "Consider reviewing yield expectations based on current conditions"
      else recommendations in
  match recommendations with
  | [] => ["Claim processed successfully"]
  | _ => recommendations
  end.

(** *** The collaborators and the calls made to them *)

Record image_result : Type := ImageResult {
  image_damage_confidence : Q;
  image_is_duplicate : bool
}.

Record fraud_result : Type := FraudResult {
  fraud_result_detected : bool;
  fraud_result_score : Q
}.

Inductive call : Type :=
| CallVerify (image_path crop_type : string)
| CallPredict (crop_type land_size sowing_date soil_type irrigation_type : string)
              (fertilizer_usage : Q) (weather_features : option (gmap string Q))
| CallDetect (crop_type land_size : string) (expected_yield claim_amount : Q)
             (weather_features : option (gmap string Q))
             (historical_claims : Z) (user_id : option string).

Definition is_predict_call (c : call) : bool :=
  match c with CallPredict _ _ _ _ _ _ _ => true | _ => false end.

(** A computation that calls collaborators: the calls made so far are
    threaded through, and kept when an exception is raised. *)
Definition traced (A : Type) : Type := list call -> Py.result A * list call.

Definition ret {A : Type} (a : A) : traced A := fun log => (Py.Ok a, log).

Definition tbind {A B : Type} (m : traced A) (k : A -> traced B) : traced B :=
  fun log =>
    match m log with
    | (Py.Ok a, log') => k a log'
    | (Py.Raise e, log') => (Py.Raise e, log')
    end.

(** Calling a collaborator records the call and yields its outcome. *)
Definition invoke {A : Type} (c : call) (outcome : Py.result A) : traced A :=
  fun log => (outcome, Py.append log c).

Definition try_except {A : Type} (body : traced A) (handler : Py.exn -> traced A)
  : traced A :=
  fun log =>
    match body log with
    | (Py.Ok a, log') => (Py.Ok a, log')
    | (Py.Raise e, log') => handler e log'
    end.

Notation "'call' x <- m ; k" := (tbind m (fun x => k))
  (at level 10, x name, m at level 100, k at level 200).

Record verdict : Type := Verdict {
  approved : bool;
  damage_confidence : Q;
  predicted_yield : Q;
  fraud_detected : bool;
  reason : string;
  fraud_score : option Q;
  is_duplicate : bool;
  recommendations : list string
}.

(** The truth value of an optional string: [None] and the empty string
    are false. *)
Definition truthy (s : option string) : bool :=
  match s with
  | Some EmptyString => false
  | Some _ => true
  | None => false
  end.

Section Evaluate.

Variable image_verifier_verify : string -> string -> Py.result image_result.
Variable yield_predictor_predict :
  string -> string -> string -> string -> string -> Q ->
  option (gmap string Q) -> Py.result Q.
Variable fraud_detector_detect :
  string -> string -> Q -> Q -> option (gmap string Q) -> Z ->
  option string -> Py.result fraud_result.

(** The yield step of [evaluate]: the value of [predicted_yield]
    after it. *)
Definition yield_step
    (crop_type land_size : string) (expected_yield : Q)
    (weather_features : option (gmap string Q))
    (sowing_date soil_type irrigation_type : option string)
    (fertilizer_usage : option Q)
  : traced Q :=
  let predicted_yield := expected_yield in
  match sowing_date, soil_type, irrigation_type, fertilizer_usage with
  | Some sowing, Some soil, Some irrigation, Some fertilizer =>
      if truthy sowing_date && truthy soil_type && truthy irrigation_type
      then
        try_except
          (invoke (CallPredict crop_type land_size sowing soil irrigation
                               fertilizer weather_features)
                  (yield_predictor_predict crop_type land_size sowing soil
                                           irrigation fertilizer
                                           weather_features))
          (fun _ => ret predicted_yield)
      else ret predicted_yield
  | _, _, _, _ => ret predicted_yield
  end.

Definition evaluate
    (image_path crop_type land_size : string)
    (expected_yield claim_amount : Q)
    (weather_features : option (gmap string Q))
    (sowing_date soil_type irrigation_type : option string)
    (fertilizer_usage : option Q)
    (historical_claims : Z) (user_id : option string)
  : traced verdict :=
  (* Step 1: image verification *)
  call image_result <-
    invoke (CallVerify image_path crop_type)
           (image_verifier_verify image_path crop_type);
  let damage_confidence := image_damage_confidence image_result in
  let is_duplicate := image_is_duplicate image_result in
  (* Step 2: yield prediction, if sufficient data is available *)
  call predicted_yield <-
    yield_step crop_type land_size expected_yield weather_features
               sowing_date soil_type irrigation_type fertilizer_usage;
  (* Step 3: fraud detection *)
  call fraud_result <-
    invoke (CallDetect crop_type land_size expected_yield claim_amount
                       weather_features historical_claims user_id)
           (fraud_detector_detect crop_type land_size expected_yield
                                  claim_amount weather_features
                                  historical_claims user_id);
  let fraud_detected := fraud_result_detected fraud_result in
  let fraud_score := fraud_result_score fraud_result in
  (* Step 4: approval decision *)
  let '(approved, reason) :=
    _make_decision damage_confidence is_duplicate predicted_yield
                   expected_yield fraud_detected fraud_score claim_amount in
  (* Step 5: recommendations *)
  let recommendations :=
    _generate_recommendations approved damage_confidence is_duplicate
                              fraud_detected predicted_yield expected_yield in
  ret {| approved := approved;
         damage_confidence := Py.round2 damage_confidence;
         predicted_yield := Py.round2 predicted_yield;
         fraud_detected := fraud_detected;
         reason := reason;
         fraud_score := if fraud_detected then Some (Py.round2 fraud_score)
                        else None;
         is_duplicate := is_duplicate;
         recommendations := recommendations |}.

End Evaluate.

End ClaimEvaluator.

(** ** training/yield_model/feature_engineering.py *)

Module FeatureEngineer.

Definition conversion_factors : gmap string Q :=
  list_to_map
    [ ("acre", 0.404686%Q);
      ("hectare", 1.0%Q);
      ("hectares", 1.0%Q);
      ("bigha", 0.1338%Q);
      ("katha", 0.0067%Q);
      ("kanal", 0.0506%Q);
      ("marla", 0.0025%Q);
      ("guntha", 0.0101%Q);
      ("cent", 0.0040%Q) ].

Section WithFloat.

Variable py_float : string -> option Q.

(** The land size in hectares as the training data are prepared: any
    failure gives one hectare. *)
Definition parse_land_size (land_size : string) : Q :=
  let body :=
    let parts := Py.split (Py.strip land_size) in
    do p0 <- Py.getitem parts 0;
    do value <- Utils.float py_float p0;
    do p1 <- Py.getitem parts 1;
    let unit := Py.lower p1 in
    Py.Ok (value * Py.dict_get conversion_factors unit 1.0)%Q in
  match body with
  | Py.Ok r => r
  | Py.Raise _ => 1.0%Q
  end.

End WithFloat.

End FeatureEngineer.

(** ** training/fraud_model/anomaly_features.py *)

Module AnomalyFeatureEngineer.

Definition conversion_factors : gmap string Q :=
  list_to_map
    [ ("acre", 0.404686%Q); ("hectare", 1.0%Q); ("hectares", 1.0%Q);
      ("bigha", 0.1338%Q); ("katha", 0.0067%Q); ("kanal", 0.0506%Q);
      ("marla", 0.0025%Q); ("guntha", 0.0101%Q); ("cent", 0.0040%Q) ].

Section WithFloat.

Variable py_float : string -> option Q.

Definition parse_land_size (land_size : string) : Q :=
  let body :=
    let parts := Py.split (Py.strip land_size) in
    do p0 <- Py.getitem parts 0;
    do value <- Utils.float py_float p0;
    do p1 <- Py.getitem parts 1;
    let unit := Py.lower p1 in
    Py.Ok (value * Py.dict_get conversion_factors unit 1.0)%Q in
  match body with
  | Py.Ok r => r
  | Py.Raise _ => 1.0%Q
  end.

End WithFloat.

End AnomalyFeatureEngineer.

(** ** inference/satellite_verification.py *)

Module SatelliteVerifier.

Definition default_classes : list string :=
  ["healthy"; "damaged"; "cloud_cover"; "no_crop"].

(** The dict that [predict] returns. *)
Record prediction : Type := Prediction {
  predicted_class : option string;
  confidence : Q;
  class_probabilities : gmap string Q;
  status : string;
  error : option string
}.

(** The dict that [verify_crop_health] returns: the prediction, and the
    three keys added to a prediction that is no error. *)
Record verification : Type := Verification {
  base : prediction;
  verification_status : option string;
  recommendation : option string;
  confidence_threshold : option Q
}.

(** [{classes[i]: float(predictions[i]) for i in range(len(classes))}],
    from index [i] on. *)
Fixpoint class_probabilities_from
    (classes : list string) (i : nat) (predictions : list Q)
    (acc : gmap string Q) : Py.result (gmap string Q) :=
  match classes with
  | [] => Py.Ok acc
  | c :: rest =>
      do p <- Py.getitem predictions i;
      class_probabilities_from rest (S i) predictions (<[ c := p ]> acc)
  end.

Section Predict.

(** The class labels and the model of the verifier, the image library,
    and [str] on an exception. *)
Variable image : Type.
Variable classes : list string.
Variable model : option (image -> Py.result (list Q)).
Variable preprocess_image : string -> Py.result image.
Variable str : Py.exn -> string.

(** Without a model [predict] raises; with one, any failure is answered
    by an error dict. *)
Definition predict (image_path : string) : Py.result prediction :=
  match model with
  | None => Py.Raise (Py.ValueError "Model not loaded. Call load_model() first.")
  | Some model_predict =>
      let body :=
        do img <- preprocess_image image_path;
        do predictions <- model_predict img;
        do predicted_class_idx <- Py.argmax predictions;
        do confidence <- Py.getitem predictions predicted_class_idx;
        do predicted_class <- Py.getitem classes predicted_class_idx;
        do probabilities <-
          class_probabilities_from classes 0 predictions ∅;
        Py.Ok {| predicted_class := Some predicted_class;
                 confidence := confidence;
                 class_probabilities := probabilities;
                 status := "success";
                 error := None |} in
      match body with
      | Py.Ok results => Py.Ok results
      | Py.Raise e =>
          Py.Ok {| predicted_class := None;
                   confidence := 0.0%Q;
                   class_probabilities := ∅;
                   status := "error";
                   error := Some (str e) |}
      end
  end.

(** One result per path, each with its path. *)
Fixpoint predict_batch (image_paths : list string)
  : Py.result (list (prediction * string)) :=
  match image_paths with
  | [] => Py.Ok []
  | image_path :: rest =>
      do result <- predict image_path;
      do results <- predict_batch rest;
      Py.Ok ((result, image_path) :: results)
  end.

Definition verify_crop_health (image_path : string) (confidence_threshold : Q)
  : Py.result verification :=
  do prediction <- predict image_path;
  if String.eqb (status prediction) "error"
  then Py.Ok {| base := prediction; verification_status := None;
                recommendation := None; confidence_threshold := None |}
  else
    let predicted_class := predicted_class prediction in
    let confidence := confidence prediction in
    let '(verification_status, recommendation) :=
      if Py.Qlt_bool confidence confidence_threshold
      then ("uncertain",
            "Low confidence - consider manual inspection or higher quality imagery")
      else if bool_decide (predicted_class = Some "healthy")
      then ("healthy", "Crops appear healthy - continue normal monitoring")
      else if bool_decide (predicted_class = Some "damaged")
      then ("damaged", "Crop damage detected - recommend field inspection")
      else if bool_decide (predicted_class = Some "cloud_cover")
      then ("obscured", "Cloud cover detected - wait for clearer imagery")
      else ("no_crop", "No crops detected - verify planting status") in
    Py.Ok {| base := prediction;
             verification_status := Some verification_status;
             recommendation := Some recommendation;
             confidence_threshold := Some confidence_threshold |}.

End Predict.

End SatelliteVerifier.

(** * Definitions used to state the properties *)

(** A decidable closed proposition is settled by evaluating its
    decision procedure. *)
Ltac by_computation := apply (bool_decide_unpack _); vm_compute; exact I.

(** The crops that have a code of their own. *)
Definition known_crops : list string :=
  ["rice"; "wheat"; "cotton"; "sugarcane"; "maize"].

(** The conversion table as it is documented: eight units. *)
Definition documented_factors : gmap string Q :=
  list_to_map
    [ ("acre", 0.404686%Q); ("bigha", 0.1338%Q); ("katha", 0.0067%Q);
      ("kanal", 0.0506%Q); ("marla", 0.0025%Q); ("guntha", 0.0101%Q);
      ("cent", 0.0040%Q); ("hectare", 1.0%Q) ].

(** [to_hectares] as it is documented: the factor of the documented table
    for the lowercased unit, and the value itself for any other unit. *)
Definition documented_to_hectares (value : Q) (unit : string) : Q :=
  match documented_factors !! Py.lower unit with
  | Some factor => (value * factor)%Q
  | None => value
  end.

(** A malformed land size: fewer than two whitespace-separated tokens, or
    a first token that [float] does not read. *)
Definition malformed_land_size (py_float : string -> option Q)
    (land_size : string) : Prop :=
  (length (Py.split land_size) < 2)%nat
  \/ exists token, Py.split land_size !! 0%nat = Some token
                   /\ py_float token = None.

Fixpoint popcount_pos (p : positive) : Z :=
  match p with
  | xH => 1
  | xO p' => popcount_pos p'
  | xI p' => 1 + popcount_pos p'
  end.

(** The number of one bits of a number that is not negative. *)
Definition popcount (n : Z) : Z :=
  match n with
  | Zpos p => popcount_pos p
  | _ => 0
  end.

(** The Hamming distance of two hash values: the number of bit positions
    at which they differ. *)
Definition hamming_distance (a b : Z) : Z := popcount (Z.lxor a b).

(** The normalized Hamming similarity of two hash values, as documented:
    one minus the distance over 64. *)
Definition normalized_similarity (a b : Z) : Q :=
  (1 - inject_Z (hamming_distance a b) / 64)%Q.

(** [h] is the hexadecimal numeral of the 64-bit value [n]. *)
Definition is_hash64 (h : string) (n : Z) : Prop :=
  Py.int16 h = Py.Ok n /\ (0 <= n < 2 ^ 64)%Z.

(** [m] is the greatest normalized similarity between the value [query]
    and the stored hashes. *)
Definition is_max_similarity (query : Z) (stored : gset string) (m : Q) : Prop :=
  (exists s n, s ∈ stored /\ is_hash64 s n
               /\ (m == normalized_similarity query n)%Q)
  /\ (forall s n, s ∈ stored -> is_hash64 s n ->
                  (normalized_similarity query n <= m)%Q).

(** The binary digit of a bit. *)
Definition bit_char (b : bool) : ascii := if b then "1"%char else "0"%char.

(** The [k] low bits of [n] as a numeral, most significant first. *)
Fixpoint fixed_bin (k : nat) (n : Z) : string :=
  match k with
  | O => EmptyString
  | S k' => String (bit_char (Z.testbit n (Z.of_nat k'))) (fixed_bin k' n)
  end.

(** How many of the [k] low bits of [a] and [b] differ. *)
Fixpoint diff_bits (k : nat) (a b : Z) : Z :=
  match k with
  | O => 0
  | S k' =>
      (if Bool.eqb (Z.testbit a (Z.of_nat k')) (Z.testbit b (Z.of_nat k'))
       then 0 else 1) + diff_bits k' a b
  end.

(** How many of the [k] low bits of [n] are set. *)
Fixpoint ones_below (k : nat) (n : Z) : Z :=
  match k with
  | O => 0
  | S k' => Z.b2z (Z.testbit n (Z.of_nat k')) + ones_below k' n
  end.

(** The verdict that [evaluate] builds from what the image verifier said,
    the predicted yield and what the fraud detector said. *)
Definition verdict_of
    (image : ClaimEvaluator.image_result) (predicted_yield : Q)
    (fraud : ClaimEvaluator.fraud_result) (expected_yield claim_amount : Q)
  : ClaimEvaluator.verdict :=
  let decision :=
    ClaimEvaluator._make_decision
      (ClaimEvaluator.image_damage_confidence image)
      (ClaimEvaluator.image_is_duplicate image) predicted_yield expected_yield
      (ClaimEvaluator.fraud_result_detected fraud)
      (ClaimEvaluator.fraud_result_score fraud) claim_amount in
  {| ClaimEvaluator.approved := fst decision;
     ClaimEvaluator.damage_confidence :=
       Py.round2 (ClaimEvaluator.image_damage_confidence image);
     ClaimEvaluator.predicted_yield := Py.round2 predicted_yield;
     ClaimEvaluator.fraud_detected := ClaimEvaluator.fraud_result_detected fraud;
     ClaimEvaluator.reason := snd decision;
     ClaimEvaluator.fraud_score :=
       if ClaimEvaluator.fraud_result_detected fraud
       then Some (Py.round2 (ClaimEvaluator.fraud_result_score fraud))
       else None;
     ClaimEvaluator.is_duplicate := ClaimEvaluator.image_is_duplicate image;
     ClaimEvaluator.recommendations :=
       ClaimEvaluator._generate_recommendations (fst decision)
         (ClaimEvaluator.image_damage_confidence image)
         (ClaimEvaluator.image_is_duplicate image)
         (ClaimEvaluator.fraud_result_detected fraud)
         predicted_yield expected_yield |}.

(** The weather record of a dict of floats: under each key of the
    defaults the float given, or the default. *)
Definition weather_record (weather : option (gmap string Q)) : gmap string Q :=
  match weather with
  | None => Utils.default_features
  | Some floats =>
      if bool_decide (floats = ∅) then Utils.default_features
      else
        foldl (fun features '(key, default_value) =>
                 <[ key := Py.dict_get floats key default_value ]> features)
              ∅ Utils.default_items
  end.

(** The value that [extract_weather_features] reads under a key. *)
Definition weather_value (weather_data : option (gmap string Py.value))
    (key : string) (default_value : Q) : Py.value :=
  match weather_data with
  | Some given => Py.dict_get given key (Py.VFloat default_value)
  | None => Py.VFloat default_value
  end.

(** [v] stands at index [idx] of [l], is the greatest entry of [l], and
    stands nowhere before [idx]. *)
Definition is_first_max (l : list Q) (idx : nat) (v : Q) : Prop :=
  l !! idx = Some v
  /\ (forall x, x ∈ l -> (x <= v)%Q)
  /\ (forall j y, (j < idx)%nat -> l !! j = Some y -> (y < v)%Q).

(** The dict that [predict] answers a failure with. *)
Definition error_prediction (message : string) : SatelliteVerifier.prediction :=
  {| SatelliteVerifier.predicted_class := None;
     SatelliteVerifier.confidence := 0.0%Q;
     SatelliteVerifier.class_probabilities := ∅;
     SatelliteVerifier.status := "error";
     SatelliteVerifier.error := Some message |}.

(** The numeral of a row of bits, most significant first, and its
    value. *)
Definition bits_string (bits : list bool) : string :=
  fold_right (fun b s => String (bit_char b) s) EmptyString bits.

Fixpoint bits_value (bits : list bool) : Z :=
  match bits with
  | [] => 0
  | b :: rest => Z.b2z b * 2 ^ Z.of_nat (length rest) + bits_value rest
  end.

(** The bits of the average hash of a row of pixels: a pixel gives 1
    when it is above the mean. *)
Definition hash_bits (pixels : list Z) : list bool :=
  map (fun pixel => Py.Qlt_bool (ImageVerifier.mean pixels) (inject_Z pixel))
      pixels.

(** Collaborators for the examples: an image that exists, is 80 percent
    damaged and hashes to sixteen [f]; a predictor that answers 33
    quintals; a detector that finds no fraud. *)
Definition sample_verify
  : gset string -> string -> Py.result ImageVerifier.verify_result * gset string :=
  ImageVerifier.verify unit (fun _ => true) (fun _ => Py.Ok tt)
    (fun _ => Py.Ok 0.8%Q) (fun _ => Py.Ok "ffffffffffffffff").

Definition sample_image_verifier (image_path crop_type : string)
  : Py.result ClaimEvaluator.image_result :=
  Py.Ok (ClaimEvaluator.ImageResult 80 false).

Definition sample_yield_predictor
    (crop_type land_size sowing_date soil_type irrigation_type : string)
    (fertilizer_usage : Q) (weather_features : option (gmap string Q))
  : Py.result Q :=
  Py.Ok 33%Q.

Definition sample_fraud_detector
    (crop_type land_size : string) (expected_yield claim_amount : Q)
    (weather_features : option (gmap string Q)) (historical_claims : Z)
    (user_id : option string)
  : Py.result ClaimEvaluator.fraud_result :=
  Py.Ok (ClaimEvaluator.FraudResult false 10).

(** * Verification *)

(** ** Comparisons on floats *)

Lemma Qlt_bool_iff (a b : Q) : Py.Qlt_bool a b = true <-> (a < b)%Q.
Proof. unfold Py.Qlt_bool, Qlt. apply Z.ltb_lt. Qed.

Lemma Qlt_bool_ge (a b : Q) : Py.Qlt_bool a b = false <-> (b <= a)%Q.
Proof. unfold Py.Qlt_bool, Qle. apply Z.ltb_ge. Qed.

Lemma truediv_pos (a b : Q) :
  Py.Qlt_bool 0 b = true -> Py.truediv a b = Py.Ok (a / b)%Q.
Proof.
  intros Hpos. apply Qlt_bool_iff in Hpos. unfold Py.truediv.
  destruct (Qeq_bool b 0) eqn:Hz; [| reflexivity].
  apply Qeq_bool_eq in Hz. rewrite Hz in Hpos.
  exfalso. exact (Qlt_irrefl 0 Hpos).
Qed.

(** ** The weather record always has its five keys *)

Lemma default_features_keys (key : string) (d : Q) :
  Utils.default_features !! key = Some d ->
  key ∈ ["temperature"; "rainfall"; "humidity"; "wind_speed"; "sunshine_hours"].
Proof.
  intros Hd. apply elem_of_list_to_map_2 in Hd.
  unfold Utils.default_items in Hd.
  repeat (apply elem_of_cons in Hd as [Hd | Hd];
          [injection Hd; intros _ ->; by_computation |]).
  now apply elem_of_nil in Hd.
Qed.

(** Under a key of the defaults the weather record of a dict of floats
    has the float given, or the default. *)
Lemma weather_record_lookup (weather : option (gmap string Q))
    (key : string) (d : Q) :
  Utils.default_features !! key = Some d ->
  weather_record weather !! key
  = Some match weather with
         | Some floats => Py.dict_get floats key d
         | None => d
         end.
Proof.
  intros Hd. unfold weather_record.
  destruct weather as [floats |]; [| exact Hd].
  case_bool_decide as Hempty.
  - subst floats. unfold Py.dict_get. now rewrite lookup_empty.
  - pose proof (default_features_keys _ _ Hd) as Hkey.
    repeat (apply elem_of_cons in Hkey as [-> | Hkey];
            [injection Hd as <-; reflexivity |]).
    now apply elem_of_nil in Hkey.
Qed.

Lemma dict_get_float_values (floats : gmap string Q) (key : string) (d : Q) :
  Py.dict_get (Py.VFloat <$> floats) key (Py.VFloat d)
  = Py.VFloat (Py.dict_get floats key d).
Proof.
  unfold Py.dict_get. rewrite lookup_fmap. now destruct (floats !! key).
Qed.

(** On a dict of floats [float] changes nothing and the weather record
    is always made. *)
Lemma extract_weather_features_floats (py_float : string -> option Q)
    (weather : option (gmap string Q)) :
  Utils.extract_weather_features py_float (Py.float_values weather)
  = Py.Ok (weather_record weather).
Proof.
  unfold Utils.extract_weather_features, weather_record, Py.float_values.
  destruct weather as [floats |]; [| reflexivity].
  case_bool_decide as Hvalues; case_bool_decide as Hfloats; try reflexivity.
  - apply fmap_empty_inv in Hvalues. contradiction.
  - subst floats. rewrite fmap_empty in Hvalues. contradiction.
  - unfold Utils.default_items.
    cbn [Utils.extract_items foldl].
    rewrite !dict_get_float_values. reflexivity.
Qed.

Lemma extract_weather_features_lookup (weather_data : option (gmap string Q))
    (key : string) (d : Q) :
  Utils.default_features !! key = Some d ->
  exists x, weather_record weather_data !! key = Some x.
Proof. intros Hd. rewrite (weather_record_lookup _ _ _ Hd). eauto. Qed.

Lemma extract_weather_features_getitem (weather_data : option (gmap string Q))
    (key : string) (d : Q) :
  Utils.default_features !! key = Some d ->
  exists x, Py.dict_getitem (weather_record weather_data) key
            = Py.Ok x.
Proof.
  intros Hd.
  destruct (extract_weather_features_lookup weather_data key d Hd) as [x Hx].
  exists x. unfold Py.dict_getitem. now rewrite Hx.
Qed.

(** ** The decision cascade *)

(** C1. A duplicate image is rejected with the duplicate reason, whatever
    the damage confidence, the yields, the fraud signal and the claim
    amount are: rule 1 comes first and is terminal. *)
Theorem make_decision_duplicate_rejected
    (damage_confidence predicted_yield expected_yield : Q)
    (fraud_detected : bool) (fraud_score claim_amount : Q) :
  ClaimEvaluator._make_decision damage_confidence true predicted_yield
      expected_yield fraud_detected fraud_score claim_amount
  = (false,
     "Claim rejected: Duplicate image detected. This image has been used in a previous claim.").
Proof. reflexivity. Qed.

(** ** Crop codes *)

Lemma fraud_crop_encoding_unknown (crop_lower : string) :
  crop_lower ∉ known_crops -> FraudDetector.crop_encoding !! crop_lower = None.
Proof.
  intros Hnot. unfold FraudDetector.crop_encoding.
  apply not_elem_of_list_to_map_1. exact Hnot.
Qed.

Lemma yield_crop_encoding_unknown (crop_lower : string) :
  crop_lower ∉ known_crops -> YieldPredictor.crop_encoding !! crop_lower = None.
Proof.
  intros Hnot. unfold YieldPredictor.crop_encoding.
  apply not_elem_of_list_to_map_1. exact Hnot.
Qed.

(** C10. A crop whose lowercased, trimmed name is none of rice, wheat,
    cotton, sugarcane, maize gets the code 0, the code of rice, in both
    encoders, so both feature builders return for it exactly what they
    return for rice. *)
Theorem unknown_crop_encoded_as_rice (crop_type : string) :
  Py.strip (Py.lower crop_type) ∉ known_crops ->
  FraudDetector._encode_crop_type crop_type = 0%Z
  /\ YieldPredictor._encode_crop_type crop_type = 0%Z
  /\ FraudDetector._encode_crop_type "rice" = 0%Z
  /\ YieldPredictor._encode_crop_type "rice" = 0%Z
  /\ (forall py_float land_size expected_yield claim_amount weather
             historical_claims,
        FraudDetector._prepare_features py_float crop_type land_size
            expected_yield claim_amount weather historical_claims
        = FraudDetector._prepare_features py_float "rice" land_size
            expected_yield claim_amount weather historical_claims)
  /\ (forall today py_float land_size sowing_date soil_type irrigation_type
             fertilizer_usage weather,
        YieldPredictor._prepare_features today py_float crop_type land_size
            sowing_date soil_type irrigation_type fertilizer_usage weather
        = YieldPredictor._prepare_features today py_float "rice" land_size
            sowing_date soil_type irrigation_type fertilizer_usage weather).
Proof.
  intros Hnot.
  assert (Hf : FraudDetector._encode_crop_type crop_type = 0%Z).
  { unfold FraudDetector._encode_crop_type, Py.dict_get.
    now rewrite (fraud_crop_encoding_unknown _ Hnot). }
  assert (Hy : YieldPredictor._encode_crop_type crop_type = 0%Z).
  { unfold YieldPredictor._encode_crop_type, Py.dict_get.
    now rewrite (yield_crop_encoding_unknown _ Hnot). }
  assert (Hfr : FraudDetector._encode_crop_type "rice" = 0%Z) by reflexivity.
  assert (Hyr : YieldPredictor._encode_crop_type "rice" = 0%Z) by reflexivity.
  repeat split; try assumption.
  - intros. unfold FraudDetector._prepare_features. now rewrite Hf, Hfr.
  - intros. unfold YieldPredictor._prepare_features. now rewrite Hy, Hyr.
Qed.

Lemma unknown_crop_encoded_as_rice_witness :
  FraudDetector._encode_crop_type " Unknown " = 0%Z
  /\ YieldPredictor._encode_crop_type " Unknown " = 0%Z.
Proof.
  assert (H : Py.strip (Py.lower " Unknown ") ∉ known_crops).
  { by_computation. }
  destruct (unknown_crop_encoded_as_rice " Unknown " H) as (Hf & Hy & _).
  split; assumption.
Defined.

(** ** Seasons *)

(** C9. For a sowing date that parses, the Kharif flag is 1 exactly for
    the months 6 to 10 and the Rabi flag is 1 exactly for the months from
    11 on or up to 4; the flags are never both 1, and in month 5 both
    are 0. *)
Theorem season_flags_by_month (sowing_date : string) (sowing : Py.date) :
  Py.strptime_Ymd sowing_date = Some sowing ->
  let month := Py.month sowing in
  let is_kharif := fst (YieldPredictor._determine_season sowing_date) in
  let is_rabi := snd (YieldPredictor._determine_season sowing_date) in
  (is_kharif = 1 <-> 6 <= month <= 10)%Z
  /\ (is_rabi = 1 <-> 11 <= month \/ month <= 4)%Z
  /\ (is_kharif = 0 \/ is_kharif = 1)%Z
  /\ (is_rabi = 0 \/ is_rabi = 1)%Z
  /\ ~ (is_kharif = 1 /\ is_rabi = 1)%Z
  /\ (month = 5 -> is_kharif = 0 /\ is_rabi = 0)%Z.
Proof.
  intros Hparse. unfold YieldPredictor._determine_season. rewrite Hparse.
  cbn zeta. set (month := Py.month sowing). simpl fst. simpl snd.
  destruct (Z.leb_spec 6 month), (Z.leb_spec month 10),
           (Z.leb_spec 11 month), (Z.leb_spec month 4);
    cbn [andb orb]; repeat split; intros; try lia.
Qed.

Lemma season_flags_by_month_witness :
  YieldPredictor._determine_season "2024-05-15" = (0, 0)%Z.
Proof.
  assert (Hparse : Py.strptime_Ymd "2024-05-15" = Some (Py.Date 2024 5 15))
    by reflexivity.
  destruct (season_flags_by_month _ _ Hparse) as (_ & _ & _ & _ & _ & H5).
  destruct (H5 eq_refl) as [Hk Hr].
  rewrite (surjective_pairing (YieldPredictor._determine_season "2024-05-15")).
  now rewrite Hk, Hr.
Defined.

(** ** The yield feature vector *)

Lemma yield_prepare_features_ok
    (today : Py.date) (py_float : string -> option Q)
    (crop_type land_size sowing_date soil_type irrigation_type : string)
    (fertilizer_usage : Q) (weather_features : option (gmap string Q)) :
  exists temperature rainfall humidity wind_speed sunshine_hours,
    YieldPredictor._prepare_features today py_float crop_type land_size
        sowing_date soil_type irrigation_type fertilizer_usage weather_features
    = Py.Ok
        [ inject_Z (YieldPredictor._encode_crop_type crop_type);
          YieldPredictor._parse_land_size py_float land_size;
          inject_Z (YieldPredictor._calculate_days_since_sowing today sowing_date);
          inject_Z (YieldPredictor._encode_soil_type soil_type);
          inject_Z (YieldPredictor._encode_irrigation_type irrigation_type);
          (fertilizer_usage / 0.4047)%Q;
          temperature; rainfall; humidity; wind_speed; sunshine_hours;
          inject_Z (fst (YieldPredictor._determine_season sowing_date));
          inject_Z (snd (YieldPredictor._determine_season sowing_date)) ].
Proof.
  unfold YieldPredictor._prepare_features.
  rewrite extract_weather_features_floats.
  destruct (YieldPredictor._determine_season sowing_date) as [is_kharif is_rabi].
  cbn [Py.bind].
  destruct (extract_weather_features_getitem weather_features "temperature" _ eq_refl)
    as [t Ht].
  destruct (extract_weather_features_getitem weather_features "rainfall" _ eq_refl)
    as [r Hr].
  destruct (extract_weather_features_getitem weather_features "humidity" _ eq_refl)
    as [h Hh].
  destruct (extract_weather_features_getitem weather_features "wind_speed" _ eq_refl)
    as [w Hw].
  destruct (extract_weather_features_getitem weather_features "sunshine_hours" _ eq_refl)
    as [u Hu].
  rewrite Ht, Hr, Hh, Hw, Hu. cbn [Py.bind].
  exists t, r, h, w, u. reflexivity.
Qed.

(** C3, as the code has it.  The yield vector always has its 13 entries,
    and the fertilizer entry is the input divided by 0.4047, the rounded
    acre-to-hectare factor of the yield builder. *)
Theorem yield_features_fertilizer
    (today : Py.date) (py_float : string -> option Q)
    (crop_type land_size sowing_date soil_type irrigation_type : string)
    (fertilizer_usage : Q) (weather_features : option (gmap string Q)) :
  exists features,
    YieldPredictor._prepare_features today py_float crop_type land_size
        sowing_date soil_type irrigation_type fertilizer_usage weather_features
    = Py.Ok features
    /\ length features = 13%nat
    /\ features !! 5%nat = Some (fertilizer_usage / 0.4047)%Q.
Proof.
  destruct (yield_prepare_features_ok today py_float crop_type land_size
              sowing_date soil_type irrigation_type fertilizer_usage
              weather_features) as (t & r & h & w & u & Hok).
  eexists. split; [exact Hok |]. split; reflexivity.
Qed.

(** The fertilizer entry is not the input over 0.404686: at 60 kg/acre
    the two quotients differ. *)
Lemma yield_features_fertilizer_not_table_factor :
  exists features fertilizer,
    YieldPredictor._prepare_features (Py.Date 2024 12 30) Py.float_of_decimal
        "wheat" "5 acre" "2024-10-01" "black" "sprinkler" 60 None
    = Py.Ok features
    /\ features !! 5%nat = Some fertilizer
    /\ ~ (fertilizer == 60 / 0.404686)%Q.
Proof.
  eexists. eexists. split; [vm_compute; reflexivity |].
  split; [reflexivity |].
  intros Heq. vm_compute in Heq. discriminate Heq.
Qed.

(** ** The fraud feature vector *)

Lemma fraud_prepare_features_ok
    (py_float : string -> option Q) (crop_type land_size : string)
    (expected_yield claim_amount : Q)
    (weather_features : option (gmap string Q)) (historical_claims : Z) :
  let area := FraudDetector._parse_land_size py_float land_size in
  exists yield_per_hectare claim_per_hectare claim_to_yield_ratio
         temperature rainfall humidity anomaly,
    FraudDetector._prepare_features py_float crop_type land_size
        expected_yield claim_amount weather_features historical_claims
    = Py.Ok
        [ inject_Z (FraudDetector._encode_crop_type crop_type);
          area; expected_yield; claim_amount;
          yield_per_hectare; claim_per_hectare; claim_to_yield_ratio;
          inject_Z historical_claims;
          temperature; rainfall; humidity; anomaly ]
    /\ ((expected_yield <= 0)%Q -> claim_to_yield_ratio = 0%Q)
    /\ ((area <= 0)%Q -> yield_per_hectare = 0%Q /\ claim_per_hectare = 0%Q).
Proof.
  intros area. unfold FraudDetector._prepare_features. fold area.
  rewrite extract_weather_features_floats. cbn [Py.bind].
  destruct (extract_weather_features_getitem weather_features "temperature" _ eq_refl)
    as [t Ht].
  destruct (extract_weather_features_getitem weather_features "rainfall" _ eq_refl)
    as [r Hr].
  destruct (extract_weather_features_getitem weather_features "humidity" _ eq_refl)
    as [h Hh].
  rewrite Ht, Hr, Hh.
  destruct (Py.Qlt_bool 0 area) eqn:Harea;
    destruct (Py.Qlt_bool 0 expected_yield) eqn:Hyield;
    rewrite ?(truediv_pos _ _ Harea), ?(truediv_pos _ _ Hyield);
    cbn [Py.bind];
    do 7 eexists; (split; [reflexivity |]); split; intros Hle;
    try reflexivity; try (split; reflexivity).
  all: try (apply Qlt_bool_iff in Hyield;
            exfalso; exact (Qlt_irrefl 0 (Qlt_le_trans _ _ _ Hyield Hle))).
  all: try (apply Qlt_bool_iff in Harea;
            exfalso; exact (Qlt_irrefl 0 (Qlt_le_trans _ _ _ Harea Hle))).
Qed.

(** C6. The fraud vector is always built, so no division by zero is ever
    raised; the claim-to-yield ratio is 0 when the expected yield is not
    positive, and the two per-hectare ratios are 0 when the area is not
    positive. *)
Theorem fraud_features_guarded_ratios
    (py_float : string -> option Q) (crop_type land_size : string)
    (expected_yield claim_amount : Q)
    (weather_features : option (gmap string Q)) (historical_claims : Z) :
  exists features,
    FraudDetector._prepare_features py_float crop_type land_size
        expected_yield claim_amount weather_features historical_claims
    = Py.Ok features
    /\ FraudDetector._prepare_features py_float crop_type land_size
         expected_yield claim_amount weather_features historical_claims
       <> Py.Raise Py.ZeroDivisionError
    /\ length features = 12%nat
    /\ features !! 1%nat = Some (FraudDetector._parse_land_size py_float land_size)
    /\ ((expected_yield <= 0)%Q -> features !! 6%nat = Some 0%Q)
    /\ ((FraudDetector._parse_land_size py_float land_size <= 0)%Q ->
        features !! 4%nat = Some 0%Q /\ features !! 5%nat = Some 0%Q).
Proof.
  destruct (fraud_prepare_features_ok py_float crop_type land_size
              expected_yield claim_amount weather_features historical_claims)
    as (yph & cph & ratio & t & r & h & a & Hok & Hyield & Harea).
  eexists. split; [exact Hok |]. rewrite Hok.
  split; [discriminate |]. split; [reflexivity |]. split; [reflexivity |].
  split.
  - intros Hle. cbn. now rewrite (Hyield Hle).
  - intros Hle. destruct (Harea Hle) as [-> ->]. split; reflexivity.
Qed.

Lemma fraud_features_guarded_ratios_witness :
  exists features,
    FraudDetector._prepare_features Py.float_of_decimal "rice" "-2 acre"
        0 1000 None 0 = Py.Ok features
    /\ features !! 4%nat = Some 0%Q
    /\ features !! 5%nat = Some 0%Q
    /\ features !! 6%nat = Some 0%Q.
Proof.
  destruct (fraud_features_guarded_ratios Py.float_of_decimal "rice" "-2 acre"
              0 1000 None 0) as (features & Hok & _ & _ & _ & Hyield & Harea).
  exists features. split; [exact Hok |].
  assert (Hy : (0 <= 0)%Q) by (vm_compute; discriminate).
  assert (Ha : (FraudDetector._parse_land_size Py.float_of_decimal "-2 acre" <= 0)%Q)
    by (vm_compute; discriminate).
  destruct (Harea Ha) as [H4 H5].
  repeat split; [exact H4 | exact H5 | exact (Hyield Hy)].
Defined.

(** ** Areas *)

Lemma documented_factors_in_code (unit : string) (factor : Q) :
  documented_factors !! unit = Some factor ->
  Utils.conversion_factors !! unit = Some factor.
Proof.
  unfold documented_factors. intros Hdoc.
  apply elem_of_list_to_map_2 in Hdoc.
  repeat (apply elem_of_cons in Hdoc as [Hdoc | Hdoc];
          [injection Hdoc as -> ->; reflexivity |]).
  now apply elem_of_nil in Hdoc.
Qed.

Lemma undocumented_unit_in_code (unit : string) :
  documented_factors !! unit = None ->
  unit <> "hectares" -> unit <> "cents" ->
  Utils.conversion_factors !! unit = None.
Proof.
  unfold documented_factors, Utils.conversion_factors.
  intros Hdoc Hh Hc.
  apply not_elem_of_list_to_map_2 in Hdoc.
  apply not_elem_of_list_to_map_1.
  cbn in *. rewrite !not_elem_of_cons in *. tauto.
Qed.

(** C8, as the code has it.  A unit of the documented table, in any
    letter case, converts by its documented factor, so 5 acre is 2.02343
    hectares; the code's table also has the plurals hectares (factor 1)
    and cents (factor 0.0040); every other unit leaves the value as it
    is.  The conversion is total: no unit raises. *)
Theorem convert_to_hectares_table (value : Q) (unit : string) :
  (forall factor,
      documented_factors !! Py.lower unit = Some factor ->
      Utils.convert_to_hectares value unit = (value * factor)%Q)
  /\ (Py.lower unit = "hectares" ->
      Utils.convert_to_hectares value unit = (value * 1.0)%Q)
  /\ (Py.lower unit = "cents" ->
      Utils.convert_to_hectares value unit = (value * 0.0040)%Q)
  /\ (documented_factors !! Py.lower unit = None ->
      Py.lower unit <> "hectares" -> Py.lower unit <> "cents" ->
      Utils.convert_to_hectares value unit = value)
  /\ (Utils.convert_to_hectares 5 "acre" == 2.02343)%Q
  /\ (Utils.convert_to_hectares 5 "Acre" == 2.02343)%Q.
Proof.
  unfold Utils.convert_to_hectares. repeat split.
  - intros factor Hdoc. now rewrite (documented_factors_in_code _ _ Hdoc).
  - intros ->. reflexivity.
  - intros ->. reflexivity.
  - intros Hdoc Hh Hc. now rewrite (undocumented_unit_in_code _ Hdoc Hh Hc).
Qed.

Lemma convert_to_hectares_table_witness :
  Utils.convert_to_hectares 3 "BIGHA" = (3 * 0.1338)%Q
  /\ Utils.convert_to_hectares 3 "furlong" = 3%Q.
Proof.
  destruct (convert_to_hectares_table 3 "BIGHA") as (Hdoc & _).
  destruct (convert_to_hectares_table 3 "furlong") as (_ & _ & _ & Hother & _).
  split.
  - apply Hdoc. reflexivity.
  - apply Hother; [reflexivity | discriminate | discriminate].
Defined.

(** The plural cents is not in the documented table, yet the code
    converts it: 5 cents is 0.02 hectares, not 5. *)
Lemma convert_to_hectares_cents_not_documented :
  documented_factors !! Py.lower "cents" = None
  /\ documented_to_hectares 5 "cents" = 5%Q
  /\ (Utils.convert_to_hectares 5 "cents" == 0.02)%Q
  /\ ~ (Utils.convert_to_hectares 5 "cents" == documented_to_hectares 5 "cents")%Q.
Proof.
  split; [reflexivity |]. split; [reflexivity |]. split; [reflexivity |].
  intros Heq. vm_compute in Heq. discriminate Heq.
Qed.

(** ** Land sizes *)

Lemma split_from_lstrip (s : string) :
  Py.split_from None (Py.lstrip s) = Py.split_from None s.
Proof.
  induction s as [| c r IH]; [reflexivity |].
  cbn. destruct (Py.isspace c) eqn:Hc; [exact IH |].
  cbn. now rewrite Hc.
Qed.

Lemma split_from_cons (cur : option string) (c : ascii) (r : string) :
  Py.split_from cur (String c r)
  = if Py.isspace c
    then match cur with
         | Some w => w :: Py.split_from None r
         | None => Py.split_from None r
         end
    else Py.split_from
           (Some (match cur with
                  | Some w => w ++ String c EmptyString
                  | None => String c EmptyString
                  end)) r.
Proof. reflexivity. Qed.

Lemma split_from_rstrip (s : string) :
  forall cur, Py.split_from cur (Py.rstrip s) = Py.split_from cur s.
Proof.
  induction s as [| c r IH]; intros cur; [reflexivity |].
  cbn [Py.rstrip]. destruct (Py.rstrip r) as [| c' r'] eqn:Hr.
  - destruct (Py.isspace c) eqn:Hc; cbn; rewrite Hc.
    + rewrite <- (IH None). now destruct cur.
    + now rewrite <- IH.
  - remember (String c' r') as kept eqn:Hkept.
    rewrite !(split_from_cons cur c). destruct (Py.isspace c); [| apply IH].
    destruct cur; now rewrite IH.
Qed.

(** Stripping a string does not change its tokens. *)
Lemma split_strip (s : string) : Py.split (Py.strip s) = Py.split s.
Proof.
  unfold Py.split, Py.strip. rewrite split_from_rstrip. apply split_from_lstrip.
Qed.

Lemma parse_land_size_malformed (py_float : string -> option Q)
    (land_size : string) :
  malformed_land_size py_float land_size ->
  Utils.parse_land_size py_float land_size
  = Py.Raise (Utils.invalid_land_size land_size).
Proof.
  intros Hbad. unfold Utils.parse_land_size. rewrite split_strip.
  destruct (Nat.ltb_spec (length (Py.split land_size)) 2) as [Hlt | Hge];
    [reflexivity |].
  destruct Hbad as [Hlt | (token & Htok & Hfloat)]; [lia |].
  unfold Py.getitem at 1. rewrite Htok. cbn [Py.bind].
  unfold Utils.float. now rewrite Hfloat.
Qed.

(** A well-formed land size is read: the number and the lowercased
    unit. *)
Lemma parse_land_size_well_formed (py_float : string -> option Q)
    (land_size token unit : string) (rest : list string) (value : Q) :
  Py.split land_size = token :: unit :: rest ->
  py_float token = Some value ->
  Utils.parse_land_size py_float land_size = Py.Ok (value, Py.lower unit).
Proof.
  intros Hsplit Hfloat. unfold Utils.parse_land_size.
  rewrite split_strip, Hsplit. cbn. unfold Utils.float. now rewrite Hfloat.
Qed.

(** C2, as the code has it.  On a malformed land size [parse_land_size]
    raises the [ValueError] of the land-size format, but the fraud and
    yield pipelines catch it: their [_parse_land_size] answers one
    hectare, and both feature builders go on with that area. *)
Theorem malformed_land_size_raised_then_substituted
    (py_float : string -> option Q) (land_size : string) :
  malformed_land_size py_float land_size ->
  Utils.parse_land_size py_float land_size
  = Py.Raise (Py.ValueError ("Invalid land size format: " ++ land_size
                               ++ ". Expected format: '5 acre'"))
  /\ FraudDetector._parse_land_size py_float land_size = 1.0%Q
  /\ YieldPredictor._parse_land_size py_float land_size = 1.0%Q
  /\ (forall crop_type expected_yield claim_amount weather historical_claims,
        exists features,
          FraudDetector._prepare_features py_float crop_type land_size
              expected_yield claim_amount weather historical_claims
          = Py.Ok features
          /\ features !! 1%nat = Some 1.0%Q)
  /\ (forall today crop_type sowing_date soil_type irrigation_type
             fertilizer_usage weather,
        exists features,
          YieldPredictor._prepare_features today py_float crop_type land_size
              sowing_date soil_type irrigation_type fertilizer_usage weather
          = Py.Ok features
          /\ features !! 1%nat = Some 1.0%Q).
Proof.
  intros Hbad. pose proof (parse_land_size_malformed _ _ Hbad) as Hraise.
  assert (Hf : FraudDetector._parse_land_size py_float land_size = 1.0%Q).
  { unfold FraudDetector._parse_land_size. now rewrite Hraise. }
  assert (Hy : YieldPredictor._parse_land_size py_float land_size = 1.0%Q).
  { unfold YieldPredictor._parse_land_size. now rewrite Hraise. }
  split; [exact Hraise |]. split; [exact Hf |]. split; [exact Hy |]. split.
  - intros crop_type expected_yield claim_amount weather historical_claims.
    destruct (fraud_prepare_features_ok py_float crop_type land_size
                expected_yield claim_amount weather historical_claims)
      as (yph & cph & ratio & t & r & h & a & Hok & _).
    eexists. split; [exact Hok |]. cbn. now rewrite Hf.
  - intros today crop_type sowing_date soil_type irrigation_type
           fertilizer_usage weather.
    destruct (yield_prepare_features_ok today py_float crop_type land_size
                sowing_date soil_type irrigation_type fertilizer_usage weather)
      as (t & r & h & w & u & Hok).
    eexists. split; [exact Hok |]. cbn. now rewrite Hy.
Qed.

Lemma malformed_land_size_raised_then_substituted_witness :
  Utils.parse_land_size Py.float_of_decimal "five acre"
  = Py.Raise (Py.ValueError
                "Invalid land size format: five acre. Expected format: '5 acre'")
  /\ FraudDetector._parse_land_size Py.float_of_decimal "five acre" = 1.0%Q
  /\ YieldPredictor._parse_land_size Py.float_of_decimal "five acre" = 1.0%Q.
Proof.
  assert (Hbad : malformed_land_size Py.float_of_decimal "five acre").
  { right. exists "five". split; reflexivity. }
  destruct (malformed_land_size_raised_then_substituted _ _ Hbad)
    as (Hraise & Hf & Hy & _).
  repeat split; assumption.
Defined.

(** A land size of one token is malformed, yet fraud detection goes on
    with one hectare for it and returns its result: no error reaches the
    caller. *)
Lemma fraud_detection_continues_on_malformed_land_size :
  malformed_land_size Py.float_of_decimal "5"
  /\ (exists features,
        FraudDetector._prepare_features Py.float_of_decimal "rice" "5"
            20 1000 None 0 = Py.Ok features
        /\ features !! 1%nat = Some 1.0%Q)
  /\ Py.is_ok (FraudDetector.detect Py.float_of_decimal None
                 (fun _ => Py.Ok 1%Z) (fun _ => Py.Ok 0.5%Q)
                 "rice" "5" 20 1000 None 0 None) = true
  /\ (exists features,
        YieldPredictor._prepare_features (Py.Date 2024 12 30)
            Py.float_of_decimal "rice" "5" "2024-10-01" "black" "drip" 45 None
        = Py.Ok features
        /\ features !! 1%nat = Some 1.0%Q).
Proof.
  split; [left; vm_compute; lia |].
  split; [eexists; split; [vm_compute; reflexivity | reflexivity] |].
  split; [vm_compute; reflexivity |].
  eexists; split; [vm_compute; reflexivity | reflexivity].
Qed.

(** ** Claim evaluation: when the yield predictor is called *)

Section EvaluateFacts.

Variable image_verifier_verify :
  string -> string -> Py.result ClaimEvaluator.image_result.
Variable yield_predictor_predict :
  string -> string -> string -> string -> string -> Q ->
  option (gmap string Q) -> Py.result Q.
Variable fraud_detector_detect :
  string -> string -> Q -> Q -> option (gmap string Q) -> Z ->
  option string -> Py.result ClaimEvaluator.fraud_result.

Variables crop_type land_size : string.
Variable expected_yield : Q.
Variable weather_features : option (gmap string Q).
Variables sowing_date soil_type irrigation_type : option string.
Variable fertilizer_usage : option Q.

Abbreviation yield_step :=
  (ClaimEvaluator.yield_step yield_predictor_predict crop_type land_size
    expected_yield weather_features sowing_date soil_type irrigation_type
    fertilizer_usage).

(** The yield step never raises.  It either leaves the expected yield
    and the log alone, or all four optional inputs are there and it
    has logged one call of the predictor. *)
Lemma yield_step_cases (log : list ClaimEvaluator.call) :
  yield_step log = (Py.Ok expected_yield, log)
  \/ exists sowing soil irrigation fertilizer predicted,
       sowing_date = Some sowing /\ soil_type = Some soil
       /\ irrigation_type = Some irrigation
       /\ fertilizer_usage = Some fertilizer
       /\ yield_step log
          = (Py.Ok predicted,
             Py.append log
               (ClaimEvaluator.CallPredict crop_type land_size sowing soil
                  irrigation fertilizer weather_features)).
Proof.
  unfold yield_step, ClaimEvaluator.yield_step.
  destruct sowing_date as [sowing |]; [| now left].
  destruct soil_type as [soil |]; [| now left].
  destruct irrigation_type as [irrigation |]; [| now left].
  destruct fertilizer_usage as [fertilizer |]; [| now left].
  destruct (ClaimEvaluator.truthy (Some sowing) && ClaimEvaluator.truthy (Some soil)
            && ClaimEvaluator.truthy (Some irrigation)); [| now left].
  right. exists sowing, soil, irrigation, fertilizer.
  unfold ClaimEvaluator.try_except, ClaimEvaluator.invoke, ClaimEvaluator.ret.
  destruct (yield_predictor_predict crop_type land_size sowing soil irrigation
              fertilizer weather_features) as [predicted | e].
  - exists predicted. repeat split; reflexivity.
  - exists expected_yield. repeat split; reflexivity.
Qed.

Lemma yield_step_absent (log : list ClaimEvaluator.call) :
  sowing_date = None \/ soil_type = None \/ irrigation_type = None
  \/ fertilizer_usage = None ->
  yield_step log = (Py.Ok expected_yield, log).
Proof.
  unfold yield_step, ClaimEvaluator.yield_step.
  intros [-> | [-> | [-> | ->]]];
    repeat match goal with
           | |- context [match ?o with Some _ => _ | None => _ end] =>
               is_var o; destruct o
           end; reflexivity.
Qed.

End EvaluateFacts.

Lemma existsb_append_call (log : list ClaimEvaluator.call) (c : ClaimEvaluator.call) :
  existsb ClaimEvaluator.is_predict_call (Py.append log c)
  = existsb ClaimEvaluator.is_predict_call log || ClaimEvaluator.is_predict_call c.
Proof.
  unfold Py.append. rewrite existsb_app. cbn. now rewrite orb_false_r.
Qed.

(** C7, as the code has it.  In [evaluate] the yield predictor is called
    only when sowing date, soil type, irrigation type and fertilizer
    usage are all given.  When one of them is absent the predictor is
    not called, and if image verification and fraud detection return,
    so does [evaluate]: the decision and the recommendations are made
    with the expected yield in the place of the predicted one, and the
    verdict reports the expected yield rounded to two decimals. *)
Theorem yield_predictor_called_only_with_all_four
    (image_verifier_verify :
       string -> string -> Py.result ClaimEvaluator.image_result)
    (yield_predictor_predict :
       string -> string -> string -> string -> string -> Q ->
       option (gmap string Q) -> Py.result Q)
    (fraud_detector_detect :
       string -> string -> Q -> Q -> option (gmap string Q) -> Z ->
       option string -> Py.result ClaimEvaluator.fraud_result)
    (image_path crop_type land_size : string)
    (expected_yield claim_amount : Q)
    (weather_features : option (gmap string Q))
    (sowing_date soil_type irrigation_type : option string)
    (fertilizer_usage : option Q)
    (historical_claims : Z) (user_id : option string) :
  let run :=
    ClaimEvaluator.evaluate image_verifier_verify yield_predictor_predict
      fraud_detector_detect image_path crop_type land_size expected_yield
      claim_amount weather_features sowing_date soil_type irrigation_type
      fertilizer_usage historical_claims user_id [] in
  (existsb ClaimEvaluator.is_predict_call (snd run) = true ->
   is_Some sowing_date /\ is_Some soil_type /\ is_Some irrigation_type
   /\ is_Some fertilizer_usage)
  /\ (sowing_date = None \/ soil_type = None \/ irrigation_type = None
      \/ fertilizer_usage = None ->
      existsb ClaimEvaluator.is_predict_call (snd run) = false
      /\ forall image fraud,
          image_verifier_verify image_path crop_type = Py.Ok image ->
          fraud_detector_detect crop_type land_size expected_yield claim_amount
            weather_features historical_claims user_id = Py.Ok fraud ->
          exists v,
            fst run = Py.Ok v
            /\ ClaimEvaluator.predicted_yield v = Py.round2 expected_yield
            /\ (ClaimEvaluator.approved v, ClaimEvaluator.reason v)
               = ClaimEvaluator._make_decision
                   (ClaimEvaluator.image_damage_confidence image)
                   (ClaimEvaluator.image_is_duplicate image)
                   expected_yield expected_yield
                   (ClaimEvaluator.fraud_result_detected fraud)
                   (ClaimEvaluator.fraud_result_score fraud) claim_amount
            /\ ClaimEvaluator.recommendations v
               = ClaimEvaluator._generate_recommendations
                   (ClaimEvaluator.approved v)
                   (ClaimEvaluator.image_damage_confidence image)
                   (ClaimEvaluator.image_is_duplicate image)
                   (ClaimEvaluator.fraud_result_detected fraud)
                   expected_yield expected_yield).
Proof.
  cbn zeta. unfold ClaimEvaluator.evaluate, ClaimEvaluator.tbind.
  unfold ClaimEvaluator.invoke.
  destruct (image_verifier_verify image_path crop_type) as [image | e] eqn:Himage;
    cbv beta iota.
  2:{ cbn. split; [discriminate |]. intros _. split; [reflexivity |].
      intros image fraud Hv. discriminate Hv. }
  set (log1 := Py.append [] (ClaimEvaluator.CallVerify image_path crop_type)).
  split.
  - (* a logged call of the predictor needs all four inputs *)
    destruct (yield_step_cases yield_predictor_predict crop_type land_size
                expected_yield weather_features sowing_date soil_type
                irrigation_type fertilizer_usage log1)
      as [Hstep | (sw & so & ir & fe & y & -> & -> & -> & -> & Hstep)].
    + rewrite Hstep.
      destruct (fraud_detector_detect _ _ _ _ _ _ _) as [fraud | e];
        [destruct (ClaimEvaluator._make_decision _ _ _ _ _ _ _) |];
        cbn; intros Hcall; discriminate Hcall.
    + intros _. repeat split; eauto.
  - intros Habsent.
    rewrite (yield_step_absent yield_predictor_predict crop_type land_size
               expected_yield weather_features sowing_date soil_type
               irrigation_type fertilizer_usage log1 Habsent).
    destruct (fraud_detector_detect _ _ _ _ _ _ _) as [fraud | e] eqn:Hfraud.
    + destruct (ClaimEvaluator._make_decision _ _ _ _ _ _ _)
        as [approved reason] eqn:Hdecision.
      cbn. split; [reflexivity |].
      intros image' fraud' Hi Hf. injection Hi as <-. injection Hf as <-.
      eexists. split; [reflexivity |]. cbn. repeat split. now rewrite Hdecision.
    + cbn. split; [reflexivity |]. intros image' fraud' _ Hf. discriminate Hf.
Qed.

Lemma yield_predictor_called_only_with_all_four_witness :
  exists v,
    fst (ClaimEvaluator.evaluate sample_image_verifier sample_yield_predictor
           sample_fraud_detector
           "damaged1.jpg" "wheat" "2 acre" 20 25000 None
           None (Some "black") (Some "drip") (Some 45%Q) 1 None [])
    = Py.Ok v
    /\ ClaimEvaluator.predicted_yield v = Py.round2 20.
Proof.
  destruct (yield_predictor_called_only_with_all_four
              sample_image_verifier sample_yield_predictor
              sample_fraud_detector
              "damaged1.jpg" "wheat" "2 acre" 20 25000 None
              None (Some "black") (Some "drip") (Some 45%Q) 1 None)
    as [_ Habsent].
  destruct (Habsent (or_introl eq_refl)) as [_ Hrun].
  destruct (Hrun _ _ eq_refl eq_refl) as (v & Hv & Hy & _).
  exists v. split; assumption.
Defined.

(** With an expected yield of 20.456 and no sowing date, the verdict
    reports a predicted yield of 20.46: it is not the expected yield
    itself. *)
Lemma verdict_reports_rounded_expected_yield :
  exists v,
    fst (ClaimEvaluator.evaluate sample_image_verifier sample_yield_predictor
           sample_fraud_detector
           "damaged1.jpg" "wheat" "2 acre" 20.456 25000 None
           None (Some "black") (Some "drip") (Some 45%Q) 1 None [])
    = Py.Ok v
    /\ (ClaimEvaluator.predicted_yield v == 20.46)%Q
    /\ ~ (ClaimEvaluator.predicted_yield v == 20.456)%Q.
Proof.
  eexists. split; [vm_compute; reflexivity |]. cbn [ClaimEvaluator.predicted_yield].
  split; [reflexivity |]. intros Heq. vm_compute in Heq. discriminate Heq.
Qed.

(** ** The duplicate engine: exact matches and the stored set *)

Lemma check_duplicate_empty (image_hash : string) (threshold : Q) :
  ImageVerifier._check_duplicate ∅ image_hash threshold = (false, 0.0%Q).
Proof. reflexivity. Qed.

Lemma check_duplicate_member (image_hashes : gset string) (image_hash : string)
    (threshold : Q) :
  image_hash ∈ image_hashes ->
  ImageVerifier._check_duplicate image_hashes image_hash threshold
  = (true, 100.0%Q).
Proof.
  intros Hin. unfold ImageVerifier._check_duplicate.
  rewrite bool_decide_eq_false_2 by set_solver.
  now rewrite bool_decide_eq_true_2.
Qed.

Section VerifyFacts.

Variable image : Type.
Variable path_exists : string -> bool.
Variable _preprocess_image : string -> Py.result image.
Variable damage_classifier_predict : image -> Py.result Q.
Variable _compute_image_hash : string -> Py.result string.

Abbreviation verify :=
  (ImageVerifier.verify image path_exists _preprocess_image
     damage_classifier_predict _compute_image_hash).

(** What a returning [verify] has done. *)
Lemma verify_ok_inv (image_hashes image_hashes' : gset string)
    (image_path : string) (r : ImageVerifier.verify_result) :
  verify image_hashes image_path = (Py.Ok r, image_hashes') ->
  exists img damage_prediction,
    path_exists image_path = true
    /\ _preprocess_image image_path = Py.Ok img
    /\ damage_classifier_predict img = Py.Ok damage_prediction
    /\ _compute_image_hash image_path = Py.Ok (ImageVerifier.image_hash r)
    /\ ImageVerifier.damage_confidence r
       = Py.round2 (damage_prediction * 100.0)%Q
    /\ ImageVerifier.is_duplicate r
       = fst (ImageVerifier._check_duplicate image_hashes
                (ImageVerifier.image_hash r) ImageVerifier.default_threshold)
    /\ ImageVerifier.duplicate_confidence r
       = Py.round2
           (snd (ImageVerifier._check_duplicate image_hashes
                   (ImageVerifier.image_hash r) ImageVerifier.default_threshold))
    /\ image_hashes'
       = if ImageVerifier.is_duplicate r then image_hashes
         else {[ ImageVerifier.image_hash r ]} ∪ image_hashes.
Proof.
  unfold ImageVerifier.verify.
  destruct (path_exists image_path); cbn [negb]; [| intros [=]].
  destruct (_preprocess_image image_path) as [img | e];
    cbn [Py.bind]; [| intros [=]].
  destruct (damage_classifier_predict img) as [p | e] eqn:Hpred;
    cbn [Py.bind]; [| intros [=]].
  destruct (_compute_image_hash image_path) as [h | e];
    cbn [Py.bind]; [| intros [=]].
  destruct (ImageVerifier._check_duplicate image_hashes h
              ImageVerifier.default_threshold) as [dup conf] eqn:Hcheck.
  cbv beta iota zeta. intros Hrun. injection Hrun as <- <-.
  cbn [ImageVerifier.image_hash ImageVerifier.is_duplicate
       ImageVerifier.duplicate_confidence ImageVerifier.damage_confidence].
  exists img, p. rewrite Hcheck. destruct dup; repeat split; exact Hpred.
Qed.

(** A failing [verify] leaves the stored set as it was. *)
Lemma verify_raise_keeps_hashes (image_hashes image_hashes' : gset string)
    (image_path : string) (e : Py.exn) :
  verify image_hashes image_path = (Py.Raise e, image_hashes') ->
  image_hashes' = image_hashes.
Proof.
  unfold ImageVerifier.verify.
  destruct (path_exists image_path); cbn [negb]; [| now intros [= _ <-]].
  destruct (_preprocess_image image_path) as [img | e1];
    cbn [Py.bind]; [| now intros [= _ <-]].
  destruct (damage_classifier_predict img) as [p | e1];
    cbn [Py.bind]; [| now intros [= _ <-]].
  destruct (_compute_image_hash image_path) as [h | e1];
    cbn [Py.bind]; [| now intros [= _ <-]].
  destruct (ImageVerifier._check_duplicate image_hashes h
              ImageVerifier.default_threshold).
  cbv beta iota zeta. intros [=].
Qed.

(** C5. When [verify] returns a result that is not a duplicate, the hash
    computed for the image is the hash it reports and is in the stored
    set afterwards; so verifying the same image again, or any image for
    which the same hash is computed, returns a duplicate with confidence
    100.0 and leaves the set as it is. *)
Theorem verify_stores_hash_then_flags_resubmission
    (image_hashes image_hashes' : gset string) (image_path : string)
    (r : ImageVerifier.verify_result) :
  verify image_hashes image_path = (Py.Ok r, image_hashes') ->
  ImageVerifier.is_duplicate r = false ->
  exists computed_hash,
    _compute_image_hash image_path = Py.Ok computed_hash
    /\ ImageVerifier.image_hash r = computed_hash
    /\ computed_hash ∈ image_hashes'
    /\ image_hashes' = {[ computed_hash ]} ∪ image_hashes
    /\ (exists r2,
          verify image_hashes' image_path = (Py.Ok r2, image_hashes')
          /\ ImageVerifier.image_hash r2 = computed_hash
          /\ ImageVerifier.is_duplicate r2 = true
          /\ (ImageVerifier.duplicate_confidence r2 == 100.0)%Q)
    /\ (forall image_path2 r2 image_hashes'',
          verify image_hashes' image_path2 = (Py.Ok r2, image_hashes'') ->
          _compute_image_hash image_path2 = Py.Ok computed_hash ->
          ImageVerifier.image_hash r2 = computed_hash
          /\ ImageVerifier.is_duplicate r2 = true
          /\ (ImageVerifier.duplicate_confidence r2 == 100.0)%Q
          /\ image_hashes'' = image_hashes').
Proof.
  intros Hrun Hfresh.
  destruct (verify_ok_inv _ _ _ _ Hrun)
    as (img & p & Hexists & Hpre & Hpred & Hhash & _ & _ & _ & Hset).
  rewrite Hfresh in Hset.
  assert (Hin : ImageVerifier.image_hash r ∈ image_hashes') by set_solver.
  exists (ImageVerifier.image_hash r).
  split; [exact Hhash |]. split; [reflexivity |].
  split; [exact Hin |]. split; [exact Hset |]. split.
  - unfold ImageVerifier.verify at 1.
    rewrite Hexists, Hpre. cbn [negb Py.bind]. rewrite Hpred. cbn [Py.bind].
    rewrite Hhash. cbn [Py.bind].
    rewrite (check_duplicate_member _ _ _ Hin). cbn [negb].
    eexists. split; [reflexivity |]. cbn. repeat split; reflexivity.
  - intros image_path2 r2 image_hashes'' Hrun2 Hcomputed.
    destruct (verify_ok_inv _ _ _ _ Hrun2)
      as (_ & _ & _ & _ & _ & Hhash2 & _ & Hdup & Hconf & Hset2).
    rewrite Hcomputed in Hhash2. injection Hhash2 as Hsame.
    rewrite <- Hsame in Hdup, Hconf.
    rewrite (check_duplicate_member _ _ _ Hin) in Hdup, Hconf.
    cbn in Hdup, Hconf. rewrite Hdup in Hset2.
    split; [now symmetry |]. split; [exact Hdup |].
    split; [now rewrite Hconf | exact Hset2].
Qed.

End VerifyFacts.

Lemma verify_stores_hash_then_flags_resubmission_witness :
  exists r2,
    sample_verify {[ "ffffffffffffffff" ]} "damaged1.jpg"
    = (Py.Ok r2, {[ "ffffffffffffffff" ]})
    /\ ImageVerifier.is_duplicate r2 = true
    /\ (ImageVerifier.duplicate_confidence r2 == 100.0)%Q.
Proof.
  assert (Hrun :
    sample_verify ∅ "damaged1.jpg"
    = (Py.Ok (ImageVerifier.VerifyResult (Py.round2 (0.8 * 100.0))
                false (Py.round2 0.0) "ffffffffffffffff"),
       {[ "ffffffffffffffff" ]} ∪ ∅)) by reflexivity.
  destruct (verify_stores_hash_then_flags_resubmission _ _ _ _ _ _ _ _ _
              Hrun eq_refl)
    as (h & _ & _ & _ & _ & (r2 & Hrun2 & _ & Hdup & Hconf) & _).
  exists r2. rewrite (right_id_L ∅ (∪)) in Hrun2.
  repeat split; assumption.
Defined.

(** ** The duplicate engine: Hamming distance on 64-bit hashes *)

Lemma string_app_assoc (a b c : string) : (a ++ b) ++ c = a ++ (b ++ c).
Proof.
  induction a as [| x a IH]; [reflexivity |].
  change (String x ((a ++ b) ++ c) = String x (a ++ (b ++ c))). now f_equal.
Qed.

Lemma string_app_nil_r (a : string) : a ++ "" = a.
Proof.
  induction a as [| x a IH]; [reflexivity |].
  change (String x (a ++ "") = String x a). now f_equal.
Qed.

Lemma zeros_snoc (k : nat) : Py.zeros k ++ "0" = Py.zeros (S k).
Proof.
  induction k as [| k IH]; [reflexivity |].
  change (String "0" (Py.zeros k ++ "0") = String "0" (Py.zeros (S k))).
  now f_equal.
Qed.

Lemma length_fixed_bin (k : nat) (n : Z) : String.length (fixed_bin k n) = k.
Proof. induction k as [| k IH]; cbn; [reflexivity | now rewrite IH]. Qed.

Lemma fixed_bin_zero (k : nat) : fixed_bin k 0 = Py.zeros k.
Proof.
  induction k as [| k IH]; cbn; [reflexivity |].
  now rewrite Z.testbit_0_l, IH.
Qed.

Lemma fixed_bin_double (k : nat) (n : Z) (b : bool) :
  fixed_bin (S k) (2 * n + Z.b2z b)
  = fixed_bin k n ++ String (bit_char b) EmptyString.
Proof.
  induction k as [| k IH].
  - cbn. now rewrite Z.testbit_0_r.
  - change (fixed_bin (S (S k)) (2 * n + Z.b2z b))
      with (String (bit_char (Z.testbit (2 * n + Z.b2z b) (Z.of_nat (S k))))
                   (fixed_bin (S k) (2 * n + Z.b2z b))).
    rewrite IH, Nat2Z.inj_succ, Z.testbit_succ_r by lia. reflexivity.
Qed.

Lemma ones_below_zero (k : nat) : ones_below k 0 = 0%Z.
Proof.
  induction k as [| k IH]; cbn; [reflexivity |].
  now rewrite Z.testbit_0_l, IH.
Qed.

Lemma ones_below_double (k : nat) (n : Z) (b : bool) :
  ones_below (S k) (2 * n + Z.b2z b) = (Z.b2z b + ones_below k n)%Z.
Proof.
  induction k as [| k IH].
  - cbn. rewrite Z.testbit_0_r. lia.
  - change (ones_below (S (S k)) (2 * n + Z.b2z b))
      with (Z.b2z (Z.testbit (2 * n + Z.b2z b) (Z.of_nat (S k)))
            + ones_below (S k) (2 * n + Z.b2z b))%Z.
    rewrite IH, Nat2Z.inj_succ, Z.testbit_succ_r by lia. cbn. lia.
Qed.

Lemma ones_below_bounds (k : nat) (n : Z) :
  (0 <= ones_below k n <= Z.of_nat k)%Z.
Proof.
  induction k as [| k IH]; cbn [ones_below]; [lia |].
  destruct (Z.testbit n (Z.of_nat k)); cbn [Z.b2z]; lia.
Qed.

Lemma size_nat_bound (p : positive) :
  forall k : nat, (Zpos p < 2 ^ Z.of_nat k)%Z -> (Pos.size_nat p <= k)%nat.
Proof.
  induction p as [p IH | p IH |]; intros k Hlt; cbn [Pos.size_nat].
  - destruct k as [| k]; [cbn in Hlt; lia |].
    rewrite Nat2Z.inj_succ, Z.pow_succ_r in Hlt by lia.
    specialize (IH k). lia.
  - destruct k as [| k]; [cbn in Hlt; lia |].
    rewrite Nat2Z.inj_succ, Z.pow_succ_r in Hlt by lia.
    specialize (IH k). lia.
  - destruct k as [| k]; [cbn in Hlt; lia | lia].
Qed.

Lemma length_bin_pos (p : positive) :
  forall acc, String.length (Py.bin_pos p acc)
              = (Pos.size_nat p + String.length acc)%nat.
Proof.
  induction p as [p IH | p IH |]; intros acc; cbn [Py.bin_pos Pos.size_nat].
  - rewrite IH. cbn. lia.
  - rewrite IH. cbn. lia.
  - reflexivity.
Qed.

Lemma bin_pos_head (p : positive) :
  forall acc, exists r, Py.bin_pos p acc = String "1" r.
Proof.
  induction p as [p IH | p IH |]; intros acc; cbn [Py.bin_pos]; eauto.
Qed.

(** The numeral of [p], padded with zeros to [k] digits, shows the [k]
    low bits of [p]. *)
Lemma bin_pos_fixed (p : positive) :
  forall (k : nat) (acc : string),
    (Pos.size_nat p <= k)%nat ->
    Py.zeros (k - Pos.size_nat p) ++ Py.bin_pos p acc
    = fixed_bin k (Zpos p) ++ acc.
Proof.
  induction p as [p IH | p IH |]; intros k acc Hsize;
    cbn [Pos.size_nat] in *;
    (destruct k as [| k]; [lia |]); cbn [Py.bin_pos].
  - change (Zpos p~1) with (2 * Zpos p + Z.b2z true)%Z.
    rewrite fixed_bin_double, string_app_assoc.
    replace (S k - S (Pos.size_nat p))%nat with (k - Pos.size_nat p)%nat by lia.
    apply IH. lia.
  - change (Zpos p~0) with (2 * Zpos p + Z.b2z false)%Z.
    rewrite fixed_bin_double, string_app_assoc.
    replace (S k - S (Pos.size_nat p))%nat with (k - Pos.size_nat p)%nat by lia.
    apply IH. lia.
  - change 1%Z with (2 * 0 + Z.b2z true)%Z.
    rewrite fixed_bin_double, fixed_bin_zero, string_app_assoc.
    replace (S k - 1)%nat with k by lia. reflexivity.
Qed.

Lemma zfill_one (k : nat) (r : string) :
  Py.zfill k (String "1" r)
  = Py.zeros (k - String.length (String "1" r)) ++ String "1" r.
Proof. reflexivity. Qed.

(** [bin(n)[2:].zfill(k)] shows the [k] low bits of [n]. *)
Lemma zfill_bin (k : nat) (n : Z) :
  (0 <= n < 2 ^ Z.of_nat k)%Z -> (1 <= k)%nat ->
  Py.zfill k (Py.slice_from 2 (Py.bin n)) = fixed_bin k n.
Proof.
  intros [Hnonneg Hlt] Hk. destruct n as [| p | p]; [| | lia].
  - cbn [Py.bin Py.slice_from]. unfold Py.zfill. cbn.
    destruct k as [| k]; [lia |].
    replace (S k - 1)%nat with k by lia.
    now rewrite zeros_snoc, fixed_bin_zero.
  - change (Py.slice_from 2 (Py.bin (Zpos p))) with (Py.bin_pos p "").
    pose proof (size_nat_bound p k Hlt) as Hsize.
    destruct (bin_pos_head p "") as [r Hr].
    rewrite Hr, zfill_one, <- Hr.
    rewrite length_bin_pos. cbn [String.length]. rewrite Nat.add_0_r.
    rewrite (bin_pos_fixed p k "" Hsize). apply string_app_nil_r.
Qed.

Lemma bit_char_eqb (x y : bool) :
  Ascii.eqb (bit_char x) (bit_char y) = Bool.eqb x y.
Proof. now destruct x, y. Qed.

(** The character-wise comparison of two fixed-width numerals counts the
    differing bits. *)
Lemma hamming_zip_fixed (k : nat) (a b : Z) :
  ImageVerifier.hamming_zip (fixed_bin k a) (fixed_bin k b) = diff_bits k a b.
Proof.
  induction k as [| k IH]; [reflexivity |].
  cbn [fixed_bin ImageVerifier.hamming_zip diff_bits].
  now rewrite bit_char_eqb, IH.
Qed.

Lemma diff_bits_lxor (k : nat) (a b : Z) :
  diff_bits k a b = ones_below k (Z.lxor a b).
Proof.
  induction k as [| k IH]; [reflexivity |].
  cbn [diff_bits ones_below]. rewrite IH, Z.lxor_spec.
  now destruct (Z.testbit a (Z.of_nat k)), (Z.testbit b (Z.of_nat k)).
Qed.

Lemma ones_below_pos (p : positive) :
  forall k : nat, (Pos.size_nat p <= k)%nat ->
                  ones_below k (Zpos p) = popcount_pos p.
Proof.
  induction p as [p IH | p IH |]; intros k Hsize;
    cbn [Pos.size_nat popcount_pos] in *;
    (destruct k as [| k]; [lia |]).
  - change (Zpos p~1) with (2 * Zpos p + Z.b2z true)%Z.
    rewrite ones_below_double, IH by lia. reflexivity.
  - change (Zpos p~0) with (2 * Zpos p + Z.b2z false)%Z.
    rewrite ones_below_double, IH by lia. reflexivity.
  - change 1%Z with (2 * 0 + Z.b2z true)%Z.
    rewrite ones_below_double, ones_below_zero. reflexivity.
Qed.

Lemma popcount_ones_below (k : nat) (n : Z) :
  (0 <= n < 2 ^ Z.of_nat k)%Z -> popcount n = ones_below k n.
Proof.
  intros [Hnonneg Hlt]. destruct n as [| p | p]; [| | lia].
  - now rewrite ones_below_zero.
  - cbn [popcount]. symmetry. apply ones_below_pos. now apply size_nat_bound.
Qed.

Lemma lxor_bounded (k : nat) (a b : Z) :
  (0 <= a < 2 ^ Z.of_nat k)%Z -> (0 <= b < 2 ^ Z.of_nat k)%Z ->
  (0 <= Z.lxor a b < 2 ^ Z.of_nat k)%Z.
Proof.
  intros [Ha Hak] [Hb Hbk].
  assert (Hnonneg : (0 <= Z.lxor a b)%Z) by (apply Z.lxor_nonneg; tauto).
  split; [exact Hnonneg |].
  apply (Z.bounded_iff_bits_nonneg (Z.of_nat k)); [lia | exact Hnonneg |].
  intros l Hl. rewrite Z.lxor_spec.
  rewrite (proj1 (Z.bounded_iff_bits_nonneg (Z.of_nat k) a
                    ltac:(lia) Ha) Hak l Hl).
  rewrite (proj1 (Z.bounded_iff_bits_nonneg (Z.of_nat k) b
                    ltac:(lia) Hb) Hbk l Hl).
  reflexivity.
Qed.

(** On 64-bit values the comparison of the padded numerals is the Hamming
    distance. *)
Lemma hamming_zip_distance (a b : Z) :
  (0 <= a < 2 ^ 64)%Z -> (0 <= b < 2 ^ 64)%Z ->
  ImageVerifier.hamming_zip (Py.zfill 64 (Py.slice_from 2 (Py.bin a)))
                            (Py.zfill 64 (Py.slice_from 2 (Py.bin b)))
  = hamming_distance a b.
Proof.
  intros Ha Hb.
  rewrite !zfill_bin by (try lia; exact Ha || exact Hb).
  rewrite hamming_zip_fixed, diff_bits_lxor. unfold hamming_distance.
  symmetry. apply popcount_ones_below.
  apply (lxor_bounded 64); assumption.
Qed.

Lemma hamming_distance_bounds (a b : Z) :
  (0 <= a < 2 ^ 64)%Z -> (0 <= b < 2 ^ 64)%Z ->
  (0 <= hamming_distance a b <= 64)%Z.
Proof.
  intros Ha Hb. unfold hamming_distance.
  rewrite (popcount_ones_below 64) by (apply (lxor_bounded 64); assumption).
  apply (ones_below_bounds 64).
Qed.

Lemma truediv_64 (x : Q) :
  Py.truediv x (inject_Z (Z.of_nat 64)) = Py.Ok (x / 64)%Q.
Proof. reflexivity. Qed.

(** On two 64-bit hashes [_hash_similarity] is the normalized Hamming
    similarity. *)
Lemma hash_similarity_64 (hash1 hash2 : string) (a b : Z) :
  is_hash64 hash1 a -> is_hash64 hash2 b ->
  (ImageVerifier._hash_similarity hash1 hash2 == normalized_similarity a b)%Q.
Proof.
  intros [Hint1 Ha] [Hint2 Hb]. unfold ImageVerifier._hash_similarity.
  rewrite Hint1, Hint2. cbn [Py.bind].
  rewrite hamming_zip_distance by assumption.
  rewrite zfill_bin by (try lia; exact Ha).
  rewrite length_fixed_bin, truediv_64. cbn [Py.bind].
  unfold normalized_similarity, Qminus. apply Qplus_comp; reflexivity.
Qed.

Lemma normalized_similarity_bounds (a b : Z) :
  (0 <= a < 2 ^ 64)%Z -> (0 <= b < 2 ^ 64)%Z ->
  (0 <= normalized_similarity a b <= 1)%Q.
Proof.
  intros Ha Hb. pose proof (hamming_distance_bounds a b Ha Hb) as [Hlo Hhi].
  unfold normalized_similarity.
  assert (H0 : (0 <= inject_Z (hamming_distance a b))%Q)
    by (change 0%Q with (inject_Z 0); now rewrite <- Zle_Qle).
  assert (H64 : (inject_Z (hamming_distance a b) <= 64)%Q)
    by (change 64%Q with (inject_Z 64); now rewrite <- Zle_Qle).
  unfold Qdiv. change (/ 64)%Q with (1 # 64)%Q. split; lra.
Qed.

(** ** The duplicate engine: the greatest similarity *)

Lemma py_max_cases (a b : Q) : Py.max a b = a \/ Py.max a b = b.
Proof. unfold Py.max. destruct (Py.Qlt_bool a b); auto. Qed.

Lemma py_max_upper (a b : Q) : (a <= Py.max a b)%Q /\ (b <= Py.max a b)%Q.
Proof.
  unfold Py.max. destruct (Py.Qlt_bool a b) eqn:Hlt.
  - apply Qlt_bool_iff in Hlt. split; [now apply Qlt_le_weak | apply Qle_refl].
  - apply Qlt_bool_ge in Hlt. split; [apply Qle_refl | exact Hlt].
Qed.

Section MaxFold.

Variable f : string -> Q.

Lemma foldl_max_upper (l : list string) :
  forall init,
    (init <= foldl (fun m s => Py.max m (f s)) init l)%Q
    /\ forall s, s ∈ l -> (f s <= foldl (fun m s => Py.max m (f s)) init l)%Q.
Proof.
  induction l as [| x l IH]; intros init; cbn [foldl].
  - split; [apply Qle_refl |]. intros s Hs. now apply elem_of_nil in Hs.
  - destruct (IH (Py.max init (f x))) as [Hinit Hall].
    destruct (py_max_upper init (f x)) as [Ha Hb]. split.
    + eapply Qle_trans; [exact Ha | exact Hinit].
    + intros s Hs. apply elem_of_cons in Hs as [-> | Hs].
      * eapply Qle_trans; [exact Hb | exact Hinit].
      * now apply Hall.
Qed.

Lemma foldl_max_attained (l : list string) :
  forall init,
    foldl (fun m s => Py.max m (f s)) init l = init
    \/ exists s, s ∈ l /\ foldl (fun m s => Py.max m (f s)) init l = f s.
Proof.
  induction l as [| x l IH]; intros init; cbn [foldl]; [now left |].
  destruct (IH (Py.max init (f x))) as [Hkeep | (s & Hs & Hat)].
  - rewrite Hkeep. destruct (py_max_cases init (f x)) as [-> | ->];
      [now left |].
    right. exists x. split; [apply list_elem_of_here | reflexivity].
  - right. exists s. split; [now apply list_elem_of_further | exact Hat].
Qed.

End MaxFold.

Lemma is_hash64_functional (h : string) (n n' : Z) :
  is_hash64 h n -> is_hash64 h n' -> n = n'.
Proof. intros [Hn _] [Hn' _]. congruence. Qed.

(** C4, as the code has it.  For 64-bit hashes and a stored set that is
    not empty: an exact match returns (true, 100.0); otherwise the check
    returns a duplicate exactly when the greatest normalized Hamming
    similarity (1 - distance/64) to a stored hash is at least 0.95, with
    that similarity times 100 as confidence; so a stored hash within 3
    bits of the queried one makes it a duplicate. *)
Theorem check_duplicate_on_64_bit_hashes
    (image_hashes : gset string) (image_hash : string) (query : Z) :
  image_hashes <> ∅ ->
  is_hash64 image_hash query ->
  (forall s, s ∈ image_hashes -> exists n, is_hash64 s n) ->
  (image_hash ∈ image_hashes ->
   ImageVerifier._check_duplicate image_hashes image_hash
     ImageVerifier.default_threshold = (true, 100.0%Q))
  /\ (image_hash ∉ image_hashes ->
      exists m,
        is_max_similarity query image_hashes m
        /\ (fst (ImageVerifier._check_duplicate image_hashes image_hash
                   ImageVerifier.default_threshold) = true
            <-> (0.95 <= m)%Q)
        /\ (snd (ImageVerifier._check_duplicate image_hashes image_hash
                   ImageVerifier.default_threshold) == m * 100)%Q)
  /\ (forall s n,
        s ∈ image_hashes -> is_hash64 s n ->
        (hamming_distance query n <= 3)%Z ->
        fst (ImageVerifier._check_duplicate image_hashes image_hash
               ImageVerifier.default_threshold) = true).
Proof.
  intros Hnonempty Hquery Hstored.
  assert (Hsimilar :
    image_hash ∉ image_hashes ->
    exists m,
      is_max_similarity query image_hashes m
      /\ ImageVerifier._check_duplicate image_hashes image_hash
           ImageVerifier.default_threshold
         = (Qle_bool 0.95 m, (m * 100.0)%Q)).
  { intros Hnew. unfold ImageVerifier._check_duplicate.
    rewrite bool_decide_eq_false_2 by exact Hnonempty.
    rewrite bool_decide_eq_false_2 by exact Hnew.
    cbv zeta.
    set (f := fun stored_hash : string =>
                ImageVerifier._hash_similarity image_hash stored_hash).
    set (m := foldl _ _ _).
    assert (Hm : m = foldl (fun m s => Py.max m (f s)) 0.0%Q
                           (elements image_hashes)) by reflexivity.
    destruct (foldl_max_upper f (elements image_hashes) 0.0%Q) as [Hzero Hupper].
    rewrite <- Hm in Hzero, Hupper.
    exists m. split; [| reflexivity]. split.
    - destruct (foldl_max_attained f (elements image_hashes) 0.0%Q)
        as [Hinit | (s & Hs & Hat)]; rewrite <- Hm in *.
      + apply set_choose_L in Hnonempty as [s Hs].
        destruct (Hstored s Hs) as [n Hn]. exists s, n.
        split; [exact Hs |]. split; [exact Hn |].
        pose proof (hash_similarity_64 _ _ _ _ Hquery Hn) as Hsim.
        destruct (normalized_similarity_bounds query n (proj2 Hquery) (proj2 Hn))
          as [Hlo _].
        assert (Hle : (f s <= m)%Q) by (apply Hupper; now apply elem_of_elements).
        unfold f in Hle. rewrite Hsim, Hinit in Hle. rewrite Hinit.
        lra.
      + apply elem_of_elements in Hs.
        destruct (Hstored s Hs) as [n Hn]. exists s, n.
        split; [exact Hs |]. split; [exact Hn |].
        rewrite Hat. unfold f. now apply hash_similarity_64.
    - intros s n Hs Hn.
      rewrite <- (hash_similarity_64 _ _ _ _ Hquery Hn).
      apply (Hupper s). now apply elem_of_elements. }
  split; [apply check_duplicate_member |]. split.
  - intros Hnew. destruct (Hsimilar Hnew) as (m & Hmax & ->).
    exists m. split; [exact Hmax |]. cbn [fst snd]. split.
    + apply Qle_bool_iff.
    + apply Qmult_comp; reflexivity.
  - intros s n Hs Hn Hnear.
    destruct (decide (image_hash ∈ image_hashes)) as [Hin | Hnew].
    + now rewrite (check_duplicate_member _ _ _ Hin).
    + destruct (Hsimilar Hnew) as (m & [_ Hupper] & ->). cbn [fst].
      apply Qle_bool_iff. eapply Qle_trans; [| exact (Hupper s n Hs Hn)].
      unfold normalized_similarity.
      assert (H3 : (inject_Z (hamming_distance query n) <= 3)%Q)
        by (change 3%Q with (inject_Z 3); now rewrite <- Zle_Qle).
      unfold Qdiv. change (/ 64)%Q with (1 # 64)%Q. lra.
Qed.

Lemma check_duplicate_on_64_bit_hashes_witness :
  fst (ImageVerifier._check_duplicate {[ "ffffffffffffffff" ]}
         "fffffffffffffff8" ImageVerifier.default_threshold) = true.
Proof.
  assert (Hnonempty : ({[ "ffffffffffffffff" ]} : gset string) <> ∅)
    by by_computation.
  assert (Hquery : is_hash64 "fffffffffffffff8" (2 ^ 64 - 8)).
  { split; [reflexivity |]. split; [by_computation | reflexivity]. }
  assert (Hstored : is_hash64 "ffffffffffffffff" (2 ^ 64 - 1)).
  { split; [reflexivity |]. split; [by_computation | reflexivity]. }
  destruct (check_duplicate_on_64_bit_hashes
              {[ "ffffffffffffffff" ]} "fffffffffffffff8" (2 ^ 64 - 8)%Z
              Hnonempty Hquery) as (_ & _ & Hnear).
  - intros s Hs. apply elem_of_singleton in Hs as ->. eauto.
  - apply (Hnear "ffffffffffffffff" (2 ^ 64 - 1)%Z).
    + now apply elem_of_singleton.
    + exact Hstored.
    + by_computation.
Defined.

(** Two 128-bit digests, as the fallback of [_compute_image_hash]
    produces them, that differ in 4 bits: their normalized similarity
    1 - 4/64 is below 0.95, yet the check divides by the 128 digits of
    the numeral, finds 0.96875 and reports a duplicate with confidence
    96.875. *)
Lemma check_duplicate_on_128_bit_digests :
  exists a b confidence,
    Py.int16 "fffffffffffffffffffffffffffffff0" = Py.Ok a
    /\ Py.int16 "ffffffffffffffffffffffffffffffff" = Py.Ok b
    /\ ("fffffffffffffffffffffffffffffff0"
          ∉ ({[ "ffffffffffffffffffffffffffffffff" ]} : gset string))
    /\ hamming_distance a b = 4%Z
    /\ (normalized_similarity a b == 0.9375)%Q
    /\ ~ (0.95 <= normalized_similarity a b)%Q
    /\ ImageVerifier._check_duplicate {[ "ffffffffffffffffffffffffffffffff" ]}
         "fffffffffffffffffffffffffffffff0" ImageVerifier.default_threshold
       = (true, confidence)
    /\ (confidence == 96.875)%Q
    /\ ~ (confidence == normalized_similarity a b * 100)%Q.
Proof.
  eexists. eexists. eexists.
  split; [vm_compute; reflexivity |].
  split; [vm_compute; reflexivity |].
  split; [by_computation |].
  split; [vm_compute; reflexivity |].
  split; [vm_compute; reflexivity |].
  split; [intros Hle; vm_compute in Hle; now apply Hle |].
  split; [vm_compute; reflexivity |].
  split; [reflexivity |].
  intros Heq. vm_compute in Heq. discriminate Heq.
Qed.

(** * Further properties of the code *)

(** ** The decision cascade: when a claim is approved *)

Ltac q_bools :=
  repeat match goal with
         | H : Py.Qlt_bool _ _ = true |- _ => apply Qlt_bool_iff in H
         | H : Py.Qlt_bool _ _ = false |- _ => apply Qlt_bool_ge in H
         end.

(** The approval flag of the cascade as one boolean expression. *)
Lemma make_decision_approved_bool
    (damage_confidence : Q) (is_duplicate : bool)
    (predicted_yield expected_yield : Q)
    (fraud_detected : bool) (fraud_score claim_amount : Q) :
  let discrepancy :=
    Py.Qlt_bool 0.5
      (if Py.Qlt_bool 0 expected_yield
       then Py.fdiv (Py.abs (Py.fsub predicted_yield expected_yield))
                    expected_yield
       else 0%Q) in
  let moderate_fraud := fraud_detected && Py.Qlt_bool 50 fraud_score in
  let low_confidence := Py.Qlt_bool damage_confidence 50 in
  fst (ClaimEvaluator._make_decision damage_confidence is_duplicate
         predicted_yield expected_yield fraud_detected fraud_score claim_amount)
  = negb is_duplicate
    && negb (fraud_detected && Py.Qlt_bool 70 fraud_score)
    && negb (Py.Qlt_bool damage_confidence 30)
    && negb ((discrepancy && moderate_fraud) || (discrepancy && low_confidence)
             || (moderate_fraud && low_confidence))
    && negb (fraud_detected && Py.Qlt_bool 60 fraud_score)
    && negb (Py.Qlt_bool damage_confidence 40).
Proof.
  cbv zeta. unfold ClaimEvaluator._make_decision.
  destruct is_duplicate; [reflexivity |].
  destruct (fraud_detected && Py.Qlt_bool 70 fraud_score); [reflexivity |].
  destruct (Py.Qlt_bool damage_confidence 30); [reflexivity |].
  cbv zeta.
  destruct (Py.Qlt_bool 0.5 _);
    destruct (fraud_detected && Py.Qlt_bool 50 fraud_score);
    destruct (Py.Qlt_bool damage_confidence 50);
    cbn [Py.append app length Nat.leb andb orb negb fst];
    try reflexivity;
    destruct (fraud_detected && Py.Qlt_bool 60 fraud_score);
    cbn [andb orb negb fst]; try reflexivity;
    destruct (Py.Qlt_bool damage_confidence 40); reflexivity.
Qed.

(** X1. A claim is approved exactly when the image is no duplicate, there is
    no fraud signal above 60, the damage confidence is at least 40, and
    no two of the three soft findings (yield discrepancy above one half,
    fraud signal above 50, damage confidence below 50) hold together. *)
Theorem make_decision_approves_iff
    (damage_confidence : Q) (is_duplicate : bool)
    (predicted_yield expected_yield : Q)
    (fraud_detected : bool) (fraud_score claim_amount : Q) :
  let discrepancy :=
    (0 < expected_yield
     /\ 0.5 < Py.fdiv (Qabs (Py.fsub predicted_yield expected_yield))
                      expected_yield)%Q in
  let moderate_fraud := fraud_detected = true /\ (50 < fraud_score)%Q in
  let low_confidence := (damage_confidence < 50)%Q in
  fst (ClaimEvaluator._make_decision damage_confidence is_duplicate
         predicted_yield expected_yield fraud_detected fraud_score claim_amount)
  = true
  <-> is_duplicate = false
      /\ ~ (fraud_detected = true /\ (60 < fraud_score)%Q)
      /\ (40 <= damage_confidence)%Q
      /\ ~ (discrepancy /\ moderate_fraud)
      /\ ~ (discrepancy /\ low_confidence)
      /\ ~ (moderate_fraud /\ low_confidence).
Proof.
  rewrite make_decision_approved_bool. cbv zeta. unfold Py.abs.
  set (disc := Py.fdiv (Qabs (Py.fsub predicted_yield expected_yield))
                       expected_yield).
  destruct is_duplicate; [cbn; intuition discriminate |].
  destruct (Py.Qlt_bool damage_confidence 30) eqn:H30;
    [q_bools; cbn [andb negb]; rewrite !andb_false_r;
     split; [discriminate | intros (_ & _ & H40 & _); lra] |].
  destruct (Py.Qlt_bool damage_confidence 40) eqn:H40;
    [q_bools; cbn [andb negb]; rewrite !andb_false_r;
     split; [discriminate | intros (_ & _ & H40' & _); lra] |].
  destruct (Py.Qlt_bool damage_confidence 50) eqn:H50;
    (destruct fraud_detected;
     [destruct (Py.Qlt_bool 70 fraud_score) eqn:F70;
      destruct (Py.Qlt_bool 60 fraud_score) eqn:F60;
      destruct (Py.Qlt_bool 50 fraud_score) eqn:F50 |]);
    (destruct (Py.Qlt_bool 0 expected_yield) eqn:Hey;
     [destruct (Py.Qlt_bool 0.5 disc) eqn:Hd
     | change (Py.Qlt_bool 0.5 0) with false]);
    cbn [andb orb negb]; q_bools;
    (split; [try discriminate; intros _ | try reflexivity]);
    try (repeat split; try reflexivity; try assumption;
         intros Hbad; decompose [and] Hbad; try discriminate; lra);
    try (intros Hall; decompose [and] Hall; exfalso;
         match goal with
         | Hn : ~ _ |- _ => apply Hn; repeat split; assumption
         end).
Qed.

(** The discrepancy is that of the floats.  For 30.3 and 20.2 the
    quotient of the numbers is one half, that of the floats is above it:
    the claim is rejected.  For 0.49999999999999994 and 1.0 the
    difference of the numbers is above one half, that of the floats is
    one half: no discrepancy is found. *)
Example make_decision_discrepancy_is_rounded :
  (Qabs (30.3 - 20.2) / 20.2 == 0.5)%Q
  /\ fst (ClaimEvaluator._make_decision 45 false 30.3 20.2 false 0 25000)
     = false
  /\ (0.5 < Qabs (0.49999999999999994 - 1.0) / 1.0)%Q
  /\ fst (ClaimEvaluator._make_decision 45 false 0.49999999999999994 1.0
            false 0 25000) = true.
Proof. repeat split; vm_compute; reflexivity. Qed.

Lemma make_decision_approves_iff_witness :
  fst (ClaimEvaluator._make_decision 80 false 20 20 false 10 25000) = true.
Proof.
  apply make_decision_approves_iff. cbv zeta.
  split; [reflexivity |].
  split; [intros [Hf _]; discriminate Hf |].
  split; [vm_compute; discriminate |].
  split; [intros [_ [Hf _]]; discriminate Hf |].
  split; [intros [_ Hlow]; vm_compute in Hlow; discriminate Hlow |].
  intros [[Hf _] _]; discriminate Hf.
Defined.

(** X2. The reason is that all checks passed exactly when the image is no
    duplicate and none of the three soft findings holds. *)
Theorem make_decision_all_checks_passed_iff
    (damage_confidence : Q) (is_duplicate : bool)
    (predicted_yield expected_yield : Q)
    (fraud_detected : bool) (fraud_score claim_amount : Q) :
  snd (ClaimEvaluator._make_decision damage_confidence is_duplicate
         predicted_yield expected_yield fraud_detected fraud_score claim_amount)
  = "Claim approved: All checks passed. Damage verified, no fraud detected, yield predictions align."
  <-> is_duplicate = false
      /\ (50 <= damage_confidence)%Q
      /\ ~ (fraud_detected = true /\ (50 < fraud_score)%Q)
      /\ ~ (0 < expected_yield
            /\ 0.5 < Py.fdiv (Qabs (Py.fsub predicted_yield expected_yield))
                             expected_yield)%Q.
Proof.
  unfold ClaimEvaluator._make_decision, Py.abs.
  set (disc := Py.fdiv (Qabs (Py.fsub predicted_yield expected_yield))
                       expected_yield).
  destruct is_duplicate;
    [split; [intros H; discriminate H | intros (H & _); discriminate H] |].
  destruct (Py.Qlt_bool damage_confidence 30) eqn:H30;
    destruct (Py.Qlt_bool damage_confidence 40) eqn:H40;
    destruct (Py.Qlt_bool damage_confidence 50) eqn:H50;
    (destruct fraud_detected;
     [destruct (Py.Qlt_bool 70 fraud_score) eqn:F70;
      destruct (Py.Qlt_bool 60 fraud_score) eqn:F60;
      destruct (Py.Qlt_bool 50 fraud_score) eqn:F50 |]);
    (destruct (Py.Qlt_bool 0 expected_yield) eqn:Hey;
     [destruct (Py.Qlt_bool 0.5 disc) eqn:Hd
     | change (Py.Qlt_bool 0.5 0) with false]);
    cbn [andb orb negb Py.append app length Nat.leb snd String.append];
    q_bools;
    (split;
     [ try (intros H; discriminate H); intros _
     | try reflexivity ]);
    try (repeat split; try reflexivity; try assumption;
         intros Hbad; decompose [and] Hbad; try discriminate; lra);
    try (intros Hall; decompose [and] Hall; exfalso; try lra;
         match goal with
         | Hn : ~ _ |- _ => apply Hn; repeat split; assumption
         end).
Qed.

Lemma make_decision_all_checks_passed_iff_witness :
  snd (ClaimEvaluator._make_decision 80 false 20 20 false 10 25000)
  = "Claim approved: All checks passed. Damage verified, no fraud detected, yield predictions align.".
Proof.
  apply make_decision_all_checks_passed_iff.
  split; [reflexivity |].
  split; [vm_compute; discriminate |].
  split; [intros [Hf _]; discriminate Hf |].
  intros [_ Hd]. vm_compute in Hd. discriminate Hd.
Defined.

(** ** Recommendations *)

(** X3. There is always a recommendation, and never more than three; the
    message of success stands alone when it is there. *)
Theorem recommendations_never_empty
    (approved : bool) (damage_confidence : Q)
    (is_duplicate fraud_detected : bool) (predicted_yield expected_yield : Q) :
  let recommendations :=
    ClaimEvaluator._generate_recommendations approved damage_confidence
      is_duplicate fraud_detected predicted_yield expected_yield in
  (1 <= length recommendations <= 3)%nat
  /\ ("Claim processed successfully" ∈ recommendations ->
      recommendations = ["Claim processed successfully"]).
Proof.
  cbv zeta. unfold ClaimEvaluator._generate_recommendations.
  destruct approved, is_duplicate, fraud_detected,
    (Py.Qlt_bool damage_confidence 50), (Py.Qlt_bool damage_confidence 70),
    (Py.Qlt_bool 5 (Py.abs (Py.fsub predicted_yield expected_yield)));
    cbn [negb Py.append app length];
    (split; [lia |]); intros Hin; try reflexivity;
    exfalso; revert Hin; by_computation.
Qed.

Lemma recommendations_never_empty_witness :
  ClaimEvaluator._generate_recommendations true 80 false false 20 20
  = ["Claim processed successfully"].
Proof.
  apply (recommendations_never_empty true 80 false false 20 20).
  by_computation.
Defined.

(** X4. A claim that the cascade rejects is never told that it was processed
    successfully: a duplicate, a fraud signal or a damage confidence
    below 50 is behind every rejection, and each brings its own
    advice. *)
Theorem rejected_claim_gets_advice
    (damage_confidence : Q) (is_duplicate : bool)
    (predicted_yield expected_yield : Q)
    (fraud_detected : bool) (fraud_score claim_amount : Q) :
  fst (ClaimEvaluator._make_decision damage_confidence is_duplicate
         predicted_yield expected_yield fraud_detected fraud_score claim_amount)
  = false ->
  (is_duplicate = true \/ fraud_detected = true \/ (damage_confidence < 50)%Q)
  /\ "Claim processed successfully"
       ∉ ClaimEvaluator._generate_recommendations false damage_confidence
           is_duplicate fraud_detected predicted_yield expected_yield.
Proof.
  rewrite make_decision_approved_bool. cbv zeta.
  unfold ClaimEvaluator._generate_recommendations.
  destruct is_duplicate, fraud_detected,
    (Py.Qlt_bool damage_confidence 50) eqn:H50;
    cbn [negb andb orb Py.append app]; intros Hrejected;
    try (split; [q_bools; tauto |]; by_computation).
  exfalso.
  destruct (Py.Qlt_bool damage_confidence 30) eqn:H30;
    destruct (Py.Qlt_bool damage_confidence 40) eqn:H40;
    q_bools; lra.
Qed.

Lemma rejected_claim_gets_advice_witness :
  "Claim processed successfully"
    ∉ ClaimEvaluator._generate_recommendations false 25 false false 20 20.
Proof.
  apply (rejected_claim_gets_advice 25 false 20 20 false 10 25000).
  reflexivity.
Defined.

(** ** Claim evaluation: failures, calls and the verdict *)

Section EvaluateRuns.

Variable image_verifier_verify :
  string -> string -> Py.result ClaimEvaluator.image_result.
Variable yield_predictor_predict :
  string -> string -> string -> string -> string -> Q ->
  option (gmap string Q) -> Py.result Q.
Variable fraud_detector_detect :
  string -> string -> Q -> Q -> option (gmap string Q) -> Z ->
  option string -> Py.result ClaimEvaluator.fraud_result.

Variables image_path crop_type land_size : string.
Variables expected_yield claim_amount : Q.
Variable weather_features : option (gmap string Q).
Variables sowing_date soil_type irrigation_type : option string.
Variable fertilizer_usage : option Q.
Variable historical_claims : Z.
Variable user_id : option string.

Abbreviation run_evaluate :=
  (ClaimEvaluator.evaluate image_verifier_verify yield_predictor_predict
     fraud_detector_detect image_path crop_type land_size expected_yield
     claim_amount weather_features sowing_date soil_type irrigation_type
     fertilizer_usage historical_claims user_id).

Abbreviation run_yield_step :=
  (ClaimEvaluator.yield_step yield_predictor_predict crop_type land_size
     expected_yield weather_features sowing_date soil_type irrigation_type
     fertilizer_usage).

Abbreviation call_verify := (ClaimEvaluator.CallVerify image_path crop_type).

Abbreviation call_detect :=
  (ClaimEvaluator.CallDetect crop_type land_size expected_yield claim_amount
     weather_features historical_claims user_id).

Abbreviation detect_outcome :=
  (fraud_detector_detect crop_type land_size expected_yield claim_amount
     weather_features historical_claims user_id).

(** [evaluate], step by step. *)
Lemma evaluate_unfold (log : list ClaimEvaluator.call) :
  run_evaluate log
  = match image_verifier_verify image_path crop_type with
    | Py.Raise e => (Py.Raise e, Py.append log call_verify)
    | Py.Ok image =>
        match run_yield_step (Py.append log call_verify) with
        | (Py.Raise e, log2) => (Py.Raise e, log2)
        | (Py.Ok predicted, log2) =>
            match detect_outcome with
            | Py.Raise e => (Py.Raise e, Py.append log2 call_detect)
            | Py.Ok fraud =>
                (Py.Ok (verdict_of image predicted fraud expected_yield
                          claim_amount),
                 Py.append log2 call_detect)
            end
        end
    end.
Proof.
  unfold ClaimEvaluator.evaluate, ClaimEvaluator.tbind, ClaimEvaluator.invoke.
  destruct (image_verifier_verify image_path crop_type) as [image | e];
    [| reflexivity].
  destruct (run_yield_step (Py.append log call_verify))
    as [[predicted | e] log2]; [| reflexivity].
  destruct detect_outcome as [fraud | e]; [| reflexivity].
  unfold verdict_of.
  destruct (ClaimEvaluator._make_decision _ _ _ _ _ _ _); reflexivity.
Qed.

(** With all four optional inputs given and not empty, the yield step
    calls the predictor once and takes its answer, or the expected yield
    when it raises. *)
Lemma yield_step_present (log : list ClaimEvaluator.call)
    (sowing soil irrigation : string) (fertilizer : Q) :
  sowing_date = Some sowing -> soil_type = Some soil ->
  irrigation_type = Some irrigation -> fertilizer_usage = Some fertilizer ->
  sowing <> "" -> soil <> "" -> irrigation <> "" ->
  run_yield_step log
  = (Py.Ok match yield_predictor_predict crop_type land_size sowing soil
                   irrigation fertilizer weather_features with
           | Py.Ok predicted => predicted
           | Py.Raise _ => expected_yield
           end,
     Py.append log
       (ClaimEvaluator.CallPredict crop_type land_size sowing soil irrigation
          fertilizer weather_features)).
Proof.
  intros -> -> -> -> Hsowing Hsoil Hirrigation.
  unfold ClaimEvaluator.yield_step, ClaimEvaluator.try_except,
    ClaimEvaluator.invoke, ClaimEvaluator.ret.
  destruct sowing; [congruence |]. destruct soil; [congruence |].
  destruct irrigation; [congruence |]. cbn [ClaimEvaluator.truthy andb].
  now destruct (yield_predictor_predict _ _ _ _ _ _ _).
Qed.

(** An empty string for the sowing date, the soil type or the irrigation
    type counts as an absent one. *)
Lemma yield_step_empty (log : list ClaimEvaluator.call) :
  sowing_date = Some "" \/ soil_type = Some "" \/ irrigation_type = Some "" ->
  run_yield_step log = (Py.Ok expected_yield, log).
Proof.
  unfold ClaimEvaluator.yield_step.
  intros [-> | [-> | ->]];
    repeat match goal with
           | |- context [match ?o with Some _ => _ | None => _ end] =>
               is_var o; destruct o
           end;
    cbn [ClaimEvaluator.truthy andb]; rewrite ?andb_false_r;
    try reflexivity;
    repeat match goal with
           | |- context [ClaimEvaluator.truthy (Some ?s)] =>
               is_var s; destruct s; cbn [ClaimEvaluator.truthy andb]
           end; reflexivity.
Qed.

Lemma yield_step_returns (log : list ClaimEvaluator.call) :
  exists predicted log2, run_yield_step log = (Py.Ok predicted, log2)
    /\ (log2 = log
        \/ exists sowing soil irrigation fertilizer,
             log2 = Py.append log
                      (ClaimEvaluator.CallPredict crop_type land_size sowing
                         soil irrigation fertilizer weather_features)).
Proof.
  destruct (yield_step_cases yield_predictor_predict crop_type land_size
              expected_yield weather_features sowing_date soil_type
              irrigation_type fertilizer_usage log)
    as [Hstep | (sw & so & ir & fe & y & _ & _ & _ & _ & Hstep)];
    rewrite Hstep; eauto 10.
Qed.

(** X5. [evaluate] fails exactly when image verification fails or, after it,
    fraud detection fails, and then with their exception: a failure of
    the yield predictor never fails an evaluation. *)
Theorem evaluate_fails_iff (e : Py.exn) :
  fst (run_evaluate []) = Py.Raise e
  <-> image_verifier_verify image_path crop_type = Py.Raise e
      \/ ((exists image, image_verifier_verify image_path crop_type = Py.Ok image)
          /\ detect_outcome = Py.Raise e).
Proof.
  rewrite evaluate_unfold.
  destruct (image_verifier_verify image_path crop_type) as [image | e1].
  - destruct (yield_step_returns (Py.append [] call_verify))
      as (predicted & log2 & -> & _).
    destruct detect_outcome as [fraud | e2]; cbn [fst]; split.
    + intros Hraise. discriminate Hraise.
    + intros [Hv | [_ Hd]]; [discriminate Hv | discriminate Hd].
    + intros [= ->]. right. eauto.
    + intros [Hv | [_ [= ->]]]; [discriminate Hv | reflexivity].
  - cbn [fst]. split.
    + intros [= ->]. now left.
    + intros [[= ->] | [[image Hv] _]]; [reflexivity | discriminate Hv].
Qed.

(** X6. When image verification fails nothing else is called.  When it
    returns, the fraud detector is called once, last, whatever the image
    verifier said, also for a duplicate; between the two there is at most
    one call, of the yield predictor. *)
Theorem evaluate_call_order :
  let calls :=
    snd (ClaimEvaluator.evaluate image_verifier_verify yield_predictor_predict
           fraud_detector_detect image_path crop_type land_size expected_yield
           claim_amount weather_features sowing_date soil_type irrigation_type
           fertilizer_usage historical_claims user_id []) in
  (forall e, image_verifier_verify image_path crop_type = Py.Raise e ->
             calls = [call_verify])
  /\ (forall image,
        image_verifier_verify image_path crop_type = Py.Ok image ->
        calls = [call_verify; call_detect]
        \/ exists sowing soil irrigation fertilizer,
             calls
             = [call_verify;
                ClaimEvaluator.CallPredict crop_type land_size sowing soil
                  irrigation fertilizer weather_features;
                call_detect]).
Proof.
  cbv zeta. split.
  - intros e Hv. rewrite evaluate_unfold, Hv. reflexivity.
  - intros image Hv. rewrite evaluate_unfold, Hv.
    destruct (yield_step_returns (Py.append [] call_verify))
      as (predicted & log2 & -> & [-> | (sw & so & ir & fe & ->)]);
      [left | right; exists sw, so, ir, fe];
      now destruct detect_outcome.
Qed.

(** X7. With the four optional inputs given and not empty, the verdict is
    made with the answer of the yield predictor, and with the expected
    yield when the predictor raises. *)
Theorem evaluate_takes_prediction
    (sowing soil irrigation : string) (fertilizer : Q)
    (image : ClaimEvaluator.image_result) (fraud : ClaimEvaluator.fraud_result) :
  sowing_date = Some sowing -> soil_type = Some soil ->
  irrigation_type = Some irrigation -> fertilizer_usage = Some fertilizer ->
  sowing <> "" -> soil <> "" -> irrigation <> "" ->
  image_verifier_verify image_path crop_type = Py.Ok image ->
  detect_outcome = Py.Ok fraud ->
  fst (run_evaluate [])
  = Py.Ok (verdict_of image
             match yield_predictor_predict crop_type land_size sowing soil
                     irrigation fertilizer weather_features with
             | Py.Ok predicted => predicted
             | Py.Raise _ => expected_yield
             end
             fraud expected_yield claim_amount).
Proof.
  intros Hsow Hsoil Hirr Hfert Hsow' Hsoil' Hirr' Hv Hd.
  rewrite evaluate_unfold, Hv.
  rewrite (yield_step_present _ _ _ _ _ Hsow Hsoil Hirr Hfert Hsow' Hsoil' Hirr').
  now rewrite Hd.
Qed.

(** X8. What a verdict says of the signals: the duplicate flag and the fraud
    flag are those of the collaborators; there is a fraud score exactly
    when fraud was detected; and a duplicate is rejected for being one,
    with the advice to submit original images first. *)
Theorem evaluate_verdict_fields (v : ClaimEvaluator.verdict) :
  fst (run_evaluate []) = Py.Ok v ->
  exists image fraud,
    image_verifier_verify image_path crop_type = Py.Ok image
    /\ detect_outcome = Py.Ok fraud
    /\ ClaimEvaluator.is_duplicate v = ClaimEvaluator.image_is_duplicate image
    /\ ClaimEvaluator.fraud_detected v
       = ClaimEvaluator.fraud_result_detected fraud
    /\ (ClaimEvaluator.fraud_score v = None
        <-> ClaimEvaluator.fraud_detected v = false)
    /\ (ClaimEvaluator.is_duplicate v = true ->
        ClaimEvaluator.approved v = false
        /\ ClaimEvaluator.reason v
           = "Claim rejected: Duplicate image detected. This image has been used in a previous claim."
        /\ head (ClaimEvaluator.recommendations v)
           = Some "Please submit original images of the crop damage").
Proof.
  rewrite evaluate_unfold.
  destruct (image_verifier_verify image_path crop_type) as [image | e];
    [| intros [=]].
  destruct (yield_step_returns (Py.append [] call_verify))
    as (predicted & log2 & -> & _).
  destruct detect_outcome as [fraud | e]; [| intros [=]].
  cbn [fst]. intros [= <-]. exists image, fraud.
  split; [reflexivity |]. split; [reflexivity |].
  split; [reflexivity |]. split; [reflexivity |]. split.
  - cbn. destruct (ClaimEvaluator.fraud_result_detected fraud);
      split; intros H; (reflexivity || discriminate H).
  - cbn [verdict_of ClaimEvaluator.is_duplicate ClaimEvaluator.approved
         ClaimEvaluator.reason ClaimEvaluator.recommendations].
    intros ->. cbn [ClaimEvaluator._make_decision fst snd].
    repeat split. unfold ClaimEvaluator._generate_recommendations.
    cbn [negb Py.append app].
    destruct (ClaimEvaluator.fraud_result_detected fraud);
      now destruct (Py.Qlt_bool _ 50).
Qed.

(** X9. An empty string for the sowing date, the soil type or the irrigation
    type is taken as an absent one: the evaluation runs as with [None]. *)
Theorem evaluate_empty_string_as_absent (log : list ClaimEvaluator.call) :
  sowing_date = Some "" \/ soil_type = Some "" \/ irrigation_type = Some "" ->
  run_evaluate log
  = ClaimEvaluator.evaluate image_verifier_verify yield_predictor_predict
      fraud_detector_detect image_path crop_type land_size expected_yield
      claim_amount weather_features None soil_type irrigation_type
      fertilizer_usage historical_claims user_id log.
Proof.
  intros Hempty.
  rewrite evaluate_unfold.
  rewrite (yield_step_empty _ Hempty).
  unfold ClaimEvaluator.evaluate, ClaimEvaluator.tbind, ClaimEvaluator.invoke.
  destruct (image_verifier_verify image_path crop_type) as [image | e];
    [| reflexivity].
  cbn [ClaimEvaluator.yield_step ClaimEvaluator.ret].
  destruct detect_outcome as [fraud | e]; [| reflexivity].
  unfold verdict_of.
  destruct (ClaimEvaluator._make_decision _ _ _ _ _ _ _); reflexivity.
Qed.

End EvaluateRuns.

Lemma evaluate_fails_iff_witness :
  fst (ClaimEvaluator.evaluate sample_image_verifier sample_yield_predictor
         (fun _ _ _ _ _ _ _ => Py.Raise (Py.RuntimeError "no model"))
         "img.jpg" "rice" "2 acre" 20 1000 None None None None None 0 None [])
  = Py.Raise (Py.RuntimeError "no model").
Proof.
  apply (proj2 (evaluate_fails_iff sample_image_verifier sample_yield_predictor
                  (fun _ _ _ _ _ _ _ => Py.Raise (Py.RuntimeError "no model"))
                  "img.jpg" "rice" "2 acre" 20 1000 None None None None None
                  0 None (Py.RuntimeError "no model"))).
  right. split; [eexists; reflexivity | reflexivity].
Defined.

Lemma evaluate_call_order_witness :
  snd (ClaimEvaluator.evaluate
         (fun _ _ => Py.Ok (ClaimEvaluator.ImageResult 80 true))
         sample_yield_predictor sample_fraud_detector
         "img.jpg" "rice" "2 acre" 20 1000 None None None None None 0 None [])
  = [ClaimEvaluator.CallVerify "img.jpg" "rice";
     ClaimEvaluator.CallDetect "rice" "2 acre" 20 1000 None 0 None].
Proof.
  destruct (proj2 (evaluate_call_order
                     (fun _ _ => Py.Ok (ClaimEvaluator.ImageResult 80 true))
                     sample_yield_predictor sample_fraud_detector
                     "img.jpg" "rice" "2 acre" 20 1000 None None None None None
                     0 None)
              (ClaimEvaluator.ImageResult 80 true) eq_refl)
    as [Hlog | (sowing & soil & irrigation & fertilizer & Hlog)].
  - exact Hlog.
  - discriminate Hlog.
Defined.

Lemma evaluate_takes_prediction_witness :
  fst (ClaimEvaluator.evaluate sample_image_verifier
         (fun _ _ _ _ _ _ _ => Py.Raise (Py.RuntimeError "no model"))
         sample_fraud_detector
         "img.jpg" "rice" "2 acre" 20 1000 None (Some "2024-06-15")
         (Some "loamy") (Some "drip") (Some 50%Q) 0 None [])
  = Py.Ok (verdict_of (ClaimEvaluator.ImageResult 80 false) 20
             (ClaimEvaluator.FraudResult false 10) 20 1000).
Proof.
  apply (evaluate_takes_prediction sample_image_verifier
           (fun _ _ _ _ _ _ _ => Py.Raise (Py.RuntimeError "no model"))
           sample_fraud_detector
           "img.jpg" "rice" "2 acre" 20 1000 None (Some "2024-06-15")
           (Some "loamy") (Some "drip") (Some 50%Q) 0 None
           "2024-06-15" "loamy" "drip" 50%Q
           (ClaimEvaluator.ImageResult 80 false)
           (ClaimEvaluator.FraudResult false 10));
    first [reflexivity | intros [=]].
Defined.

Lemma evaluate_verdict_fields_witness :
  exists v,
    fst (ClaimEvaluator.evaluate
           (fun _ _ => Py.Ok (ClaimEvaluator.ImageResult 80 true))
           sample_yield_predictor
           (fun _ _ _ _ _ _ _ => Py.Ok (ClaimEvaluator.FraudResult true 65))
           "img.jpg" "rice" "2 acre" 20 1000 None None None None None 0 None [])
    = Py.Ok v
    /\ ClaimEvaluator.approved v = false
    /\ ClaimEvaluator.fraud_score v <> None.
Proof.
  eexists. split; [vm_compute; reflexivity |].
  destruct (evaluate_verdict_fields
              (fun _ _ => Py.Ok (ClaimEvaluator.ImageResult 80 true))
              sample_yield_predictor
              (fun _ _ _ _ _ _ _ => Py.Ok (ClaimEvaluator.FraudResult true 65))
              "img.jpg" "rice" "2 acre" 20 1000 None None None None None 0 None
              _ ltac:(vm_compute; reflexivity))
    as (image & fraud & Himage & Hfraud & Hdup & Hdetected & Hscore & Hrejected).
  split.
  - apply Hrejected. reflexivity.
  - intros Hnone. apply Hscore in Hnone. discriminate Hnone.
Defined.

Lemma evaluate_empty_string_as_absent_witness :
  ClaimEvaluator.evaluate sample_image_verifier sample_yield_predictor
    sample_fraud_detector "img.jpg" "rice" "2 acre" 20 1000 None (Some "")
    (Some "loamy") (Some "drip") (Some 50%Q) 0 None []
  = ClaimEvaluator.evaluate sample_image_verifier sample_yield_predictor
      sample_fraud_detector "img.jpg" "rice" "2 acre" 20 1000 None None
      (Some "loamy") (Some "drip") (Some 50%Q) 0 None [].
Proof.
  apply (evaluate_empty_string_as_absent sample_image_verifier
           sample_yield_predictor sample_fraud_detector "img.jpg" "rice"
           "2 acre" 20 1000 None (Some "") (Some "loamy") (Some "drip")
           (Some 50%Q) 0 None []).
  left. reflexivity.
Defined.

(** ** Rounding *)

Lemma round_half_even_ge (n : Z) (q : Q) :
  (inject_Z n <= q)%Q -> (n <= Py.round_half_even q)%Z.
Proof.
  intros Hle. assert (Hfloor : (n <= Qfloor q)%Z).
  { rewrite <- (Qfloor_Z n). now apply Qfloor_resp_le. }
  unfold Py.round_half_even.
  repeat match goal with |- context [if ?b then _ else _] => destruct b end;
    lia.
Qed.

Lemma round_half_even_le (n : Z) (q : Q) :
  (q <= inject_Z n)%Q -> (Py.round_half_even q <= n)%Z.
Proof.
  intros Hle. pose proof (Qfloor_le q) as Hfloor.
  assert (Hn : (Qfloor q <= n)%Z).
  { rewrite Zle_Qle. eapply Qle_trans; eassumption. }
  unfold Py.round_half_even.
  destruct (Py.Qlt_bool (q - inject_Z (Qfloor q)) (1 # 2)) eqn:Hhalf; [exact Hn |].
  assert (Hstrict : (Qfloor q < n)%Z).
  { apply Qlt_bool_ge in Hhalf. rewrite Zlt_Qlt.
    eapply Qlt_le_trans; [| exact Hle]. lra. }
  repeat match goal with |- context [if ?b then _ else _] => destruct b end;
    lia.
Qed.

(** Rounding to two decimals keeps a number between two whole bounds. *)
Lemma round2_between (lo hi : Z) (q : Q) :
  (inject_Z lo <= q <= inject_Z hi)%Q ->
  (inject_Z lo <= Py.round2 q <= inject_Z hi)%Q.
Proof.
  intros [Hlo Hhi]. unfold Py.round2.
  assert (H1 : (lo * 100 <= Py.round_half_even (q * 100))%Z).
  { apply round_half_even_ge. rewrite inject_Z_mult.
    change (inject_Z 100) with 100%Q. lra. }
  assert (H2 : (Py.round_half_even (q * 100) <= hi * 100)%Z).
  { apply round_half_even_le. rewrite inject_Z_mult.
    change (inject_Z 100) with 100%Q. lra. }
  rewrite Zle_Qle, inject_Z_mult in H1, H2.
  change (inject_Z 100) with 100%Q in H1, H2.
  unfold Qdiv. change (/ 100)%Q with (1 # 100)%Q. split; lra.
Qed.

Lemma py_max_min_between (lo hi q : Q) :
  (lo <= hi)%Q -> (lo <= Py.max lo (Py.min hi q) <= hi)%Q.
Proof.
  intros Hle. unfold Py.max, Py.min.
  destruct (Py.Qlt_bool q hi) eqn:H1;
    [destruct (Py.Qlt_bool lo q) eqn:H2 | destruct (Py.Qlt_bool lo hi) eqn:H2];
    q_bools; split; lra.
Qed.

(** ** The weather anomaly score *)



(** ** Fraud detection *)

(** X11. Without weather data the fraud vector carries the default weather and
    a weather anomaly score of 40: the default rainfall of 0 mm is
    outside the normal range. *)
Theorem fraud_features_without_weather
    (py_float : string -> option Q) (crop_type land_size : string)
    (expected_yield claim_amount : Q) (weather_features : option (gmap string Q))
    (historical_claims : Z) :
  weather_features = None \/ weather_features = Some ∅ ->
  exists features,
    FraudDetector._prepare_features py_float crop_type land_size
      expected_yield claim_amount weather_features historical_claims
    = Py.Ok features
    /\ features !! 8%nat = Some 25.0%Q
    /\ features !! 9%nat = Some 0.0%Q
    /\ features !! 10%nat = Some 60.0%Q
    /\ exists anomaly, features !! 11%nat = Some anomaly /\ (anomaly == 40)%Q.
Proof.
  intros Hnone.
  assert (Hweather : weather_record weather_features = Utils.default_features).
  { destruct Hnone as [-> | ->]; reflexivity. }
  unfold FraudDetector._prepare_features.
  rewrite extract_weather_features_floats, Hweather. cbn [Py.bind].
  destruct (Py.Qlt_bool 0 (FraudDetector._parse_land_size py_float land_size))
    eqn:Harea;
    destruct (Py.Qlt_bool 0 expected_yield) eqn:Hyield;
    rewrite ?(truediv_pos _ _ Harea), ?(truediv_pos _ _ Hyield);
    cbn [Py.bind];
    (eexists; split; [reflexivity |]; repeat split; eexists; split;
     reflexivity).
Qed.

Lemma fraud_features_without_weather_witness :
  exists features,
    FraudDetector._prepare_features Py.float_of_decimal "wheat" "2 acre"
      200 6000 None 2 = Py.Ok features
    /\ exists anomaly, features !! 11%nat = Some anomaly /\ (anomaly == 40)%Q.
Proof.
  destruct (fraud_features_without_weather Py.float_of_decimal "wheat" "2 acre"
              200 6000 None 2 (or_introl eq_refl))
    as (features & Hok & _ & _ & _ & Hanomaly).
  exists features. split; assumption.
Defined.

(** On a vector of twelve entries the attribution rules always return:
    no message without fraud, at least one with it, and never both the
    low-yield and the high-yield message. *)
Lemma identify_anomaly_features_ok
    (f0 f1 f2 f3 f4 f5 f6 f7 f8 f9 f10 f11 : Q) (fraud_detected : bool)
    (crop_type : string) (expected_yield claim_amount : Q) :
  exists messages,
    FraudDetector._identify_anomaly_features
      [f0; f1; f2; f3; f4; f5; f6; f7; f8; f9; f10; f11]
      fraud_detected crop_type expected_yield claim_amount
    = Py.Ok messages
    /\ (messages = [] <-> fraud_detected = false)
    /\ (length messages <= 5)%nat
    /\ ~ ("Suspiciously low yield per hectare" ∈ messages
          /\ "Unusually high yield per hectare" ∈ messages).
Proof.
  unfold FraudDetector._identify_anomaly_features.
  destruct fraud_detected; cbn [negb].
  - cbn [Py.getitem lookup list_lookup Py.bind].
    destruct (Py.Qlt_bool 1000 f6), (Py.Qlt_bool f4 10), (Py.Qlt_bool 100 f4),
      (Py.Qlt_bool 50000 f5), (Py.Qlt_bool 5 f7), (Py.Qlt_bool 50 f11);
      cbn [Py.append app];
      (eexists; split; [reflexivity |]);
      (split; [split; intros H; discriminate H |]);
      (split; [cbn; lia |]);
      intros [Hlow Hhigh]; revert Hlow Hhigh;
      first [ intros Hlow _; revert Hlow; by_computation
            | intros _ Hhigh; revert Hhigh; by_computation ].
  - exists []. split; [reflexivity |]. split; [tauto |].
    split; [cbn; lia |]. intros [Hlow _]. now apply elem_of_nil in Hlow.
Qed.

Section DetectFacts.

Variable py_float : string -> option Q.
Variable scaler_transform : option (list Q -> Py.result (list Q)).
Variable model_predict : list Q -> Py.result Z.
Variable model_score_samples : list Q -> Py.result Q.

Variables crop_type land_size : string.
Variables expected_yield claim_amount : Q.
Variable weather_features : option (gmap string Q).
Variable historical_claims : Z.
Variable user_id : option string.

Abbreviation run_detect :=
  (FraudDetector.detect py_float scaler_transform model_predict
     model_score_samples crop_type land_size expected_yield claim_amount
     weather_features historical_claims user_id).

Abbreviation scaled features :=
  (match scaler_transform with
   | Some transform => transform features
   | None => Py.Ok features
   end).

(** What [detect] returns when the scaler and the model return. *)
Lemma detect_ok (features features_scaled : list Q) (prediction : Z)
    (anomaly_score : Q) :
  FraudDetector._prepare_features py_float crop_type land_size expected_yield
    claim_amount weather_features historical_claims = Py.Ok features ->
  scaled features = Py.Ok features_scaled ->
  model_predict features_scaled = Py.Ok prediction ->
  model_score_samples features_scaled = Py.Ok anomaly_score ->
  exists messages,
    run_detect
    = Py.Ok
        {| FraudDetector.fraud_detected := (prediction =? -1)%Z;
           FraudDetector.fraud_score :=
             Py.round2
               (Py.max 0.0
                  (Py.min 100.0 ((1.0 - (anomaly_score + 1) / 2) * 100)))%Q;
           FraudDetector.anomaly_features := messages;
           FraudDetector.confidence :=
             Py.round2
               (Py.max 50.0 (Py.min 100.0 (Py.abs anomaly_score * 50)))%Q |}
    /\ (messages = [] <-> (prediction =? -1)%Z = false)
    /\ (length messages <= 5)%nat
    /\ ~ ("Suspiciously low yield per hectare" ∈ messages
          /\ "Unusually high yield per hectare" ∈ messages).
Proof.
  intros Hfeatures Hscaled Hpredict Hscore.
  destruct (fraud_prepare_features_ok py_float crop_type land_size
              expected_yield claim_amount weather_features historical_claims)
    as (yph & cph & ratio & t & r & h & a & Hok & _).
  rewrite Hok in Hfeatures. injection Hfeatures as <-.
  destruct (identify_anomaly_features_ok
              (inject_Z (FraudDetector._encode_crop_type crop_type))
              (FraudDetector._parse_land_size py_float land_size)
              expected_yield claim_amount yph cph ratio
              (inject_Z historical_claims) t r h a
              (prediction =? -1)%Z crop_type expected_yield claim_amount)
    as (messages & Hmessages & Hprops).
  exists messages. split; [| exact Hprops].
  unfold FraudDetector.detect. rewrite Hok. cbn [Py.bind].
  rewrite Hscaled. cbn [Py.bind]. rewrite Hpredict, Hscore. cbn [Py.bind].
  rewrite Hmessages. reflexivity.
Qed.

(** X12. Whatever the model answers, a result of [detect] has a fraud score
    between 0 and 100 and a confidence between 50 and 100; it names
    anomalies exactly when it reports fraud, at most five of them, and
    never both a low and a high yield per hectare. *)
Theorem detect_result_bounds (result : FraudDetector.detection) :
  run_detect = Py.Ok result ->
  (0 <= FraudDetector.fraud_score result <= 100)%Q
  /\ (50 <= FraudDetector.confidence result <= 100)%Q
  /\ (FraudDetector.anomaly_features result = []
      <-> FraudDetector.fraud_detected result = false)
  /\ (length (FraudDetector.anomaly_features result) <= 5)%nat
  /\ ~ ("Suspiciously low yield per hectare"
          ∈ FraudDetector.anomaly_features result
        /\ "Unusually high yield per hectare"
             ∈ FraudDetector.anomaly_features result).
Proof.
  destruct (fraud_prepare_features_ok py_float crop_type land_size
              expected_yield claim_amount weather_features historical_claims)
    as (yph & cph & ratio & t & r & h & a & Hok & _).
  intros Hrun. pose proof Hrun as Hrun'.
  unfold FraudDetector.detect in Hrun'. rewrite Hok in Hrun'.
  cbn [Py.bind] in Hrun'.
  destruct (scaled _) as [features_scaled |] eqn:Hscaled; [| discriminate Hrun'].
  cbn [Py.bind] in Hrun'.
  destruct (model_predict features_scaled) as [prediction |] eqn:Hpredict;
    [| discriminate Hrun'].
  cbn [Py.bind] in Hrun'.
  destruct (model_score_samples features_scaled) as [anomaly_score |] eqn:Hscore;
    [| discriminate Hrun'].
  clear Hrun'.
  destruct (detect_ok _ _ _ _ Hok Hscaled Hpredict Hscore)
    as (messages & Hrun2 & Hempty & Hlen & Hexcl).
  rewrite Hrun2 in Hrun. injection Hrun as <-.
  cbn [FraudDetector.fraud_score FraudDetector.confidence
       FraudDetector.anomaly_features FraudDetector.fraud_detected].
  split; [| split; [| repeat split; tauto]].
  - apply (round2_between 0 100).
    pose proof (py_max_min_between 0.0 100.0
                  ((1.0 - (anomaly_score + 1) / 2) * 100)) as H.
    assert (Hle : (0.0 <= 100.0)%Q) by (vm_compute; discriminate).
    destruct (H Hle) as [H1 H2].
    split; [eapply Qle_trans; [| exact H1] | eapply Qle_trans; [exact H2 |]];
      vm_compute; discriminate.
  - apply (round2_between 50 100).
    pose proof (py_max_min_between 50.0 100.0 (Py.abs anomaly_score * 50)) as H.
    assert (Hle : (50.0 <= 100.0)%Q) by (vm_compute; discriminate).
    destruct (H Hle) as [H1 H2].
    split; [eapply Qle_trans; [| exact H1] | eapply Qle_trans; [exact H2 |]];
      vm_compute; discriminate.
Qed.

End DetectFacts.

Lemma detect_result_bounds_witness :
  exists result,
    FraudDetector.detect Py.float_of_decimal None (fun _ => Py.Ok (-1)%Z)
      (fun _ => Py.Ok (-3)%Q) "rice" "2 acre" 20 150000 None 3 None
    = Py.Ok result
    /\ (0 <= FraudDetector.fraud_score result <= 100)%Q
    /\ (50 <= FraudDetector.confidence result <= 100)%Q.
Proof.
  eexists. split; [vm_compute; reflexivity |].
  destruct (detect_result_bounds Py.float_of_decimal None
              (fun _ => Py.Ok (-1)%Z) (fun _ => Py.Ok (-3)%Q)
              "rice" "2 acre" 20 150000 None 3 None _
              ltac:(vm_compute; reflexivity))
    as (Hscore & Hconfidence & _).
  split; assumption.
Defined.

(** ** Land sizes: the parser, its callers and the training pipelines *)

Lemma lower_char_idempotent (c : ascii) :
  Py.lower_char (Py.lower_char c) = Py.lower_char c.
Proof. destruct c as [[] [] [] [] [] [] [] []]; reflexivity. Qed.

Lemma lower_idempotent (s : string) : Py.lower (Py.lower s) = Py.lower s.
Proof.
  induction s as [| c r IH]; [reflexivity |].
  cbn [Py.lower]. now rewrite lower_char_idempotent, IH.
Qed.

(** The table of the inference code is the table of the training code
    with the key [cents] added. *)
Lemma conversion_factors_training :
  Utils.conversion_factors
  = <["cents" := 0.0040%Q]> FeatureEngineer.conversion_factors
  /\ AnomalyFeatureEngineer.conversion_factors
     = FeatureEngineer.conversion_factors
  /\ FeatureEngineer.conversion_factors !! "cents" = None.
Proof. repeat split; vm_compute; reflexivity. Qed.

(** The parser on the tokens of the string. *)
Lemma parse_land_size_cases (py_float : string -> option Q)
    (land_size : string) :
  Utils.parse_land_size py_float land_size
  = match Py.split land_size with
    | token :: word :: _ =>
        match py_float token with
        | Some value => Py.Ok (value, Py.lower word)
        | None => Py.Raise (Utils.invalid_land_size land_size)
        end
    | _ => Py.Raise (Utils.invalid_land_size land_size)
    end.
Proof.
  destruct (Py.split land_size) as [| token [| word rest]] eqn:Hsplit.
  - apply parse_land_size_malformed. left. rewrite Hsplit. cbn. lia.
  - apply parse_land_size_malformed. left. rewrite Hsplit. cbn. lia.
  - destruct (py_float token) as [value |] eqn:Hfloat.
    + now apply (parse_land_size_well_formed _ _ token word rest).
    + apply parse_land_size_malformed. right. exists token.
      now rewrite Hsplit.
Qed.

(** The area the two inference pipelines work with. *)
Lemma pipeline_land_size_cases (py_float : string -> option Q)
    (land_size : string) :
  FraudDetector._parse_land_size py_float land_size
  = match Py.split land_size with
    | token :: word :: _ =>
        match py_float token with
        | Some value => Utils.convert_to_hectares value (Py.lower word)
        | None => 1.0%Q
        end
    | _ => 1.0%Q
    end
  /\ YieldPredictor._parse_land_size py_float land_size
     = FraudDetector._parse_land_size py_float land_size.
Proof.
  split; [| reflexivity].
  unfold FraudDetector._parse_land_size. rewrite parse_land_size_cases.
  destruct (Py.split land_size) as [| token [| word rest]]; try reflexivity.
  now destruct (py_float token).
Qed.

(** The area the two training pipelines work with. *)
Lemma training_land_size_cases (py_float : string -> option Q)
    (land_size : string) :
  FeatureEngineer.parse_land_size py_float land_size
  = match Py.split land_size with
    | token :: word :: _ =>
        match py_float token with
        | Some value =>
            (value * Py.dict_get FeatureEngineer.conversion_factors
                       (Py.lower word) 1.0)%Q
        | None => 1.0%Q
        end
    | _ => 1.0%Q
    end
  /\ AnomalyFeatureEngineer.parse_land_size py_float land_size
     = FeatureEngineer.parse_land_size py_float land_size.
Proof.
  split; [| reflexivity].
  unfold FeatureEngineer.parse_land_size. rewrite split_strip.
  destruct (Py.split land_size) as [| token [| word rest]]; [reflexivity | |];
    cbn [Py.getitem lookup list_lookup Py.bind]; unfold Utils.float;
    now destruct (py_float token).
Qed.

(** X13. [parse_land_size] returns exactly on a string of at least two tokens
    whose first token [float] reads: it returns that number and the
    second token in lower case, whatever follows; any other string makes
    it raise the [ValueError] of the land-size format and nothing else. *)
Theorem parse_land_size_returns_iff (py_float : string -> option Q)
    (land_size : string) :
  (forall value unit,
      Utils.parse_land_size py_float land_size = Py.Ok (value, unit)
      <-> exists token word rest,
            Py.split land_size = token :: word :: rest
            /\ py_float token = Some value /\ unit = Py.lower word)
  /\ (forall e,
        Utils.parse_land_size py_float land_size = Py.Raise e ->
        e = Py.ValueError ("Invalid land size format: " ++ land_size
                             ++ ". Expected format: '5 acre'")
        /\ malformed_land_size py_float land_size).
Proof.
  rewrite parse_land_size_cases. split.
  - intros value unit. split.
    + destruct (Py.split land_size) as [| token [| word rest]];
        [intros [=] | intros [=] |].
      destruct (py_float token) as [v |] eqn:Hfloat; [| intros [=]].
      intros [= <- <-]. now exists token, word, rest.
    + intros (token & word & rest & -> & -> & ->). reflexivity.
  - intros e. unfold malformed_land_size.
    destruct (Py.split land_size) as [| token [| word rest]].
    + intros [= <-]. split; [reflexivity | left; cbn; lia].
    + intros [= <-]. split; [reflexivity | left; cbn; lia].
    + destruct (py_float token) as [v |] eqn:Hfloat; [intros [=] |].
      intros [= <-]. split; [reflexivity | right; now exists token].
Qed.

Lemma parse_land_size_returns_iff_witness :
  Utils.parse_land_size Py.float_of_decimal "  2.5   ACRE of paddy "
  = Py.Ok (2.5%Q, "acre").
Proof.
  apply (proj1 (parse_land_size_returns_iff Py.float_of_decimal
                  "  2.5   ACRE of paddy ")).
  exists "2.5", "ACRE", ["of"; "paddy"]. repeat split; reflexivity.
Defined.

(** X14. The training pipelines and the inference pipelines give a land size
    the same area, one hectare for what they cannot read, unless its unit
    is [cents]. *)
Theorem training_land_size_agrees_with_inference
    (py_float : string -> option Q) (land_size : string) :
  (forall word, Py.split land_size !! 1%nat = Some word ->
                Py.lower word <> "cents") ->
  (FeatureEngineer.parse_land_size py_float land_size
   == FraudDetector._parse_land_size py_float land_size)%Q
  /\ (AnomalyFeatureEngineer.parse_land_size py_float land_size
      == FraudDetector._parse_land_size py_float land_size)%Q
  /\ YieldPredictor._parse_land_size py_float land_size
     = FraudDetector._parse_land_size py_float land_size.
Proof.
  intros Hunit.
  destruct (training_land_size_cases py_float land_size) as [Htrain ->].
  destruct (pipeline_land_size_cases py_float land_size) as [Hpipe ->].
  rewrite Htrain, Hpipe.
  assert (Hsame :
    (match Py.split land_size with
     | token :: word :: _ =>
         match py_float token with
         | Some value =>
             value * Py.dict_get FeatureEngineer.conversion_factors
                       (Py.lower word) 1.0
         | None => 1.0
         end
     | _ => 1.0
     end
     == match Py.split land_size with
        | token :: word :: _ =>
            match py_float token with
            | Some value => Utils.convert_to_hectares value (Py.lower word)
            | None => 1.0
            end
        | _ => 1.0
        end)%Q).
  { destruct (Py.split land_size) as [| token [| word rest]];
      [reflexivity | reflexivity |].
    destruct (py_float token) as [value |]; [| reflexivity].
    unfold Utils.convert_to_hectares, Py.dict_get.
    rewrite lower_idempotent.
    destruct conversion_factors_training as (-> & _ & _).
    rewrite lookup_insert_ne by (intros Heq; now apply (Hunit word)).
    destruct (FeatureEngineer.conversion_factors !! Py.lower word);
      cbn [default from_option id]; [reflexivity | lra]. }
  split; [exact Hsame | split; [exact Hsame | reflexivity]].
Qed.

Lemma training_land_size_agrees_with_inference_witness :
  (FeatureEngineer.parse_land_size Py.float_of_decimal "3 bigha"
   == FraudDetector._parse_land_size Py.float_of_decimal "3 bigha")%Q.
Proof.
  apply (training_land_size_agrees_with_inference Py.float_of_decimal "3 bigha").
  intros word [= <-]. intros Heq. discriminate Heq.
Defined.

(** X15. A land size in [cents] is where they part: training reads the number
    as hectares, inference as hundredths of an acre. *)
Theorem training_reads_cents_as_hectares
    (py_float : string -> option Q) (land_size token word : string)
    (rest : list string) (value : Q) :
  Py.split land_size = token :: word :: rest ->
  py_float token = Some value ->
  Py.lower word = "cents" ->
  (FeatureEngineer.parse_land_size py_float land_size == value)%Q
  /\ (AnomalyFeatureEngineer.parse_land_size py_float land_size == value)%Q
  /\ (FraudDetector._parse_land_size py_float land_size == value * 0.004)%Q
  /\ (YieldPredictor._parse_land_size py_float land_size == value * 0.004)%Q.
Proof.
  intros Hsplit Hfloat Hword.
  destruct (training_land_size_cases py_float land_size) as [Htrain ->].
  destruct (pipeline_land_size_cases py_float land_size) as [Hpipe ->].
  rewrite Htrain, Hpipe, Hsplit, Hfloat, Hword.
  change (Py.dict_get FeatureEngineer.conversion_factors "cents" 1.0%Q)
    with 1.0%Q.
  change (Utils.convert_to_hectares value "cents") with (value * 0.0040)%Q.
  repeat split; lra.
Qed.

Lemma training_reads_cents_as_hectares_witness :
  (FeatureEngineer.parse_land_size Py.float_of_decimal "50 Cents" == 50)%Q
  /\ (FraudDetector._parse_land_size Py.float_of_decimal "50 Cents" == 0.2)%Q.
Proof.
  destruct (training_reads_cents_as_hectares Py.float_of_decimal "50 Cents"
              "50" "Cents" [] 50 eq_refl eq_refl eq_refl)
    as (Htrain & _ & Hfraud & _).
  split; [exact Htrain |]. rewrite Hfraud. reflexivity.
Defined.

(** ** The weather record and the yield per acre *)

(** X16. [extract_weather_features] on any dict of values.  When it
    returns, the record has the five keys of the defaults and no other,
    and under each of them what [float] makes of the value given, or the
    default where the input has none, is [None] or is empty.  When it
    raises, the exception is that of [float] on the first key, in the
    order of the defaults, whose value [float] does not read.  It
    returns whenever [float] reads the value of each of the five
    keys. *)
Theorem extract_weather_features_values (py_float : string -> option Q)
    (weather_data : option (gmap string Py.value)) :
  (forall features,
      Utils.extract_weather_features py_float weather_data = Py.Ok features ->
      dom features
      = ({["temperature"; "rainfall"; "humidity"; "wind_speed";
           "sunshine_hours"]} : gset string)
      /\ forall key default_value,
           Utils.default_features !! key = Some default_value ->
           exists x,
             Utils.float_of_value py_float
               (weather_value weather_data key default_value) = Py.Ok x
             /\ features !! key = Some x)
  /\ (forall e,
        Utils.extract_weather_features py_float weather_data = Py.Raise e ->
        exists before key default_value after,
          Utils.default_items = (before ++ (key, default_value) :: after)%list
          /\ Utils.float_of_value py_float
               (weather_value weather_data key default_value) = Py.Raise e
          /\ forall key' default_value',
               (key', default_value') ∈ before ->
               Py.is_ok (Utils.float_of_value py_float
                           (weather_value weather_data key' default_value'))
               = true)
  /\ ((forall key default_value,
          Utils.default_features !! key = Some default_value ->
          Py.is_ok (Utils.float_of_value py_float
                      (weather_value weather_data key default_value)) = true) ->
      Py.is_ok (Utils.extract_weather_features py_float weather_data) = true).
Proof.
  assert (Hdefaults : forall key d,
    Utils.default_features !! key = Some d ->
    exists x, Utils.float_of_value py_float (Py.VFloat d) = Py.Ok x
              /\ Utils.default_features !! key = Some x).
  { intros key d Hd. exists d. now split. }
  unfold Utils.extract_weather_features.
  destruct weather_data as [given |].
  - case_bool_decide as Hempty.
    + subst given. split; [| split].
      * intros features [= <-]. split; [reflexivity |].
        intros key d Hd. unfold weather_value, Py.dict_get.
        rewrite lookup_empty. now apply Hdefaults.
      * intros e H. discriminate H.
      * reflexivity.
    + unfold Utils.default_items. cbn [Utils.extract_items weather_value].
      destruct (Utils.float_of_value py_float
                  (Py.dict_get given "temperature" (Py.VFloat 25.0)))
        as [x1 | e1] eqn:H1; cbn [Py.bind];
        [destruct (Utils.float_of_value py_float
                     (Py.dict_get given "rainfall" (Py.VFloat 0.0)))
           as [x2 | e2] eqn:H2; cbn [Py.bind];
         [destruct (Utils.float_of_value py_float
                      (Py.dict_get given "humidity" (Py.VFloat 60.0)))
            as [x3 | e3] eqn:H3; cbn [Py.bind];
          [destruct (Utils.float_of_value py_float
                       (Py.dict_get given "wind_speed" (Py.VFloat 5.0)))
             as [x4 | e4] eqn:H4; cbn [Py.bind];
           [destruct (Utils.float_of_value py_float
                        (Py.dict_get given "sunshine_hours" (Py.VFloat 8.0)))
              as [x5 | e5] eqn:H5; cbn [Py.bind] | ] | ] | ] | ].
      * split; [| split; [intros e H; discriminate H | reflexivity]].
        intros features [= <-]. split; [reflexivity |].
        intros key d Hd.
        pose proof (default_features_keys _ _ Hd) as Hkey.
        repeat (apply elem_of_cons in Hkey as [-> | Hkey];
                [injection Hd as <-; eexists; split; [eassumption | reflexivity] |]).
        now apply elem_of_nil in Hkey.
      * split; [intros features H; discriminate H |]. split.
        -- intros e [= <-].
           exists [("temperature", 25.0%Q); ("rainfall", 0.0%Q);
                   ("humidity", 60.0%Q); ("wind_speed", 5.0%Q)],
                  "sunshine_hours", 8.0%Q, [].
           split; [reflexivity |]. split; [exact H5 |].
           intros k d Hk.
           repeat (apply elem_of_cons in Hk as [[= -> ->] | Hk];
                   [first [now rewrite H1 | now rewrite H2 | now rewrite H3
                          | now rewrite H4] |]).
           now apply elem_of_nil in Hk.
        -- intros Hall. specialize (Hall "sunshine_hours" 8.0%Q eq_refl).
           cbn [weather_value] in Hall. rewrite H5 in Hall. discriminate Hall.
      * split; [intros features H; discriminate H |]. split.
        -- intros e [= <-].
           exists [("temperature", 25.0%Q); ("rainfall", 0.0%Q);
                   ("humidity", 60.0%Q)],
                  "wind_speed", 5.0%Q, [("sunshine_hours", 8.0%Q)].
           split; [reflexivity |]. split; [exact H4 |].
           intros k d Hk.
           repeat (apply elem_of_cons in Hk as [[= -> ->] | Hk];
                   [first [now rewrite H1 | now rewrite H2 | now rewrite H3] |]).
           now apply elem_of_nil in Hk.
        -- intros Hall. specialize (Hall "wind_speed" 5.0%Q eq_refl).
           cbn [weather_value] in Hall. rewrite H4 in Hall. discriminate Hall.
      * split; [intros features H; discriminate H |]. split.
        -- intros e [= <-].
           exists [("temperature", 25.0%Q); ("rainfall", 0.0%Q)],
                  "humidity", 60.0%Q,
                  [("wind_speed", 5.0%Q); ("sunshine_hours", 8.0%Q)].
           split; [reflexivity |]. split; [exact H3 |].
           intros k d Hk.
           repeat (apply elem_of_cons in Hk as [[= -> ->] | Hk];
                   [first [now rewrite H1 | now rewrite H2] |]).
           now apply elem_of_nil in Hk.
        -- intros Hall. specialize (Hall "humidity" 60.0%Q eq_refl).
           cbn [weather_value] in Hall. rewrite H3 in Hall. discriminate Hall.
      * split; [intros features H; discriminate H |]. split.
        -- intros e [= <-].
           exists [("temperature", 25.0%Q)], "rainfall", 0.0%Q,
                  [("humidity", 60.0%Q); ("wind_speed", 5.0%Q);
                   ("sunshine_hours", 8.0%Q)].
           split; [reflexivity |]. split; [exact H2 |].
           intros k d Hk.
           repeat (apply elem_of_cons in Hk as [[= -> ->] | Hk];
                   [now rewrite H1 |]).
           now apply elem_of_nil in Hk.
        -- intros Hall. specialize (Hall "rainfall" 0.0%Q eq_refl).
           cbn [weather_value] in Hall. rewrite H2 in Hall. discriminate Hall.
      * split; [intros features H; discriminate H |]. split.
        -- intros e [= <-].
           exists [], "temperature", 25.0%Q,
                  [("rainfall", 0.0%Q); ("humidity", 60.0%Q);
                   ("wind_speed", 5.0%Q); ("sunshine_hours", 8.0%Q)].
           split; [reflexivity |]. split; [exact H1 |].
           intros k d Hk. now apply elem_of_nil in Hk.
        -- intros Hall. specialize (Hall "temperature" 25.0%Q eq_refl).
           cbn [weather_value] in Hall. rewrite H1 in Hall. discriminate Hall.
  - split; [| split].
    + intros features [= <-]. split; [reflexivity |].
      intros key d Hd. now apply Hdefaults.
    + intros e H. discriminate H.
    + reflexivity.
Qed.

Lemma extract_weather_features_values_witness :
  exists features x,
    Utils.extract_weather_features Py.float_of_decimal
      (Some (list_to_map [("rainfall", Py.VStr "120"); ("station", Py.VList)]))
    = Py.Ok features
    /\ Utils.float_of_value Py.float_of_decimal (Py.VStr "120") = Py.Ok x
    /\ features !! "rainfall" = Some x
    /\ features !! "station" = None.
Proof.
  destruct (extract_weather_features_values Py.float_of_decimal
              (Some (list_to_map
                       [("rainfall", Py.VStr "120"); ("station", Py.VList)])))
    as (Hreturns & _ & Htotal).
  assert (Hok :
    Py.is_ok (Utils.extract_weather_features Py.float_of_decimal
                (Some (list_to_map
                         [("rainfall", Py.VStr "120"); ("station", Py.VList)])))
    = true).
  { apply Htotal. intros key d Hd.
    pose proof (default_features_keys _ _ Hd) as Hkey.
    repeat (apply elem_of_cons in Hkey as [-> | Hkey];
            [injection Hd as <-; vm_compute; reflexivity |]).
    now apply elem_of_nil in Hkey. }
  destruct (Utils.extract_weather_features Py.float_of_decimal _)
    as [features | e]; [| discriminate Hok].
  destruct (Hreturns features eq_refl) as [Hdom Hvalues].
  destruct (Hvalues "rainfall" 0.0%Q eq_refl) as (x & Hx & Hlookup).
  exists features, x. split; [reflexivity |]. split; [exact Hx |].
  split; [exact Hlookup |].
  apply not_elem_of_dom. rewrite Hdom. by_computation.
Defined.

Section YieldPerAcreFacts.

Variable py_float : string -> option Q.

(** What is computed when the land size is read. *)
Lemma calculate_yield_per_acre_read (predicted_yield : Q)
    (land_size token word : string) (rest : list string) (value : Q) :
  Py.split land_size = token :: word :: rest ->
  py_float token = Some value ->
  Utils.calculate_yield_per_acre py_float predicted_yield land_size
  = let area_acres :=
      (Utils.convert_to_hectares value (Py.lower word) / 0.404686)%Q in
    if Qle_bool area_acres 0 then 0.0%Q
    else if Qeq_bool area_acres 0 then 0.0%Q
    else (predicted_yield / area_acres)%Q.
Proof.
  intros Hsplit Hfloat. unfold Utils.calculate_yield_per_acre.
  rewrite (parse_land_size_well_formed _ _ _ _ _ _ Hsplit Hfloat).
  cbn [Py.bind]. cbv zeta.
  destruct (Qle_bool _ 0); [reflexivity |].
  unfold Py.truediv. now destruct (Qeq_bool _ 0).
Qed.

(** X17. [calculate_yield_per_acre] answers 0.0 for a land size that
    cannot be read, where the parser raises, and a yield that is not
    negative gives a result that is not negative. *)
Theorem calculate_yield_per_acre_sign (predicted_yield : Q)
    (land_size : string) :
  (malformed_land_size py_float land_size ->
   Utils.calculate_yield_per_acre py_float predicted_yield land_size = 0.0%Q)
  /\ ((0 <= predicted_yield)%Q ->
      (0 <= Utils.calculate_yield_per_acre py_float predicted_yield land_size)%Q).
Proof.
  split.
  - intros Hbad. unfold Utils.calculate_yield_per_acre.
    now rewrite (parse_land_size_malformed _ _ Hbad).
  - intros Hyield. unfold Utils.calculate_yield_per_acre.
    destruct (Utils.parse_land_size py_float land_size) as [[value unit] | e];
      cbn [Py.bind]; [| vm_compute; discriminate].
    destruct (Qle_bool _ 0) eqn:Harea; [vm_compute; discriminate |].
    unfold Py.truediv. destruct (Qeq_bool _ 0); [vm_compute; discriminate |].
    assert (Hpos : (0 < Utils.convert_to_hectares value unit / 0.404686)%Q).
    { apply Qnot_le_lt. intros Hle. apply Qle_bool_iff in Hle.
      rewrite Hle in Harea. discriminate Harea. }
    apply Qle_shift_div_l; [exact Hpos |]. lra.
Qed.

(** X18. For a land size in acres of a positive number, the yield per acre is
    the yield divided by that number. *)
Theorem calculate_yield_per_acre_of_acres (predicted_yield : Q)
    (land_size token word : string) (rest : list string) (value : Q) :
  Py.split land_size = token :: word :: rest ->
  py_float token = Some value ->
  Py.lower word = "acre" ->
  (0 < value)%Q ->
  (Utils.calculate_yield_per_acre py_float predicted_yield land_size
   == predicted_yield / value)%Q.
Proof.
  intros Hsplit Hfloat Hword Hpos.
  rewrite (calculate_yield_per_acre_read _ _ _ _ _ _ Hsplit Hfloat), Hword.
  change (Utils.convert_to_hectares value "acre")
    with (value * 0.404686)%Q.
  cbv zeta.
  assert (Harea : (value * 0.404686 / 0.404686 == value)%Q) by (field; lra).
  destruct (Qle_bool _ 0) eqn:Hle.
  { apply Qle_bool_iff in Hle. rewrite Harea in Hle. lra. }
  destruct (Qeq_bool _ 0) eqn:Heq.
  { apply Qeq_bool_eq in Heq. rewrite Harea in Heq. lra. }
  now rewrite Harea.
Qed.

End YieldPerAcreFacts.

Lemma calculate_yield_per_acre_sign_witness :
  Utils.calculate_yield_per_acre Py.float_of_decimal 40 "five acres" = 0.0%Q
  /\ (0 <= Utils.calculate_yield_per_acre Py.float_of_decimal 40 "2 hectare")%Q.
Proof.
  destruct (calculate_yield_per_acre_sign Py.float_of_decimal 40 "five acres")
    as [Hbad _].
  destruct (calculate_yield_per_acre_sign Py.float_of_decimal 40 "2 hectare")
    as [_ Hsign].
  split.
  - apply Hbad. right. exists "five". split; reflexivity.
  - apply Hsign. vm_compute. discriminate.
Defined.

Lemma calculate_yield_per_acre_of_acres_witness :
  (Utils.calculate_yield_per_acre Py.float_of_decimal 40 "2.5 Acre" == 16)%Q.
Proof.
  rewrite (calculate_yield_per_acre_of_acres Py.float_of_decimal 40 "2.5 Acre"
             "2.5" "Acre" [] 2.5%Q eq_refl eq_refl eq_refl);
    [reflexivity | vm_compute; reflexivity].
Defined.

(** ** Hashes of any length: similarity and the duplicate check *)

Lemma hamming_zip_bounds (bin1 : string) :
  forall bin2,
    (0 <= ImageVerifier.hamming_zip bin1 bin2 <= Z.of_nat (String.length bin1))%Z.
Proof.
  induction bin1 as [| c1 r1 IH]; intros [| c2 r2];
    cbn [ImageVerifier.hamming_zip String.length]; try lia.
  specialize (IH r2). destruct (Ascii.eqb c1 c2); lia.
Qed.

Lemma string_length_app (s1 s2 : string) :
  String.length (s1 ++ s2) = (String.length s1 + String.length s2)%nat.
Proof.
  induction s1 as [| c r IH]; [reflexivity |].
  change (S (String.length (r ++ s2))
          = S (String.length r + String.length s2)).
  now rewrite IH.
Qed.

Lemma length_zeros (k : nat) : String.length (Py.zeros k) = k.
Proof. induction k as [| k IH]; cbn; [reflexivity | now rewrite IH]. Qed.

Lemma length_zfill (width : nat) (s : string) :
  (width <= String.length (Py.zfill width s))%nat.
Proof.
  unfold Py.zfill. destruct s as [| c r].
  - rewrite length_zeros. cbn. lia.
  - destruct (Ascii.eqb c "+" || Ascii.eqb c "-");
      cbn [String.length]; rewrite string_length_app, length_zeros;
      cbn [String.length]; lia.
Qed.

Lemma hash_similarity_bounds (hash1 hash2 : string) :
  (0 <= ImageVerifier._hash_similarity hash1 hash2 <= 1)%Q.
Proof.
  unfold ImageVerifier._hash_similarity.
  destruct (Py.int16 hash1) as [n1 | e1]; cbn [Py.bind];
    [| split; vm_compute; discriminate].
  destruct (Py.int16 hash2) as [n2 | e2]; cbn [Py.bind];
    [| split; vm_compute; discriminate].
  set (bin1 := Py.zfill 64 (Py.slice_from 2 (Py.bin n1))).
  set (bin2 := Py.zfill 64 (Py.slice_from 2 (Py.bin n2))).
  pose proof (hamming_zip_bounds bin1 bin2) as [Hlo Hhi].
  pose proof (length_zfill 64 (Py.slice_from 2 (Py.bin n1))) as Hlen.
  fold bin1 in Hlen.
  assert (Hpos : (0 < inject_Z (Z.of_nat (String.length bin1)))%Q).
  { change 0%Q with (inject_Z 0). rewrite <- Zlt_Qlt. lia. }
  rewrite truediv_pos by now apply Qlt_bool_iff.
  cbn [Py.bind].
  assert (Hratio :
    (0 <= inject_Z (ImageVerifier.hamming_zip bin1 bin2)
          / inject_Z (Z.of_nat (String.length bin1)) <= 1)%Q).
  { split.
    - apply Qle_shift_div_l; [exact Hpos |]. rewrite Qmult_0_l.
      change 0%Q with (inject_Z 0). now rewrite <- Zle_Qle.
    - apply Qle_shift_div_r; [exact Hpos |]. rewrite Qmult_1_l.
      now rewrite <- Zle_Qle. }
  lra.
Qed.

(** X19. The similarity of two hash strings, whatever they are, lies between
    0 and 1, and is 0.0 when one of them is no hexadecimal numeral. *)
Theorem hash_similarity_range (hash1 hash2 : string) :
  (0 <= ImageVerifier._hash_similarity hash1 hash2 <= 1)%Q
  /\ (Py.is_ok (Py.int16 hash1) && Py.is_ok (Py.int16 hash2) = false ->
      ImageVerifier._hash_similarity hash1 hash2 = 0.0%Q).
Proof.
  split; [apply hash_similarity_bounds |].
  unfold ImageVerifier._hash_similarity.
  destruct (Py.int16 hash1) as [n1 | e1]; cbn [Py.bind Py.is_ok andb];
    [| reflexivity].
  destruct (Py.int16 hash2) as [n2 | e2]; cbn [Py.bind Py.is_ok andb];
    [| reflexivity].
  intros H. discriminate H.
Qed.

(** The spellings that [int] reads count as hashes: a prefix, blanks and
    a sign do not make a hash invalid. *)
Example hash_similarity_reads_what_int_reads :
  (ImageVerifier._hash_similarity "0x1" "1" == 1)%Q
  /\ (ImageVerifier._hash_similarity " 1_0 " "+10" == 1)%Q
  /\ ImageVerifier._hash_similarity "1__0" "10" = 0.0%Q.
Proof. repeat split; vm_compute; reflexivity. Qed.

Lemma hash_similarity_range_witness :
  ImageVerifier._hash_similarity "00ff" "not a hash" = 0.0%Q.
Proof.
  apply (hash_similarity_range "00ff" "not a hash"). reflexivity.
Defined.

Lemma popcount_zero (n : Z) : (0 <= n)%Z -> popcount n = 0%Z -> n = 0%Z.
Proof.
  intros Hn Hcount. destruct n as [| p | p]; [reflexivity | | lia].
  exfalso. cbn [popcount] in Hcount.
  assert (Hpos : forall q, (1 <= popcount_pos q)%Z).
  { induction q; cbn [popcount_pos]; lia. }
  specialize (Hpos p). lia.
Qed.

(** X20. On 64-bit hashes the similarity is symmetric, and it is 1 for the
    same value only: two hashes of different values are at most 63/64
    alike. *)
Theorem hash_similarity_64_symmetric (hash1 hash2 : string) (a b : Z) :
  is_hash64 hash1 a -> is_hash64 hash2 b ->
  (ImageVerifier._hash_similarity hash1 hash2
   == ImageVerifier._hash_similarity hash2 hash1)%Q
  /\ (a = b -> (ImageVerifier._hash_similarity hash1 hash2 == 1)%Q)
  /\ (a <> b ->
      (ImageVerifier._hash_similarity hash1 hash2 <= 63 # 64)%Q).
Proof.
  intros H1 H2.
  rewrite (hash_similarity_64 _ _ _ _ H1 H2), (hash_similarity_64 _ _ _ _ H2 H1).
  unfold normalized_similarity, hamming_distance.
  destruct H1 as [_ Ha], H2 as [_ Hb].
  split; [now rewrite Z.lxor_comm | split].
  - intros ->. rewrite Z.lxor_nilpotent. reflexivity.
  - intros Hne.
    assert (Hcount : (1 <= popcount (Z.lxor a b))%Z).
    { assert (Hnonneg : (0 <= Z.lxor a b)%Z) by (apply Z.lxor_nonneg; lia).
      pose proof (hamming_distance_bounds a b Ha Hb) as Hbounds.
      unfold hamming_distance in Hbounds.
      destruct (Z.eq_dec (popcount (Z.lxor a b)) 0%Z) as [Hzero | Hnz]; [| lia].
      apply popcount_zero in Hzero; [| exact Hnonneg].
      apply Z.lxor_eq in Hzero. contradiction. }
    assert (Hq : (1 <= inject_Z (popcount (Z.lxor a b)))%Q).
    { change 1%Q with (inject_Z 1). now rewrite <- Zle_Qle. }
    unfold Qdiv. change (/ 64)%Q with (1 # 64)%Q.
    lra.
Qed.

Lemma hash_similarity_64_symmetric_witness :
  (ImageVerifier._hash_similarity "ff00" "ff01" <= 63 # 64)%Q.
Proof.
  apply (hash_similarity_64_symmetric "ff00" "ff01" 65280 65281).
  - split; [reflexivity | lia].
  - split; [reflexivity | lia].
  - lia.
Defined.

(** The greatest similarity that the duplicate check finds. *)
Lemma check_duplicate_max_similarity (image_hashes : gset string)
    (image_hash : string) :
  let m := foldl (fun max_similarity stored_hash =>
                    Py.max max_similarity
                      (ImageVerifier._hash_similarity image_hash stored_hash))
                 0.0%Q (elements image_hashes) in
  (0 <= m <= 1)%Q
  /\ (forall s, s ∈ image_hashes ->
                (ImageVerifier._hash_similarity image_hash s <= m)%Q)
  /\ (image_hashes <> ∅ ->
      exists s, s ∈ image_hashes
                /\ (m <= ImageVerifier._hash_similarity image_hash s)%Q).
Proof.
  cbv zeta.
  pose proof (foldl_max_upper (ImageVerifier._hash_similarity image_hash)
                (elements image_hashes) 0.0%Q) as [Hinit Hupper].
  pose proof (foldl_max_attained (ImageVerifier._hash_similarity image_hash)
                (elements image_hashes) 0.0%Q) as Hattained.
  set (m := foldl _ _ _) in *.
  assert (Hzero : (0.0 == 0)%Q) by reflexivity.
  split; [split; [lra |] | split].
  - destruct Hattained as [-> | (s & _ & ->)]; [lra |].
    apply hash_similarity_bounds.
  - intros s Hs. apply Hupper. now apply elem_of_elements.
  - intros Hempty. destruct Hattained as [Hm | (s & Hs & Hm)].
    + apply set_choose_L in Hempty as [s Hs]. exists s. split; [exact Hs |].
      rewrite Hm. pose proof (hash_similarity_bounds image_hash s). lra.
    + exists s. split; [now apply elem_of_elements |].
      rewrite Hm. apply Qle_refl.
Qed.

Lemma check_duplicate_confidence_bounds (image_hashes : gset string)
    (image_hash : string) (threshold : Q) :
  (0 <= snd (ImageVerifier._check_duplicate image_hashes image_hash threshold)
     <= 100)%Q.
Proof.
  unfold ImageVerifier._check_duplicate.
  case_bool_decide; [split; vm_compute; discriminate |].
  case_bool_decide; [split; vm_compute; discriminate |].
  cbn [snd].
  pose proof (check_duplicate_max_similarity image_hashes image_hash)
    as [Hrange _].
  cbv zeta in Hrange. lra.
Qed.

(** X21. The duplicate check on any hashes and any threshold: the confidence
    lies between 0 and 100, and on a store that is not empty the image
    is a duplicate exactly when its hash is stored or some stored hash
    is as similar as the threshold asks. *)
Theorem check_duplicate_any_hashes (image_hashes : gset string)
    (image_hash : string) (threshold : Q) :
  (0 <= snd (ImageVerifier._check_duplicate image_hashes image_hash threshold)
     <= 100)%Q
  /\ (image_hashes <> ∅ ->
      (fst (ImageVerifier._check_duplicate image_hashes image_hash threshold)
       = true
       <-> image_hash ∈ image_hashes
           \/ exists stored_hash,
                stored_hash ∈ image_hashes
                /\ (threshold
                    <= ImageVerifier._hash_similarity image_hash stored_hash)%Q)).
Proof.
  split; [apply check_duplicate_confidence_bounds |].
  intros Hempty. unfold ImageVerifier._check_duplicate.
  case_bool_decide; [contradiction |].
  case_bool_decide as Hmember; [cbn [fst]; tauto |].
  cbn [fst].
  pose proof (check_duplicate_max_similarity image_hashes image_hash)
    as (_ & Hupper & Hattained).
  cbv zeta in Hupper, Hattained.
  rewrite Qle_bool_iff. split.
  - intros Hle. right. destruct (Hattained Hempty) as (s & Hs & Hm).
    exists s. split; [exact Hs |]. now apply Qle_trans with (2 := Hm).
  - intros [Hin | (s & Hs & Hle)]; [contradiction |].
    eapply Qle_trans; [exact Hle |]. now apply Hupper.
Qed.

Lemma check_duplicate_any_hashes_witness :
  fst (ImageVerifier._check_duplicate {[ "ffffffffffffffff" ]}
         "fffffffffffffffe" 0.95%Q) = true.
Proof.
  apply (check_duplicate_any_hashes {[ "ffffffffffffffff" ]}
           "fffffffffffffffe" 0.95%Q).
  - intros Hempty. apply (f_equal size) in Hempty. vm_compute in Hempty.
    discriminate Hempty.
  - right. exists "ffffffffffffffff". split; [now apply elem_of_singleton |].
    vm_compute. discriminate.
Defined.

(** ** Image verification: failures and the store of hashes *)

Section VerifyStore.

Variable image : Type.
Variable path_exists : string -> bool.
Variable _preprocess_image : string -> Py.result image.
Variable damage_classifier_predict : image -> Py.result Q.
Variable _compute_image_hash : string -> Py.result string.

Abbreviation run_verify :=
  (ImageVerifier.verify image path_exists _preprocess_image
     damage_classifier_predict _compute_image_hash).

(** X22. [verify] fails exactly when the file is missing, with
    [FileNotFoundError] and before anything is called, or when
    preprocessing, the classifier or hashing fails, in this order and
    with their exception. *)
Theorem verify_fails_iff (image_hashes : gset string) (image_path : string)
    (e : Py.exn) :
  fst (run_verify image_hashes image_path) = Py.Raise e
  <-> (path_exists image_path = false
       /\ e = Py.FileNotFoundError ("Image not found: " ++ image_path))
      \/ (path_exists image_path = true
          /\ (_preprocess_image image_path = Py.Raise e
              \/ exists img,
                   _preprocess_image image_path = Py.Ok img
                   /\ (damage_classifier_predict img = Py.Raise e
                       \/ (Py.is_ok (damage_classifier_predict img) = true
                           /\ _compute_image_hash image_path = Py.Raise e)))).
Proof.
  unfold ImageVerifier.verify.
  destruct (path_exists image_path); cbn [negb fst].
  - destruct (_preprocess_image image_path) as [img | e1]; cbn [Py.bind fst].
    + destruct (damage_classifier_predict img) as [p | e2] eqn:Hpredict;
        cbn [Py.bind fst].
      * destruct (_compute_image_hash image_path) as [h | e3];
          cbn [Py.bind fst].
        -- destruct (ImageVerifier._check_duplicate image_hashes h
                       ImageVerifier.default_threshold) as [dup conf].
           cbn [fst]. split; [intros [=] |].
           intros [[Hf _] | [_ [Hp | (img' & [= <-] & [Hc | [_ Hh]])]]];
             try discriminate.
           rewrite Hpredict in Hc. discriminate Hc.
        -- split.
           ++ intros [= ->]. right. split; [reflexivity |]. right.
              exists img. split; [reflexivity |]. right.
              rewrite Hpredict. now split.
           ++ intros [[Hf _] | [_ [Hp | (img' & [= <-] & [Hc | [_ Hh]])]]];
                try discriminate.
              ** rewrite Hpredict in Hc. discriminate Hc.
              ** now injection Hh as ->.
      * split.
        -- intros [= ->]. right. split; [reflexivity |]. right.
           exists img. split; [reflexivity |]. now left.
        -- intros [[Hf _] | [_ [Hp | (img' & [= <-] & [Hc | [Hok _]])]]];
             try discriminate.
           ++ rewrite Hpredict in Hc. now injection Hc as ->.
           ++ rewrite Hpredict in Hok. discriminate Hok.
    + split.
      * intros [= ->]. right. split; [reflexivity |]. now left.
      * intros [[Hf _] | [_ [Hp | (img' & Himg & _)]]]; try discriminate.
        now injection Hp as ->.
  - split.
    + intros [= <-]. left. now split.
    + intros [[_ ->] | [Hf _]]; [reflexivity | discriminate Hf].
Qed.

(** X23. The store of hashes only grows, and by the hash computed for the
    verified image at most: a failure and a duplicate leave it as it was.  The
    duplicate confidence reported lies between 0 and 100, and on an
    empty store no image is a duplicate. *)
Theorem verify_store_only_grows (image_hashes image_hashes' : gset string)
    (image_path : string) (outcome : Py.result ImageVerifier.verify_result) :
  run_verify image_hashes image_path = (outcome, image_hashes') ->
  image_hashes ⊆ image_hashes'
  /\ match outcome with
     | Py.Raise _ => image_hashes' = image_hashes
     | Py.Ok r =>
         _compute_image_hash image_path = Py.Ok (ImageVerifier.image_hash r)
         /\ image_hashes' ⊆ {[ ImageVerifier.image_hash r ]} ∪ image_hashes
         /\ (ImageVerifier.is_duplicate r = true ->
             image_hashes' = image_hashes)
         /\ (0 <= ImageVerifier.duplicate_confidence r <= 100)%Q
         /\ (image_hashes = ∅ ->
             ImageVerifier.is_duplicate r = false
             /\ image_hashes' = {[ ImageVerifier.image_hash r ]})
     end.
Proof.
  intros Hrun. destruct outcome as [r | e].
  - destruct (verify_ok_inv _ _ _ _ _ _ _ _ _ Hrun)
      as (img & p & _ & _ & _ & Hhash & _ & Hdup & Hconf & Hset).
    split; [rewrite Hset; destruct (ImageVerifier.is_duplicate r); set_solver |].
    split; [exact Hhash |].
    split; [rewrite Hset; destruct (ImageVerifier.is_duplicate r); set_solver |].
    split; [intros Hd; now rewrite Hd in Hset |].
    split.
    + rewrite Hconf. apply (round2_between 0 100).
      apply check_duplicate_confidence_bounds.
    + intros ->. rewrite check_duplicate_empty in Hdup. cbn [fst] in Hdup.
      rewrite Hdup in Hset. split; [exact Hdup |].
      rewrite Hset. apply (right_id_L ∅ (∪)).
  - rewrite (verify_raise_keeps_hashes _ _ _ _ _ _ _ _ _ Hrun).
    split; reflexivity.
Qed.

End VerifyStore.

Lemma verify_fails_iff_witness :
  fst (ImageVerifier.verify unit (fun _ => false) (fun _ => Py.Ok tt)
         (fun _ => Py.Ok 0.8%Q) (fun _ => Py.Ok "ffffffffffffffff")
         ∅ "missing.jpg")
  = Py.Raise (Py.FileNotFoundError "Image not found: missing.jpg").
Proof.
  apply (verify_fails_iff unit (fun _ => false) (fun _ => Py.Ok tt)
           (fun _ => Py.Ok 0.8%Q) (fun _ => Py.Ok "ffffffffffffffff")
           ∅ "missing.jpg").
  left. split; reflexivity.
Defined.

Lemma verify_store_only_grows_witness :
  exists r image_hashes',
    sample_verify {[ "fffffffffffffffe" ]} "damaged1.jpg"
    = (Py.Ok r, image_hashes')
    /\ image_hashes' = {[ "fffffffffffffffe" ]}
    /\ (0 <= ImageVerifier.duplicate_confidence r <= 100)%Q.
Proof.
  destruct (sample_verify {[ "fffffffffffffffe" ]} "damaged1.jpg")
    as [outcome image_hashes'] eqn:Hrun.
  pose proof (verify_store_only_grows unit (fun _ => true) (fun _ => Py.Ok tt)
                (fun _ => Py.Ok 0.8%Q) (fun _ => Py.Ok "ffffffffffffffff")
                {[ "fffffffffffffffe" ]} image_hashes' "damaged1.jpg" outcome
                Hrun) as [_ Hstore].
  destruct outcome as [r | e].
  - destruct Hstore as (_ & _ & Hdup & Hconf & _).
    exists r, image_hashes'. split; [reflexivity |]. split; [| exact Hconf].
    apply Hdup.
    apply (f_equal fst) in Hrun. vm_compute in Hrun.
    injection Hrun as <-. reflexivity.
  - apply (f_equal fst) in Hrun. vm_compute in Hrun. discriminate Hrun.
Defined.

(** ** The average hash *)

Lemma join_bit_strings (bits : list bool) :
  Py.join "" (map (fun bit : bool => if bit then "1" else "0") bits)
  = bits_string bits.
Proof.
  induction bits as [| b rest IH]; [reflexivity |].
  destruct rest as [| b2 rest].
  - now destruct b.
  - change (Py.join "" (map (fun bit : bool => if bit then "1" else "0")
                          (b :: b2 :: rest)))
      with ((if b then "1" else "0") ++ ""
            ++ Py.join "" (map (fun bit : bool => if bit then "1" else "0")
                             (b2 :: rest))).
    rewrite IH. now destruct b.
Qed.

Lemma int2_from_bits (bits : list bool) :
  forall acc,
    Py.int2_from acc (bits_string bits)
    = Some (acc * 2 ^ Z.of_nat (length bits) + bits_value bits)%Z.
Proof.
  induction bits as [| b rest IH]; intros acc.
  - cbn. f_equal. lia.
  - change (bits_string (b :: rest))
      with (String (bit_char b) (bits_string rest)).
    cbn [Py.int2_from].
    replace (Py.bin_digit_of (bit_char b)) with (Some (Z.b2z b))
      by now destruct b.
    rewrite IH. f_equal. cbn [length bits_value].
    rewrite Nat2Z.inj_succ, Z.pow_succ_r by lia. ring.
Qed.

Lemma bits_value_bounds (bits : list bool) :
  (0 <= bits_value bits < 2 ^ Z.of_nat (length bits))%Z.
Proof.
  induction bits as [| b rest IH]; cbn [bits_value length]; [cbn; lia |].
  rewrite Nat2Z.inj_succ, Z.pow_succ_r by lia.
  destruct b; cbn [Z.b2z]; lia.
Qed.

Lemma bits_value_testbit (bits : list bool) :
  forall (i : nat) (b : bool),
    bits !! i = Some b ->
    Z.testbit (bits_value bits) (Z.of_nat (length bits - 1 - i)) = b.
Proof.
  induction bits as [| b0 rest IH]; intros i b Hi; [discriminate Hi |].
  pose proof (bits_value_bounds rest) as Hrest.
  cbn [bits_value length].
  assert (Hpow : (0 < 2 ^ Z.of_nat (length rest))%Z)
    by (apply Z.pow_pos_nonneg; lia).
  destruct i as [| i].
  - injection Hi as ->.
    replace (S (length rest) - 1 - 0)%nat with (length rest) by lia.
    rewrite <- (Z.add_0_l (Z.of_nat (length rest))).
    rewrite <- Z.div_pow2_bits by lia.
    rewrite Z.div_add_l by lia.
    rewrite Z.div_small by lia. rewrite Z.add_0_r. apply Z.b2z_bit0.
  - cbn in Hi. pose proof (lookup_lt_Some _ _ _ Hi) as Hlt.
    replace (S (length rest) - 1 - S i)%nat with (length rest - 1 - i)%nat
      by lia.
    rewrite <- (Z.mod_pow2_bits_low _ (Z.of_nat (length rest))) by lia.
    rewrite Z.add_comm, Z.mod_add by lia.
    rewrite Z.mod_small by lia. now apply IH.
Qed.

Lemma hex_digit_of_hex_char (d : Z) :
  (0 <= d < 16)%Z -> Py.hex_digit_of (Py.hex_char d) = Some d.
Proof.
  intros Hd. destruct d as [| p | p]; [reflexivity | | lia].
  do 4 (destruct p as [p | p |]; try lia; try reflexivity).
Qed.

(** Reading back the digits that [hex_from] writes. *)
Lemma int16_from_hex_from (fuel : nat) :
  forall (n : Z) (rest : string),
    (0 <= n < 16 ^ Z.of_nat fuel)%Z ->
    exists k : nat,
      forall acc,
        Py.int16_from acc (Py.hex_from fuel n rest)
        = Py.int16_from (acc * 16 ^ Z.of_nat k + n)%Z rest.
Proof.
  induction fuel as [| fuel IH]; intros n rest Hn.
  - exists 0%nat. intros acc. cbn [Py.hex_from]. f_equal. cbn in Hn |- *. lia.
  - cbn [Py.hex_from]. destruct (Z.ltb_spec n 16) as [Hsmall | Hbig].
    + exists 1%nat. intros acc. cbn [Py.int16_from].
      rewrite hex_digit_of_hex_char by lia. f_equal. cbn. lia.
    + rewrite Nat2Z.inj_succ, Z.pow_succ_r in Hn by lia.
      destruct (IH (n / 16)%Z (String (Py.hex_char (n mod 16)) rest))
        as [k Hk].
      { split; [apply Z.div_pos; lia |].
        apply Z.div_lt_upper_bound; lia. }
      exists (S k). intros acc. rewrite Hk. cbn [Py.int16_from].
      rewrite hex_digit_of_hex_char by (apply Z.mod_pos_bound; lia).
      f_equal. rewrite Nat2Z.inj_succ, Z.pow_succ_r by lia.
      pose proof (Z.div_mod n 16). lia.
Qed.

Lemma hex_from_not_empty (fuel : nat) :
  forall (n : Z) (acc : string),
    (1 <= fuel)%nat \/ acc <> "" -> Py.hex_from fuel n acc <> "".
Proof.
  induction fuel as [| fuel IH]; intros n acc Hne; cbn [Py.hex_from].
  - destruct Hne as [Hfuel | Hacc]; [lia | exact Hacc].
  - destruct (n <? 16)%Z; [intros H; discriminate H |].
    apply IH. right. intros H. discriminate H.
Qed.

Lemma size_nat_pow (p : positive) : (Zpos p < 2 ^ Z.of_nat (Pos.size_nat p))%Z.
Proof.
  induction p as [p IH | p IH |]; cbn [Pos.size_nat];
    rewrite ?Nat2Z.inj_succ, ?Z.pow_succ_r by lia; cbn; lia.
Qed.

(** A hexadecimal digit is no blank, sign, underscore or [x]. *)
Lemma hex_digit_plain (c : ascii) (d : Z) :
  Py.hex_digit_of c = Some d ->
  Py.int_isspace c = false
  /\ Ascii.eqb c "+" = false /\ Ascii.eqb c "-" = false
  /\ Ascii.eqb c "_" = false
  /\ Ascii.eqb c "x" = false /\ Ascii.eqb c "X" = false.
Proof.
  destruct c as [[] [] [] [] [] [] [] []]; intros H;
    first [ now repeat split | vm_compute in H; discriminate H ].
Qed.

Lemma int16_from_digits (s : string) :
  forall acc n,
    Py.int16_from acc s = Some n -> Py.int16_digits acc s = Some n.
Proof.
  induction s as [| c r IH]; intros acc n; [trivial |].
  cbn [Py.int16_from Py.int16_digits].
  destruct (Py.hex_digit_of c) as [d |] eqn:Hd; [| intros H; discriminate H].
  destruct (hex_digit_plain _ _ Hd) as (_ & _ & _ & -> & _).
  apply IH.
Qed.

Lemma int_rstrip_digits (s : string) :
  forall acc n, Py.int16_from acc s = Some n -> Py.int_rstrip s = s.
Proof.
  induction s as [| c r IH]; intros acc n; [trivial |].
  cbn [Py.int16_from Py.int_rstrip].
  destruct (Py.hex_digit_of c) as [d |] eqn:Hd; [| intros H; discriminate H].
  destruct (hex_digit_plain _ _ Hd) as (Hspace & _).
  intros Hr. rewrite (IH _ _ Hr), Hspace. now destruct r.
Qed.

(** On a string of hexadecimal digits that is not empty [int] reads the
    number they spell. *)
Lemma int16_of_digits (s : string) (n : Z) :
  s <> "" -> Py.int16_from 0 s = Some n -> Py.int16 s = Py.Ok n.
Proof.
  intros Hne Hdigits. destruct s as [| c r]; [contradiction |].
  unfold Py.int16.
  pose proof Hdigits as Hhead. cbn [Py.int16_from] in Hhead.
  destruct (Py.hex_digit_of c) as [d |] eqn:Hd; [| discriminate Hhead].
  destruct (hex_digit_plain _ _ Hd) as (Hspace & Hplus & Hminus & _).
  cbn [Py.int_lstrip]. rewrite Hspace, (int_rstrip_digits _ _ _ Hdigits).
  rewrite Hplus, Hminus. unfold Py.int16_unsigned.
  assert (Hplain :
    match String c r with
    | String c0 (String x r0) =>
        if Ascii.eqb c0 "0" && (Ascii.eqb x "x" || Ascii.eqb x "X")
        then match r0 with
             | String u r' => if Ascii.eqb u "_" then r' else r0
             | EmptyString => r0
             end
        else String c r
    | _ => String c r
    end = String c r).
  { destruct r as [| x r0]; [reflexivity |].
    cbn [Py.int16_from] in Hhead.
    destruct (Py.hex_digit_of x) as [dx |] eqn:Hx; [| discriminate Hhead].
    destruct (hex_digit_plain _ _ Hx) as (_ & _ & _ & _ & -> & ->).
    now rewrite andb_false_r. }
  rewrite Hplain, Hd.
  change (Py.int16_from d r = Some n) in Hhead.
  now rewrite (int16_from_digits _ _ _ Hhead).
Qed.

(** [int(hex(n)[2:], 16)] is [n]. *)
Lemma int16_hex (n : Z) :
  (0 <= n)%Z -> Py.int16 (Py.slice_from 2 (Py.hex n)) = Py.Ok n.
Proof.
  intros Hn. destruct n as [| p | p]; [reflexivity | | lia].
  change (Py.slice_from 2 (Py.hex (Zpos p)))
    with (Py.hex_from (Pos.size_nat p) (Zpos p) "").
  assert (Hfuel : (1 <= Pos.size_nat p)%nat) by (destruct p; cbn; lia).
  pose proof (hex_from_not_empty (Pos.size_nat p) (Zpos p) "" (or_introl Hfuel))
    as Hne.
  destruct (int16_from_hex_from (Pos.size_nat p) (Zpos p) "") as [k Hk].
  { split; [lia |]. pose proof (size_nat_pow p) as Hlt.
    assert (2 ^ Z.of_nat (Pos.size_nat p) <= 16 ^ Z.of_nat (Pos.size_nat p))%Z
      by (apply Z.pow_le_mono_l; lia).
    lia. }
  apply int16_of_digits; [exact Hne |].
  rewrite (Hk 0%Z). reflexivity.
Qed.

(** The average hash of a row of pixels is the hexadecimal numeral of
    the number whose binary digits are the bits of the row. *)
Lemma average_hash_value (pixels : list Z) :
  pixels <> [] ->
  ImageVerifier.average_hash pixels
  = Py.Ok (Py.slice_from 2 (Py.hex (bits_value (hash_bits pixels)))).
Proof.
  intros Hne. unfold ImageVerifier.average_hash.
  fold (hash_bits pixels). rewrite join_bit_strings.
  assert (Hint : Py.int2 (bits_string (hash_bits pixels))
                 = Py.Ok (bits_value (hash_bits pixels))).
  { unfold Py.int2.
    destruct (bits_string (hash_bits pixels)) as [| c r] eqn:Hs.
    - destruct pixels; [contradiction | discriminate Hs].
    - rewrite <- Hs, int2_from_bits. f_equal; lia. }
  now rewrite Hint.
Qed.

(** X24. The average hash of a row of pixels that is not empty is the
    hexadecimal numeral of a number below two to the number of pixels,
    whose bits, the first pixel in the highest place, say which pixels
    are above the mean: the hash of 64 pixels is a 64-bit hash. *)
Theorem average_hash_bits (pixels : list Z) :
  pixels <> [] ->
  exists hash n,
    ImageVerifier.average_hash pixels = Py.Ok hash
    /\ Py.int16 hash = Py.Ok n
    /\ (0 <= n < 2 ^ Z.of_nat (length pixels))%Z
    /\ (length pixels = 64%nat -> is_hash64 hash n)
    /\ forall (i : nat) (pixel : Z),
         pixels !! i = Some pixel ->
         Z.testbit n (Z.of_nat (length pixels - 1 - i))
         = Py.Qlt_bool (ImageVerifier.mean pixels) (inject_Z pixel).
Proof.
  intros Hne.
  pose proof (bits_value_bounds (hash_bits pixels)) as Hbounds.
  assert (Hlen : length (hash_bits pixels) = length pixels)
    by apply length_map.
  rewrite Hlen in Hbounds.
  exists (Py.slice_from 2 (Py.hex (bits_value (hash_bits pixels)))),
         (bits_value (hash_bits pixels)).
  split; [now apply average_hash_value |].
  split; [apply int16_hex; lia |].
  split; [exact Hbounds |].
  split.
  - intros H64. split; [apply int16_hex; lia |].
    rewrite H64 in Hbounds. exact Hbounds.
  - intros i pixel Hi. rewrite <- Hlen.
    apply bits_value_testbit. unfold hash_bits.
    rewrite list_lookup_fmap, Hi. reflexivity.
Qed.

Lemma average_hash_bits_witness :
  exists hash n,
    ImageVerifier.average_hash [10; 200; 30; 250]%Z = Py.Ok hash
    /\ Py.int16 hash = Py.Ok n
    /\ Z.testbit n 2 = true.
Proof.
  destruct (average_hash_bits [10; 200; 30; 250]%Z)
    as (hash & n & Hhash & Hint & _ & _ & Hbits).
  - intros H. discriminate H.
  - exists hash, n. split; [exact Hhash |]. split; [exact Hint |].
    apply (Hbits 1%nat 200%Z). reflexivity.
Defined.

Lemma sum_repeat (pixel : Z) (k : nat) :
  fold_right Z.add 0%Z (repeat pixel k) = (Z.of_nat k * pixel)%Z.
Proof.
  induction k as [| k IH]; [reflexivity |].
  cbn [repeat fold_right]. rewrite IH. lia.
Qed.

Lemma bits_value_all_false (bits : list bool) :
  (forall b, b ∈ bits -> b = false) -> bits_value bits = 0%Z.
Proof.
  induction bits as [| b rest IH]; intros Hall; [reflexivity |].
  cbn [bits_value]. rewrite (Hall b) by apply list_elem_of_here.
  rewrite IH; [reflexivity |].
  intros b' Hb'. apply Hall. now apply list_elem_of_further.
Qed.

(** X25. A picture of one gray level, whatever the level, has the hash "0":
    no pixel is above the mean. *)
Theorem average_hash_uniform (pixel : Z) (k : nat) :
  (1 <= k)%nat ->
  ImageVerifier.average_hash (repeat pixel k) = Py.Ok "0".
Proof.
  intros Hk.
  rewrite average_hash_value by (destruct k; [lia | intros H; discriminate H]).
  rewrite bits_value_all_false; [reflexivity |].
  intros b Hb. unfold hash_bits in Hb.
  apply list_elem_of_fmap in Hb as (x & -> & Hx).
  apply list_elem_of_In, repeat_spec in Hx. subst x.
  apply Qlt_bool_ge. unfold ImageVerifier.mean.
  rewrite sum_repeat, repeat_length.
  assert (Hpos : (0 < inject_Z (Z.of_nat k))%Q).
  { change 0%Q with (inject_Z 0). rewrite <- Zlt_Qlt. lia. }
  apply Qle_shift_div_l; [exact Hpos |].
  rewrite inject_Z_mult. lra.
Qed.

Lemma average_hash_uniform_witness :
  ImageVerifier.average_hash (repeat 0%Z 64)
  = ImageVerifier.average_hash (repeat 255%Z 64).
Proof.
  rewrite (average_hash_uniform 0 64) by lia.
  rewrite (average_hash_uniform 255 64) by lia.
  reflexivity.
Defined.

Section ComputeImageHashFacts.

Variable load_gray_8x8 : string -> Py.result (list Z).
Variable md5_hexdigest : string -> Py.result string.

(** X26. The hash of an image is its average hash when the picture can be
    read, and the MD5 digest of the file when it cannot, or has no
    pixel; hashing fails only when reading the file for the digest
    fails. *)
Theorem compute_image_hash_fallback (image_path : string) :
  (forall pixels,
      load_gray_8x8 image_path = Py.Ok pixels -> pixels <> [] ->
      ImageVerifier._compute_image_hash load_gray_8x8 md5_hexdigest image_path
      = ImageVerifier.average_hash pixels
      /\ Py.is_ok (ImageVerifier.average_hash pixels) = true)
  /\ (Py.is_ok (load_gray_8x8 image_path) = false
      \/ load_gray_8x8 image_path = Py.Ok [] ->
      ImageVerifier._compute_image_hash load_gray_8x8 md5_hexdigest image_path
      = md5_hexdigest image_path)
  /\ (forall e,
        ImageVerifier._compute_image_hash load_gray_8x8 md5_hexdigest
          image_path = Py.Raise e ->
        md5_hexdigest image_path = Py.Raise e).
Proof.
  unfold ImageVerifier._compute_image_hash.
  destruct (load_gray_8x8 image_path) as [pixels |] eqn:Hload;
    cbn [Py.bind Py.try_except].
  - destruct pixels as [| pixel pixels].
    + split; [intros pixels [= <-] Hne; contradiction |].
      split; [reflexivity |]. intros e He. exact He.
    + assert (Hne : pixel :: pixels <> []) by (intros H; discriminate H).
      rewrite (average_hash_value _ Hne). cbn [Py.try_except Py.is_ok].
      split; [intros pixels' [= <-] _; rewrite (average_hash_value _ Hne);
              now split |].
      split; [intros [H | H]; discriminate H |].
      intros e H. discriminate H.
  - split; [intros pixels H; discriminate H |].
    split; [reflexivity |]. intros e' He. exact He.
Qed.

End ComputeImageHashFacts.

Lemma compute_image_hash_fallback_witness :
  ImageVerifier._compute_image_hash
    (fun _ => Py.Raise (Py.ValueError "cannot identify image file"))
    (fun _ => Py.Ok "d41d8cd98f00b204e9800998ecf8427e") "broken.jpg"
  = Py.Ok "d41d8cd98f00b204e9800998ecf8427e".
Proof.
  apply (compute_image_hash_fallback
           (fun _ => Py.Raise (Py.ValueError "cannot identify image file"))
           (fun _ => Py.Ok "d41d8cd98f00b204e9800998ecf8427e") "broken.jpg").
  left. reflexivity.
Defined.

(** ** Yield prediction *)

Lemma round2_nonneg (q : Q) : (0 <= q)%Q -> (0 <= Py.round2 q)%Q.
Proof.
  intros Hq. unfold Py.round2.
  assert (H : (0 <= Py.round_half_even (q * 100))%Z).
  { apply round_half_even_ge. change (inject_Z 0) with 0%Q. lra. }
  rewrite Zle_Qle in H. change (inject_Z 0) with 0%Q in H.
  unfold Qdiv. change (/ 100)%Q with (1 # 100)%Q. lra.
Qed.



Lemma determine_risk_level_words (predicted_yield fertilizer_usage : Q)
    (weather_features : option (gmap string Q)) :
  YieldPredictor._determine_risk_level predicted_yield fertilizer_usage
    weather_features ∈ ["low"; "medium"; "high"].
Proof.
  unfold YieldPredictor._determine_risk_level.
  destruct weather_features as [given |]; [case_bool_decide |];
    repeat match goal with
           | |- context [if ?b then _ else _] => destruct b
           end;
    by_computation.
Qed.

(** What the advice of the yield predictor always holds. *)
Lemma yield_recommendations_facts (crop_type : string)
    (predicted_yield fertilizer_usage : Q)
    (weather_features : option (gmap string Q)) (risk_level : string) :
  let advice :=
    YieldPredictor._generate_recommendations crop_type predicted_yield
      fertilizer_usage weather_features risk_level in
  (1 <= length advice <= 5)%nat
  /\ (risk_level = "high" ->
      "High risk detected - consider consulting agricultural experts" ∈ advice)
  /\ ("Conditions look favorable - maintain current farming practices" ∈ advice
      -> advice
         = ["Conditions look favorable - maintain current farming practices"]).
Proof.
  cbv zeta. unfold YieldPredictor._generate_recommendations.
  destruct (String.eqb_spec risk_level "high") as [-> | Hrisk];
    (destruct weather_features as [given |];
     [case_bool_decide;
      [| destruct (Py.Qlt_bool (Py.dict_get given "rainfall" 0%Q) 50);
         [| destruct (Py.Qlt_bool 200 (Py.dict_get given "rainfall" 0%Q))]] |]);
    destruct (Py.Qlt_bool fertilizer_usage 50);
    destruct (Py.Qlt_bool predicted_yield 30);
    destruct (Py.lower crop_type =? "rice")%string;
    try destruct (Py.lower crop_type =? "wheat")%string;
    cbn [Py.append app length];
    (split; [lia |]);
    (split; [intros Hhigh; first [by_computation | contradiction] |]);
    intros Hin; first [reflexivity | exfalso; revert Hin; by_computation].
Qed.

Section PredictFacts.

Variable today : Py.date.
Variable py_float : string -> option Q.
Variable scaler_transform : option (list Q -> Py.result (list Q)).
Variable model_predict : list Q -> Py.result Q.

Variables crop_type land_size sowing_date soil_type irrigation_type : string.
Variable fertilizer_usage : Q.
Variable weather_features : option (gmap string Q).

Abbreviation run_predict :=
  (YieldPredictor.predict today py_float scaler_transform model_predict
     crop_type land_size sowing_date soil_type irrigation_type
     fertilizer_usage weather_features).

Abbreviation yield_features :=
  (YieldPredictor._prepare_features today py_float crop_type land_size
     sowing_date soil_type irrigation_type fertilizer_usage weather_features).

Abbreviation yield_scaled features :=
  (match scaler_transform with
   | Some transform => transform features
   | None => Py.Ok features
   end).

Lemma predict_unfold :
  exists features,
    yield_features = Py.Ok features
    /\ run_predict
       = match yield_scaled features with
         | Py.Raise e => Py.Raise e
         | Py.Ok features_scaled =>
             match model_predict features_scaled with
             | Py.Raise e => Py.Raise e
             | Py.Ok answer =>
                 let predicted_yield := Py.max 0.0%Q answer in
                 let risk_level :=
                   YieldPredictor._determine_risk_level predicted_yield
                     fertilizer_usage weather_features in
                 Py.Ok {| YieldPredictor.predicted_yield :=
                            Py.round2 predicted_yield;
                          YieldPredictor.confidence := Py.round2 85.0%Q;
                          YieldPredictor.risk_level := risk_level;
                          YieldPredictor.recommendations :=
                            YieldPredictor._generate_recommendations crop_type
                              predicted_yield fertilizer_usage weather_features
                              risk_level |}
             end
         end.
Proof.
  destruct (yield_prepare_features_ok today py_float crop_type land_size
              sowing_date soil_type irrigation_type fertilizer_usage
              weather_features) as (t & r & h & w & u & Hok).
  eexists. split; [exact Hok |].
  unfold YieldPredictor.predict. rewrite Hok. cbn [Py.bind].
  destruct (yield_scaled _) as [features_scaled | e]; [| reflexivity].
  cbn [Py.bind].
  now destruct (model_predict features_scaled).
Qed.

(** X28. A yield prediction that returns reports a yield that is not
    negative, a confidence of 85, one of the three risk levels, and from
    one to five pieces of advice; a high risk is among them, and the
    words that conditions look favorable come alone. *)
Theorem predict_result_facts (result : YieldPredictor.prediction) :
  run_predict = Py.Ok result ->
  (0 <= YieldPredictor.predicted_yield result)%Q
  /\ (YieldPredictor.confidence result == 85)%Q
  /\ YieldPredictor.risk_level result ∈ ["low"; "medium"; "high"]
  /\ (1 <= length (YieldPredictor.recommendations result) <= 5)%nat
  /\ (YieldPredictor.risk_level result = "high" ->
      "High risk detected - consider consulting agricultural experts"
        ∈ YieldPredictor.recommendations result)
  /\ ("Conditions look favorable - maintain current farming practices"
        ∈ YieldPredictor.recommendations result ->
      YieldPredictor.recommendations result
      = ["Conditions look favorable - maintain current farming practices"]).
Proof.
  destruct predict_unfold as (features & _ & ->).
  destruct (yield_scaled features) as [features_scaled | e1]; [| intros [=]].
  destruct (model_predict features_scaled) as [answer | e2]; [| intros [=]].
  cbv zeta. intros [= <-].
  cbn [YieldPredictor.predicted_yield YieldPredictor.confidence
       YieldPredictor.risk_level YieldPredictor.recommendations].
  split.
  { apply round2_nonneg. unfold Py.max.
    destruct (Py.Qlt_bool 0.0 answer) eqn:Hpos; q_bools; lra. }
  split; [reflexivity |].
  split; [apply determine_risk_level_words |].
  apply yield_recommendations_facts.
Qed.

End PredictFacts.

Lemma predict_result_facts_witness :
  exists result,
    YieldPredictor.predict (Py.Date 2024 12 30) Py.float_of_decimal None
      (fun _ => Py.Ok (-3)%Q)
      "wheat" "5 acre" "2024-10-01" "black" "sprinkler" 60 None
    = Py.Ok result
    /\ (0 <= YieldPredictor.predicted_yield result)%Q
    /\ "High risk detected - consider consulting agricultural experts"
         ∈ YieldPredictor.recommendations result.
Proof.
  eexists. split; [vm_compute; reflexivity |].
  destruct (predict_result_facts (Py.Date 2024 12 30) Py.float_of_decimal None
              (fun _ => Py.Ok (-3)%Q)
              "wheat" "5 acre" "2024-10-01" "black" "sprinkler" 60 None _
              ltac:(vm_compute; reflexivity))
    as (Hyield & _ & _ & _ & Hhigh & _).
  split; [exact Hyield |]. apply Hhigh. reflexivity.
Defined.

(** ** Satellite verification *)

(** [argmax] finds the first index at which the greatest entry of the
    vector stands. *)
Lemma argmax_from_spec (l : list Q) :
  forall (best_i : nat) (best : Q) (i : nat),
    (Py.argmax_from best_i best i l = best_i
     /\ forall x, x ∈ l -> (x <= best)%Q)
    \/ exists k v,
         Py.argmax_from best_i best i l = (i + k)%nat
         /\ l !! k = Some v
         /\ (best < v)%Q
         /\ (forall x, x ∈ l -> (x <= v)%Q)
         /\ (forall j y, (j < k)%nat -> l !! j = Some y -> (y < v)%Q).
Proof.
  induction l as [| x rest IH]; intros best_i best i.
  - left. split; [reflexivity |].
    intros y Hy. now apply elem_of_nil in Hy.
  - cbn [Py.argmax_from]. destruct (Py.Qlt_bool best x) eqn:Hlt.
    + apply Qlt_bool_iff in Hlt. right.
      destruct (IH i x (S i))
        as [[-> Hall] | (k & v & -> & Hk & Hbest & Hall & Hfirst)].
      * exists 0%nat, x. split; [lia |]. split; [reflexivity |].
        split; [exact Hlt |]. split.
        -- intros y Hy. apply elem_of_cons in Hy as [-> | Hy];
             [apply Qle_refl | now apply Hall].
        -- intros j y Hj. lia.
      * exists (S k), v. split; [lia |]. split; [exact Hk |].
        split; [lra |]. split.
        -- intros y Hy. apply elem_of_cons in Hy as [-> | Hy];
             [lra | now apply Hall].
        -- intros [| j] y Hj Hy.
           ++ cbn in Hy. injection Hy as <-. exact Hbest.
           ++ cbn in Hy. apply (Hfirst j); [lia | exact Hy].
    + apply Qlt_bool_ge in Hlt.
      destruct (IH best_i best (S i))
        as [[-> Hall] | (k & v & -> & Hk & Hbest & Hall & Hfirst)].
      * left. split; [reflexivity |].
        intros y Hy. apply elem_of_cons in Hy as [-> | Hy];
          [exact Hlt | now apply Hall].
      * right. exists (S k), v. split; [lia |]. split; [exact Hk |].
        split; [exact Hbest |]. split.
        -- intros y Hy. apply elem_of_cons in Hy as [-> | Hy];
             [lra | now apply Hall].
        -- intros [| j] y Hj Hy.
           ++ cbn in Hy. injection Hy as <-. lra.
           ++ cbn in Hy. apply (Hfirst j); [lia | exact Hy].
Qed.

Lemma argmax_spec (l : list Q) :
  match Py.argmax l with
  | Py.Ok idx => exists v, is_first_max l idx v
  | Py.Raise _ => l = []
  end.
Proof.
  destruct l as [| x rest]; [reflexivity |].
  cbn [Py.argmax]. unfold is_first_max.
  destruct (argmax_from_spec rest 0 x 1)
    as [[-> Hall] | (k & v & -> & Hk & Hbest & Hall & Hfirst)].
  - exists x. split; [reflexivity |]. split.
    + intros y Hy. apply elem_of_cons in Hy as [-> | Hy];
        [apply Qle_refl | now apply Hall].
    + intros j y Hj. lia.
  - exists v. split; [exact Hk |]. split.
    + intros y Hy. apply elem_of_cons in Hy as [-> | Hy];
        [lra | now apply Hall].
    + intros [| j] y Hj Hy.
      * cbn in Hy. injection Hy as <-. exact Hbest.
      * cbn in Hy. apply (Hfirst j); [lia | exact Hy].
Qed.

(** The dict of class probabilities: a label has the entry at its index,
    at its last index when it stands more than once; there is no dict
    when the vector is shorter than the labels. *)
Lemma class_probabilities_from_spec (classes : list string) :
  forall (i : nat) (predictions : list Q) (acc : gmap string Q),
    match SatelliteVerifier.class_probabilities_from classes i predictions acc
    with
    | Py.Ok probabilities =>
        (classes = [] \/ length classes + i <= length predictions)%nat
        /\ (forall c, c ∈ dom probabilities <-> c ∈ classes \/ c ∈ dom acc)
        /\ (forall c, c ∉ classes -> probabilities !! c = acc !! c)
        /\ (forall k c,
              classes !! k = Some c ->
              (forall j, (k < j)%nat -> classes !! j <> Some c) ->
              probabilities !! c = predictions !! (i + k)%nat)
    | Py.Raise e =>
        e = Py.IndexError /\ (length predictions < length classes + i)%nat
    end.
Proof.
  induction classes as [| c rest IH]; intros i predictions acc.
  - cbn. split; [now left |]. split; [| split].
    + intros c. rewrite elem_of_nil. tauto.
    + reflexivity.
    + intros k c H. discriminate H.
  - cbn [SatelliteVerifier.class_probabilities_from]. unfold Py.getitem.
    destruct (predictions !! i) as [p |] eqn:Hp; cbn [Py.bind].
    + specialize (IH (S i) predictions (<[ c := p ]> acc)).
      destruct (SatelliteVerifier.class_probabilities_from rest (S i)
                  predictions (<[ c := p ]> acc)) as [probabilities | e].
      * destruct IH as (Hlen & Hdom & Hout & Hin).
        pose proof (lookup_lt_Some _ _ _ Hp) as Hi.
        split; [right; destruct Hlen as [-> | Hlen]; cbn [length]; lia |].
        split; [| split].
        -- intros c'. rewrite Hdom, dom_insert_L, elem_of_union,
             elem_of_singleton, elem_of_cons. tauto.
        -- intros c' Hc'. apply not_elem_of_cons in Hc' as [Hne Hc'].
           rewrite (Hout _ Hc'). now apply lookup_insert_ne.
        -- intros [| k] c' Hk Hlast.
           ++ cbn in Hk. injection Hk as <-.
              assert (Hnot : c ∉ rest).
              { intros Hc. apply list_elem_of_lookup in Hc as [j Hj].
                apply (Hlast (S j)); [lia | exact Hj]. }
              rewrite (Hout _ Hnot), lookup_insert_eq.
              now rewrite Nat.add_0_r.
           ++ cbn in Hk. rewrite (Hin k c' Hk).
              ** f_equal. lia.
              ** intros j Hj. apply (Hlast (S j)). lia.
      * destruct IH as [-> Hlen]. split; [reflexivity |]. cbn [length]. lia.
    + split; [reflexivity |]. apply lookup_ge_None in Hp. cbn [length]. lia.
Qed.

Section SatelliteFacts.

Variable image : Type.
Variable classes : list string.
Variable model : option (image -> Py.result (list Q)).
Variable preprocess_image : string -> Py.result image.
Variable str : Py.exn -> string.

Abbreviation satellite_predict :=
  (SatelliteVerifier.predict image classes model preprocess_image str).

Abbreviation satellite_verify_crop_health :=
  (SatelliteVerifier.verify_crop_health image classes model preprocess_image
     str).

(** X29. Without a model [predict] raises [ValueError].  With a model it
    never raises.  A failure of the image library or of the model is
    answered by the error dict with the text of the exception.  On the
    vector that the model returns for the image, [predict] succeeds
    exactly when the vector is not empty, is as long as the class labels
    at least, and has its first greatest entry at an index that has a
    label: the result then names that label with that entry as its
    confidence, and gives each label the entry at its index, the last
    one for a label that stands twice.  Otherwise it answers the error
    dict. *)
Theorem satellite_predict_total (image_path : string) :
  (model = None ->
   satellite_predict image_path
   = Py.Raise (Py.ValueError "Model not loaded. Call load_model() first."))
  /\ (forall model_predict,
        model = Some model_predict ->
        match preprocess_image image_path with
        | Py.Raise e =>
            satellite_predict image_path = Py.Ok (error_prediction (str e))
        | Py.Ok img =>
            match model_predict img with
            | Py.Raise e =>
                satellite_predict image_path
                = Py.Ok (error_prediction (str e))
            | Py.Ok predictions =>
                exists result,
                  satellite_predict image_path = Py.Ok result
                  /\ ((SatelliteVerifier.status result = "success"
                       /\ SatelliteVerifier.error result = None
                       /\ (length classes <= length predictions)%nat
                       /\ (exists idx label,
                             is_first_max predictions idx
                               (SatelliteVerifier.confidence result)
                             /\ classes !! idx = Some label
                             /\ SatelliteVerifier.predicted_class result
                                = Some label)
                       /\ (forall c,
                             c ∈ dom (SatelliteVerifier.class_probabilities
                                        result)
                             <-> c ∈ classes)
                       /\ (forall k c,
                             classes !! k = Some c ->
                             (forall j, (k < j)%nat -> classes !! j <> Some c) ->
                             SatelliteVerifier.class_probabilities result !! c
                             = predictions !! k))
                      \/ ((exists e, result = error_prediction (str e))
                          /\ (predictions = []
                              \/ (exists idx v,
                                    is_first_max predictions idx v
                                    /\ (length classes <= idx)%nat)
                              \/ (length predictions < length classes)%nat)))
            end
        end).
Proof.
  split.
  - intros Hnone. unfold SatelliteVerifier.predict. now rewrite Hnone.
  - intros model_predict Hmodel. unfold SatelliteVerifier.predict.
    rewrite Hmodel.
    destruct (preprocess_image image_path) as [img | e]; cbn [Py.bind];
      [| reflexivity].
    destruct (model_predict img) as [predictions | e]; cbn [Py.bind];
      [| reflexivity].
    pose proof (argmax_spec predictions) as Hargmax.
    destruct (Py.argmax predictions) as [idx | e]; cbn [Py.bind].
    + destruct Hargmax as [v Hmax]. pose proof Hmax as (Hv & _).
      unfold Py.getitem at 1. rewrite Hv. cbn [Py.bind].
      unfold Py.getitem at 1.
      destruct (classes !! idx) as [label |] eqn:Hlabel; cbn [Py.bind].
      * pose proof (class_probabilities_from_spec classes 0 predictions ∅)
          as Hprob.
        destruct (SatelliteVerifier.class_probabilities_from classes 0
                    predictions ∅) as [probabilities | e]; cbn [Py.bind].
        -- destruct Hprob as (Hlen & Hdom & _ & Hin).
           eexists. split; [reflexivity |]. left.
           cbn [SatelliteVerifier.status SatelliteVerifier.error
                SatelliteVerifier.confidence SatelliteVerifier.predicted_class
                SatelliteVerifier.class_probabilities].
           split; [reflexivity |]. split; [reflexivity |].
           split.
           { destruct Hlen as [Hnil | Hlen]; [| lia].
             rewrite Hnil in Hlabel. discriminate Hlabel. }
           split.
           { exists idx, label. split; [exact Hmax |].
             split; [exact Hlabel | reflexivity]. }
           split.
           { intros c. rewrite Hdom, dom_empty_L, elem_of_empty. tauto. }
           intros k c Hk Hlast. exact (Hin k c Hk Hlast).
        -- destruct Hprob as [-> Hlen].
           eexists. split; [reflexivity |]. right.
           split; [now exists Py.IndexError |]. right. right. lia.
      * eexists. split; [reflexivity |]. right.
        split; [now exists Py.IndexError |]. right. left.
        exists idx, v. split; [exact Hmax |].
        now apply lookup_ge_None in Hlabel.
    + eexists. split; [reflexivity |]. right.
      split; [now exists e |]. now left.
Qed.

(** X30. The health check passes an error dict on as it is.  Otherwise a
    confidence below the threshold gives "uncertain" whatever the class;
    at or above it the status follows the class, and a class that is
    none of healthy, damaged and cloud_cover is reported as "no_crop". *)
Theorem verify_crop_health_status (image_path : string)
    (confidence_threshold : Q) (v : SatelliteVerifier.verification) :
  satellite_verify_crop_health image_path confidence_threshold = Py.Ok v ->
  satellite_predict image_path = Py.Ok (SatelliteVerifier.base v)
  /\ (SatelliteVerifier.status (SatelliteVerifier.base v) = "error" ->
      SatelliteVerifier.verification_status v = None
      /\ SatelliteVerifier.recommendation v = None)
  /\ (SatelliteVerifier.status (SatelliteVerifier.base v) <> "error" ->
      exists status,
        SatelliteVerifier.verification_status v = Some status
        /\ status ∈ ["uncertain"; "healthy"; "damaged"; "obscured"; "no_crop"]
        /\ (status = "uncertain"
            <-> (SatelliteVerifier.confidence (SatelliteVerifier.base v)
                 < confidence_threshold)%Q)
        /\ (status = "healthy" ->
            SatelliteVerifier.predicted_class (SatelliteVerifier.base v)
            = Some "healthy")
        /\ (status = "damaged" ->
            SatelliteVerifier.predicted_class (SatelliteVerifier.base v)
            = Some "damaged")
        /\ (status = "obscured" ->
            SatelliteVerifier.predicted_class (SatelliteVerifier.base v)
            = Some "cloud_cover")).
Proof.
  unfold SatelliteVerifier.verify_crop_health.
  destruct (satellite_predict image_path) as [prediction | e];
    cbn [Py.bind]; [| intros H; discriminate H].
  destruct (String.eqb_spec (SatelliteVerifier.status prediction) "error")
    as [Herror | Hfine].
  - intros [= <-]. cbn. split; [reflexivity |]. split; [now split |].
    intros Hne. contradiction.
  - destruct (Py.Qlt_bool (SatelliteVerifier.confidence prediction)
                confidence_threshold) eqn:Hlow;
      [| case_bool_decide as Hhealthy;
         [| case_bool_decide as Hdamaged;
            [| case_bool_decide as Hcloud]]];
      intros [= <-]; cbn; (split; [reflexivity |]);
      (split; [intros Herror; contradiction |]); intros _;
      eexists; (split; [reflexivity |]); (split; [by_computation |]);
      q_bools;
      (split; [split; [intros H; first [exact Hlow | discriminate H]
                      | intros H; first [reflexivity | lra]] |]);
      repeat split; intros H; first [assumption | discriminate H].
Qed.

End SatelliteFacts.

Lemma satellite_predict_total_witness :
  exists result,
    SatelliteVerifier.predict unit SatelliteVerifier.default_classes
      (Some (fun _ => Py.Ok [0.1; 0.7; 0.7; 0.05]%Q)) (fun _ => Py.Ok tt)
      (fun _ => "list index out of range") "tile.png"
    = Py.Ok result
    /\ SatelliteVerifier.predicted_class result = Some "damaged".
Proof.
  destruct (satellite_predict_total unit SatelliteVerifier.default_classes
              (Some (fun _ => Py.Ok [0.1; 0.7; 0.7; 0.05]%Q))
              (fun _ => Py.Ok tt)
              (fun _ => "list index out of range") "tile.png")
    as [_ Hmodel].
  destruct (Hmodel _ eq_refl) as (result & Hrun & Hshape).
  exists result. split; [exact Hrun |].
  assert (Hin : (0.7%Q : Q) ∈ [0.1; 0.7; 0.7; 0.05]%Q)
    by (apply list_elem_of_further, list_elem_of_here).
  destruct Hshape
    as [(_ & _ & _ & (idx & label & (Hidx & Hall & Hfirst) & Hlabel & ->) & _)
       | (_ & [Hempty | [(idx & v & (Hidx & _) & Hlong) | Hshort]])].
  - f_equal. specialize (Hall _ Hin).
    destruct idx as [| [| [| [| idx]]]].
    + injection Hidx as Hconf. rewrite <- Hconf in Hall.
      exfalso. apply (Qle_not_lt _ _ Hall). reflexivity.
    + now injection Hlabel.
    + injection Hidx as Hconf.
      specialize (Hfirst 1%nat 0.7%Q ltac:(lia) eq_refl).
      rewrite <- Hconf in Hfirst.
      exfalso. apply (Qlt_irrefl _ Hfirst).
    + injection Hidx as Hconf. rewrite <- Hconf in Hall.
      exfalso. apply (Qle_not_lt _ _ Hall). reflexivity.
    + discriminate Hidx.
  - discriminate Hempty.
  - apply lookup_lt_Some in Hidx. cbn in Hidx, Hlong. lia.
  - cbn in Hshort. lia.
Defined.

Lemma verify_crop_health_status_witness :
  exists v,
    SatelliteVerifier.verify_crop_health unit SatelliteVerifier.default_classes
      (Some (fun _ => Py.Ok [0.6; 0.2; 0.15; 0.05]%Q)) (fun _ => Py.Ok tt)
      (fun _ => "error") "tile.png" 0.7%Q
    = Py.Ok v
    /\ SatelliteVerifier.predicted_class (SatelliteVerifier.base v)
       = Some "healthy"
    /\ SatelliteVerifier.verification_status v = Some "uncertain".
Proof.
  eexists. split; [vm_compute; reflexivity |].
  destruct (verify_crop_health_status unit SatelliteVerifier.default_classes
              (Some (fun _ => Py.Ok [0.6; 0.2; 0.15; 0.05]%Q))
              (fun _ => Py.Ok tt) (fun _ => "error") "tile.png" 0.7%Q _
              ltac:(vm_compute; reflexivity))
    as (_ & _ & Hstatus).
  match type of Hstatus with
  | ?fine -> _ =>
      assert (Hfine : fine) by (vm_compute; intros H; discriminate H)
  end.
  specialize (Hstatus Hfine).
  destruct Hstatus as (status & Hsome & _ & Huncertain & _).
  split; [vm_compute; reflexivity |].
  rewrite Hsome. f_equal. apply Huncertain. vm_compute. reflexivity.
Defined.
